(** * i3_mcp: command synthesis and tree queries of the i3 MCP server

    A shallow embedding of the parts of [i3_mcp.py] that carry logic:
    the tree walks ([find_windows_recursive], [find_visible_scratchpads]),
    the response truncator ([truncate_response]) and the operations that
    validate their parameters and synthesize i3 commands
    ([i3_move_window], [i3_swap_containers], [i3_scratchpad_move],
    [i3_scratchpad_hide_all], [i3_workspace_bulk_move], [i3_mark_set],
    [i3_gaps_set]).

    Python values are embedded as follows.
    - [str] is [string]; every [ascii] stands for one character.
    - [int] is [Z]; [Optional[T]] is [option T] with [None] for [None].
    - A [dict] that the code builds and returns is a [json] object whose
      association list keeps the insertion order of the keys.
    - A node of the i3 tree is the record [Node]: one field per key the
      code reads, [None] when [dict.get] does not find the key.  The key
      [name], which i3 prints as [null] for a container or a window that
      has no name, is an [entry]: absent, [null] or a string.
    - An exception that the code lets escape is a value of [exn]; a
      function that may raise returns a sum [exn + T].
    - [subprocess.run] is the only effect.  An operation is a program of
      type [Act R] whose nodes are the calls to [i3-msg]; [exec] runs a
      program against a [transport], which answers each call from the
      calls made so far, and returns the calls in the order of issue. *)

From Stdlib Require Import ZArith Strings.Ascii Numbers.DecimalString.
From stdpp Require Import base list strings gmap.

Set Warnings "-register-all".
Local Open Scope Z_scope.

(** ** Python helpers *)

Module Py.

(** The character [chr(34)], the double quote. *)
Definition dquote : ascii := Ascii.ascii_of_nat 34.
(** The character [chr(92)], the backslash. *)
Definition backslash : ascii := Ascii.ascii_of_nat 92.
(** The character [chr(10)], the line feed. *)
Definition newline : ascii := Ascii.ascii_of_nat 10.

Definition DQ : string := String dquote EmptyString.
Definition NL : string := String newline EmptyString.

(** [str(z)] for an [int]. *)
Definition str_of_int (z : Z) : string := NilEmpty.string_of_int (Z.to_int z).

(** [len(s)]. *)
Definition len (s : string) : Z := Z.of_nat (String.length s).

(** Truth value of a [str]: the empty string is false. *)
Definition truthy_str (s : string) : bool :=
  match s with EmptyString => false | String _ _ => true end.

(** Truth value of an [Optional[str]]. *)
Definition truthy_ostr (o : option string) : bool :=
  match o with Some s => truthy_str s | None => false end.

(** Truth value of an [Optional[int]]: [None] and [0] are false. *)
Definition truthy_oint (o : option Z) : bool :=
  match o with Some z => negb (z =? 0) | None => false end.

(** [o is not None]. *)
Definition is_not_None {A} (o : option A) : bool :=
  match o with Some _ => true | None => false end.

(** [f"{o}"] for an [Optional[str]]: [None] is rendered as its name. *)
Definition fmt_ostr (o : option string) : string :=
  match o with Some s => s | None => "None" end.

(** [f"{o}"] for an [Optional[int]]. *)
Definition fmt_oint (o : option Z) : string :=
  match o with Some z => str_of_int z | None => "None" end.

(** The first [n] characters of [s] (all of [s] when it is shorter). *)
Fixpoint str_take (n : nat) (s : string) : string :=
  match n, s with
  | S n', String c s' => String c (str_take n' s')
  | _, _ => EmptyString
  end.

(** [s[:stop]]: a negative [stop] counts from the end of [s]. *)
Definition slice_to (s : string) (stop : Z) : string :=
  if 0 <=? stop then str_take (Z.to_nat stop) s
  else str_take (Z.to_nat (len s + stop)) s.

(** [sep.join(l)]. *)
Fixpoint join (sep : string) (l : list string) : string :=
  match l with
  | [] => ""
  | [s] => s
  | s :: l' => s +:+ sep +:+ join sep l'
  end.

(** [sum] of a list of [bool]: the number of [True]. *)
Definition sum_bool (l : list bool) : Z :=
  foldl (fun acc (b : bool) => acc + (if b then 1 else 0)) 0 l.

(** [sub in s] for two [str]. *)
Fixpoint contains (sub s : string) : bool :=
  String.prefix sub s ||
  match s with
  | EmptyString => false
  | String _ s' => contains sub s'
  end.

(** What a dict holds under a key whose value may be [null]: nothing (the
    key is absent), [None], or a value. *)
Inductive entry (A : Type) : Type :=
| Absent
| Null
| Holds (a : A).

Arguments Absent {A}.
Arguments Null {A}.
Arguments Holds {A} a.

(** [d.get(k)]: [None] for an absent key and for [null]. *)
Definition get {A : Type} (e : entry A) : option A :=
  match e with Holds a => Some a | Absent | Null => None end.

(** [d.get(k, dflt)]: the default for an absent key only. *)
Definition get_or {A : Type} (dflt : A) (e : entry A) : option A :=
  match e with Absent => Some dflt | Null => None | Holds a => Some a end.

(** ASCII lowercase of one character. *)
Definition lower_char (c : ascii) : ascii :=
  let n := Ascii.nat_of_ascii c in
  if ((65 <=? n) && (n <=? 90))%nat then Ascii.ascii_of_nat (n + 32) else c.

(** [s.lower()] on ASCII text. *)
Fixpoint ascii_lower (s : string) : string :=
  match s with
  | EmptyString => EmptyString
  | String c s' => String (lower_char c) (ascii_lower s')
  end.

End Py.

(** ** JSON values built and returned by the operations *)

Inductive json : Type :=
| JNull
| JBool (b : bool)
| JInt (z : Z)
| JStr (s : string)
| JList (l : list json)
| JDict (kv : list (string * json)).

Module Json.

(** Lookup in the association list of a [dict]. *)
Fixpoint assoc (k : string) (kv : list (string * json)) : option json :=
  match kv with
  | [] => None
  | (k', v) :: kv' => if String.eqb k k' then Some v else assoc k kv'
  end.

(** [d.get(k)]. *)
Definition get (k : string) (d : json) : option json :=
  match d with JDict kv => assoc k kv | _ => None end.

(** [d[k] = v] on the association list: an existing key keeps its
    position, a new key goes last. *)
Fixpoint assoc_set (k : string) (v : json) (kv : list (string * json))
  : list (string * json) :=
  match kv with
  | [] => [(k, v)]
  | (k', v') :: kv' =>
      if String.eqb k k' then (k, v) :: kv' else (k', v') :: assoc_set k v kv'
  end.

Definition set (k : string) (v : json) (d : json) : json :=
  match d with JDict kv => JDict (assoc_set k v kv) | _ => d end.

(** [d["success"]] read as a truth value. *)
Definition success (d : json) : bool :=
  match get "success" d with Some (JBool b) => b | _ => false end.

Definition of_ostr (o : option string) : json :=
  match o with Some s => JStr s | None => JNull end.

End Json.

(** ** Response truncation *)

Definition CHARACTER_LIMIT : Z := 25000.

(** The notice of [truncate_response], an f-string over [limit]. *)
Definition truncation_notice (limit : Z) : string :=
  Py.NL +:+ Py.NL +:+ "---" +:+ Py.NL +:+
  "**Response truncated** (exceeded " +:+ Py.str_of_int limit +:+ " characters). " +:+
  "Use more specific filters or criteria to narrow results.".

Definition truncate_response (content : string) (limit : Z) : string :=
  if Py.len content <=? limit then content
  else
    let truncated := Py.slice_to content limit in
    let notice := truncation_notice limit in
    truncated +:+ notice.

(** ** Exceptions *)

(** The exceptions that the code lets escape. *)
Inductive exn : Type :=
| KeyError (key : string)
| AttributeError (message : string)
| IndexError (message : string).

(** The exception of [None.lower()]. *)
Definition no_lower : exn :=
  AttributeError "'NoneType' object has no attribute 'lower'".

(** ** The i3 tree *)

(** [window_properties] of a node. *)
Record WindowProperties : Type := mkWindowProperties {
  wp_class : option string;
  wp_instance : option string;
  wp_window_role : option string
}.

(** A node of the tree that [i3-msg -t get_tree] prints.  [nodes] are the
    primary children, [floating_nodes] the floating ones.  [window] is
    [None] for an absent key and for [null], which the code does not tell
    apart; [name] keeps the two apart, since [dict.get] with a default
    does.  The other keys are absent or hold a value of their type. *)
Inductive Node : Type := mkNode {
  window : option Z;
  name : Py.entry string;
  window_properties : option WindowProperties;
  window_type : option string;
  type : option string;
  urgent : option bool;
  scratchpad_state : option string;
  output : option string;
  nodes : list Node;
  floating_nodes : list Node
}.

(** Induction over a tree: a property holds of every node when it holds of
    a node as soon as it holds of all its primary and floating children. *)
Section NodeInduction.

Variable P : Node -> Prop.
Hypothesis step :
  forall node, Forall P (nodes node) -> Forall P (floating_nodes node) -> P node.

Fixpoint Node_nested_ind (node : Node) : P node :=
  step node
    ((fix children (l : list Node) : Forall P l :=
        match l with
        | [] => @List.Forall_nil Node P
        | child :: l' =>
            @List.Forall_cons Node P child l' (Node_nested_ind child) (children l')
        end) (nodes node))
    ((fix children (l : list Node) : Forall P l :=
        match l with
        | [] => @List.Forall_nil Node P
        | child :: l' =>
            @List.Forall_cons Node P child l' (Node_nested_ind child) (children l')
        end) (floating_nodes node)).

End NodeInduction.

(** One entry of the reply to [i3-msg -t get_workspaces]. *)
Record Workspace : Type := mkWorkspace {
  ws_name : string;
  ws_output : string
}.

(** One item of the [criteria] dict of [find_windows_recursive]: the key
    and a value of the type the caller stores under it. *)
Inductive criterion : Type :=
| by_class (value : string)
| by_title (value : string)
| by_instance (value : string)
| by_role (value : string)
| by_type (value : string)
| by_floating (value : bool)
| by_urgent (value : bool)
| by_workspace (value : string).

Module Tree.

(** [node.get("window") and node.get("window") != 0]. *)
Definition has_window (node : Node) : bool :=
  Py.truthy_oint (window node) &&
  negb (bool_decide (window node = Some 0)).

(** [node.get("window_properties", {}).get(k, "")] for the three keys. *)
Definition prop_or_empty (get : WindowProperties -> option string)
    (node : Node) : string :=
  match window_properties node with
  | Some props => default "" (get props)
  | None => ""
  end.

(** [for child in children: windows.extend(walk(child))]: the first
    exception ends the loop. *)
Fixpoint extend_loop (walk : Node -> exn + list Node) (children : list Node)
    (windows : list Node) : exn + list Node :=
  match children with
  | [] => inr windows
  | child :: rest =>
      match walk child with
      | inl e => inl e
      | inr found => extend_loop walk rest (windows ++ found)
      end
  end.

Section Matching.

(** [str.lower]. *)
Variable lower : string -> string.

(** The body of one branch of the loop over [criteria.items()]:
    [inr true] when the branch sets [matches = False], [inl e] when it
    raises; [node.get("name", "")] is [None] for a name that is [null]. *)
Definition criterion_fails (node : Node) (c : criterion) : exn + bool :=
  match c with
  | by_class value =>
      inr (negb (String.eqb (lower (prop_or_empty wp_class node)) (lower value)))
  | by_title value =>
      match Py.get_or "" (name node) with
      | Some title => inr (negb (Py.contains (lower value) (lower title)))
      | None => inl no_lower
      end
  | by_instance value =>
      inr (negb (String.eqb (lower (prop_or_empty wp_instance node)) (lower value)))
  | by_role value =>
      inr (negb (String.eqb (lower (prop_or_empty wp_window_role node)) (lower value)))
  | by_type value =>
      inr (negb (String.eqb (lower (default "" (window_type node))) (lower value)))
  | by_floating value =>
      let is_floating := bool_decide (type node = Some "floating_con") in
      inr (negb (Bool.eqb is_floating value))
  | by_urgent value =>
      inr (negb (Bool.eqb (default false (urgent node)) value))
  | by_workspace _ => inr false
  end.

(** The loop over [criteria.items()] from the current value of [matches]:
    every failing item clears it, the loop never leaves early, and an item
    that raises ends it. *)
Fixpoint criteria_loop (node : Node) (criteria : list criterion) (matches : bool)
  : exn + bool :=
  match criteria with
  | [] => inr matches
  | c :: rest =>
      match criterion_fails node c with
      | inl e => inl e
      | inr fails => criteria_loop node rest (if fails then false else matches)
      end
  end.

(** The windows the current node contributes.  [criteria] is [None]
    for the default argument; [not criteria] holds for [None] and for
    the empty dict.  [matches] starts [True]. *)
Definition own_windows (node : Node) (criteria : option (list criterion))
  : exn + list Node :=
  if has_window node then
    match criteria with
    | None | Some [] => inr [node]
    | Some items =>
        match criteria_loop node items true with
        | inl e => inl e
        | inr matches => inr (if matches then [node] else [])
        end
    end
  else inr [].

(** The loop over [nodes + floating_nodes] is written as one loop over
    each list, so that the recursion is structural; an exception raised
    in a subtree ends the walk. *)
Fixpoint find_windows_recursive (node : Node)
    (criteria : option (list criterion)) : exn + list Node :=
  match own_windows node criteria with
  | inl e => inl e
  | inr windows =>
      match extend_loop (fun child => find_windows_recursive child criteria)
                        (nodes node) windows with
      | inl e => inl e
      | inr windows =>
          extend_loop (fun child => find_windows_recursive child criteria)
                      (floating_nodes node) windows
      end
  end.

End Matching.

(** A record appended by [find_visible_scratchpads]; [name] is [None]
    when the name of the child is [null]. *)
Record VisibleScratchpad : Type := mkVisibleScratchpad {
  vs_window_id : option Z;
  vs_name : option string;
  vs_class : string;
  vs_output : option string;
  vs_scratchpad_state : option string
}.

(** The condition on [scratchpad_state] and [output]. *)
Definition is_visible_scratchpad (node : Node) : bool :=
  Py.truthy_ostr (scratchpad_state node) &&
  negb (bool_decide (scratchpad_state node = Some "none")) &&
  negb (bool_decide (output node = Some "__i3")).

(** The loop over [node.get('nodes', [])] that appends the record of the
    first child with a window and breaks. *)
Fixpoint first_window_child (node : Node) (children : list Node)
  : list VisibleScratchpad :=
  match children with
  | [] => []
  | child :: rest =>
      if Py.truthy_oint (window child) then
        [ {| vs_window_id := window child;
             vs_name := Py.get_or "Untitled" (name child);
             vs_class :=
               match window_properties child with
               | Some props => default "N/A" (wp_class props)
               | None => "N/A"
               end;
             vs_output := output node;
             vs_scratchpad_state := scratchpad_state node |} ]
      else first_window_child node rest
  end.

Fixpoint find_visible_scratchpads (node : Node) : list VisibleScratchpad :=
  (if is_visible_scratchpad node
   then first_window_child node (nodes node) else []) ++
  (flat_map find_visible_scratchpads (nodes node) ++
   flat_map find_visible_scratchpads (floating_nodes node)).

End Tree.

(** ** The transport: calls to [i3-msg] *)

(** What one [subprocess.run] of [i3-msg] followed by [json.loads] comes
    to.  [D] is the type of the parsed standard output. *)
Inductive i3_reply (D : Type) : Type :=
| Reply (data : D)                      (* exit status 0, output parsed *)
| DecodeError (msg raw : string)        (* json.JSONDecodeError; [raw] is stdout *)
| ProcessError (stderr str_e : string)  (* subprocess.CalledProcessError *)
| TimeoutExpired.                       (* subprocess.TimeoutExpired *)

Arguments Reply {D} data.
Arguments DecodeError {D} msg raw.
Arguments ProcessError {D} stderr str_e.
Arguments TimeoutExpired {D}.

(** A call as the transport sees it. *)
Inductive call : Type :=
| CallCommand (command : string)   (* i3-msg -t command <command> *)
| CallGet (msg_type : string).     (* i3-msg -t get_<msg_type> *)

(** A program over the transport. *)
Inductive Act (R : Type) : Type :=
| Ret (r : R)
| Command (command : string) (k : i3_reply json -> Act R)
| GetWorkspaces (k : i3_reply (list Workspace) -> Act R)
| GetTree (k : i3_reply Node -> Act R).

Arguments Ret {R} r.
Arguments Command {R} command k.
Arguments GetWorkspaces {R} k.
Arguments GetTree {R} k.

Fixpoint Act_bind {A B : Type} (f : A -> Act B) (m : Act A) : Act B :=
  match m with
  | Ret a => f a
  | Command command k => Command command (fun rep => Act_bind f (k rep))
  | GetWorkspaces k => GetWorkspaces (fun rep => Act_bind f (k rep))
  | GetTree k => GetTree (fun rep => Act_bind f (k rep))
  end.

#[global] Instance Act_mret : MRet Act := @Ret.
#[global] Instance Act_mbind : MBind Act := @Act_bind.

(** A transport answers a call from the calls made before it. *)
Record transport : Type := mkTransport {
  answer_command : list call -> string -> i3_reply json;
  answer_workspaces : list call -> i3_reply (list Workspace);
  answer_tree : list call -> i3_reply Node
}.

(** [exec t history p] runs [p] after the calls of [history]: the value
    returned and all calls made, oldest first. *)
Fixpoint exec {R : Type} (t : transport) (history : list call) (p : Act R)
  : R * list call :=
  match p with
  | Ret r => (r, history)
  | Command command k =>
      exec t (history ++ [CallCommand command]) (k (answer_command t history command))
  | GetWorkspaces k =>
      exec t (history ++ [CallGet "workspaces"]) (k (answer_workspaces t history))
  | GetTree k =>
      exec t (history ++ [CallGet "tree"]) (k (answer_tree t history))
  end.

Definition run {R : Type} (t : transport) (p : Act R) : R * list call :=
  exec t [] p.

(** The commands among the calls: every invocation of [run_i3_msg]. *)
Definition commands_of (calls : list call) : list string :=
  flat_map (fun c => match c with CallCommand s => [s] | CallGet _ => [] end) calls.

(** The dict [run_i3_msg] returns for each outcome of the call. *)
Definition command_result (command : string) (rep : i3_reply json) : json :=
  match rep with
  | Reply output =>
      JDict [("success", JBool true); ("output", output); ("command", JStr command)]
  | ProcessError stderr str_e =>
      JDict [("success", JBool false);
             ("error", JStr (if Py.truthy_str stderr then stderr else str_e));
             ("command", JStr command)]
  | DecodeError msg raw =>
      JDict [("success", JBool false);
             ("error", JStr ("Failed to parse i3-msg output: " +:+ msg));
             ("command", JStr command);
             ("raw_output", JStr raw)]
  | TimeoutExpired =>
      JDict [("success", JBool false);
             ("error", JStr "Command timed out after 5 seconds");
             ("command", JStr command)]
  end.

Definition run_i3_msg (command : string) : Act json :=
  Command command (fun rep => Ret (command_result command rep)).

(** The dict [run_i3_msg_get_type] returns, with the parsed data kept
    typed: [inl data] stands for [{"success": True, "data": data}] and
    [inr d] for the failure dict [d]. *)
Definition get_type_result {D : Type} (rep : i3_reply D) : D + json :=
  match rep with
  | Reply data => inl data
  | ProcessError stderr str_e =>
      inr (JDict [("success", JBool false);
                  ("error", JStr (if Py.truthy_str stderr then stderr else str_e))])
  | DecodeError msg raw =>
      inr (JDict [("success", JBool false);
                  ("error", JStr ("Failed to parse i3-msg output: " +:+ msg));
                  ("raw_output", JStr raw)])
  | TimeoutExpired =>
      inr (JDict [("success", JBool false);
                  ("error", JStr "Query timed out after 5 seconds")])
  end.

(** [run_i3_msg_get_type("workspaces")]. *)
Definition run_i3_msg_get_workspaces : Act (list Workspace + json) :=
  GetWorkspaces (fun rep => Ret (get_type_result rep)).

(** [run_i3_msg_get_type("tree")]. *)
Definition run_i3_msg_get_tree : Act (Node + json) :=
  GetTree (fun rep => Ret (get_type_result rep)).

(** [{"success": False, "error": msg}], the dict of a validation failure. *)
Definition failure (msg : string) : json :=
  JDict [("success", JBool false); ("error", JStr msg)].

(** ** Window operations *)

Inductive Direction : Type := LEFT | RIGHT | UP | DOWN.

Definition Direction_value (d : Direction) : string :=
  match d with
  | LEFT => "left" | RIGHT => "right" | UP => "up" | DOWN => "down"
  end.

Record MoveWindowInput : Type := mkMoveWindowInput {
  mw_direction : option Direction;
  mw_position_x : option Z;
  mw_position_y : option Z;
  mw_center : bool;
  mw_to_mouse : bool;
  mw_to_mark : option string;
  mw_workspace : option string
}.

(** The number of positioning options of [i3_move_window] that are set. *)
Definition position_options (params : MoveWindowInput) : Z :=
  Py.sum_bool [ mw_center params;
                mw_to_mouse params;
                Py.is_not_None (mw_to_mark params);
                Py.is_not_None (mw_position_x params) ||
                Py.is_not_None (mw_position_y params) ].

Definition move_window_exclusive_error : string :=
  "Can only specify one positioning option: center, to_mouse, to_mark, or absolute position (position_x/position_y)".

Definition i3_move_window (params : MoveWindowInput) : Act json :=
  let commands : list string := [] in
  let commands :=
    if Py.truthy_ostr (mw_workspace params)
    then commands ++ ["move container to workspace " +:+ Py.fmt_ostr (mw_workspace params)]
    else commands in
  let commands :=
    match mw_direction params with
    | Some d => commands ++ ["move " +:+ Direction_value d]
    | None => commands
    end in
  if 1 <? position_options params then
    Ret (failure move_window_exclusive_error)
  else
    let positioned : list string + json :=
      if mw_center params then inl (commands ++ ["move position center"])
      else if mw_to_mouse params then inl (commands ++ ["move position mouse"])
      else if Py.truthy_ostr (mw_to_mark params) then
        inl (commands ++ ["move window to mark " +:+ Py.DQ +:+
                          Py.fmt_ostr (mw_to_mark params) +:+ Py.DQ])
      else if Py.is_not_None (mw_position_x params) &&
              Py.is_not_None (mw_position_y params) then
        inl (commands ++ ["move position " +:+ Py.fmt_oint (mw_position_x params) +:+
                          " px " +:+ Py.fmt_oint (mw_position_y params) +:+ " px"])
      else if Py.is_not_None (mw_position_x params) ||
              Py.is_not_None (mw_position_y params) then
        inr (failure "Both position_x and position_y must be specified together.")
      else inl commands in
    match positioned with
    | inr err => Ret err
    | inl [] =>
        Ret (failure "Must specify at least one move operation (direction, position, center, to_mouse, to_mark, or workspace).")
    | inl commands =>
        let command := Py.join ", " commands in
        result ← run_i3_msg command;
        Ret result
    end.

Record SwapContainerInput : Type := mkSwapContainerInput {
  sc_target_id : option Z;
  sc_target_con_id : option Z;
  sc_target_mark : option string;
  sc_source_id : option Z;
  sc_source_con_id : option Z;
  sc_source_mark : option string
}.

Definition target_count (params : SwapContainerInput) : Z :=
  Py.sum_bool [ Py.is_not_None (sc_target_id params);
                Py.is_not_None (sc_target_con_id params);
                Py.is_not_None (sc_target_mark params) ].

Definition source_count (params : SwapContainerInput) : Z :=
  Py.sum_bool [ Py.is_not_None (sc_source_id params);
                Py.is_not_None (sc_source_con_id params);
                Py.is_not_None (sc_source_mark params) ].

Definition target_criteria (params : SwapContainerInput) : string :=
  if Py.truthy_oint (sc_target_id params) then
    "id " +:+ Py.fmt_oint (sc_target_id params)
  else if Py.truthy_oint (sc_target_con_id params) then
    "con_id " +:+ Py.fmt_oint (sc_target_con_id params)
  else "mark " +:+ Py.DQ +:+ Py.fmt_ostr (sc_target_mark params) +:+ Py.DQ.

Definition source_criteria (params : SwapContainerInput) : string :=
  if Py.truthy_oint (sc_source_id params) then
    "[id=" +:+ Py.fmt_oint (sc_source_id params) +:+ "]"
  else if Py.truthy_oint (sc_source_con_id params) then
    "[con_id=" +:+ Py.fmt_oint (sc_source_con_id params) +:+ "]"
  else "[con_mark=" +:+ Py.DQ +:+ Py.fmt_ostr (sc_source_mark params) +:+ Py.DQ +:+ "]".

(** [d.get(k, dflt)]. *)
Definition get_default (k : string) (dflt : json) (d : json) : json :=
  default dflt (Json.get k d).

(** [f"{v}"] for the value found under ["error"]: a string. *)
Definition fmt_json_str (v : json) : string :=
  match v with JStr s => s | _ => "" end.

Definition i3_swap_containers (params : SwapContainerInput) : Act json :=
  if negb (Py.truthy_oint (sc_target_id params)) &&
     negb (Py.truthy_oint (sc_target_con_id params)) &&
     negb (Py.truthy_ostr (sc_target_mark params)) then
    Ret (failure "Must specify one of: target_id, target_con_id, or target_mark")
  else if 1 <? target_count params then
    Ret (failure "Only specify one target parameter (target_id, target_con_id, or target_mark)")
  else if 1 <? source_count params then
    Ret (failure "Only specify one source parameter (source_id, source_con_id, or source_mark)")
  else
    let target_criteria := target_criteria params in
    if 0 <? source_count params then
      let source_criteria := source_criteria params in
      let focus_command := source_criteria +:+ " focus" in
      focus_result ← run_i3_msg focus_command;
      if negb (Json.success focus_result) then
        Ret (JDict [("success", JBool false);
                    ("error", JStr ("Failed to focus source window: " +:+
                       fmt_json_str (get_default "error" (JStr "Unknown error") focus_result)));
                    ("focus_result", focus_result)])
      else
        let swap_command := "swap container with " +:+ target_criteria in
        swap_result ← run_i3_msg swap_command;
        Ret (JDict [("success", JBool (Json.success swap_result));
                    ("output", get_default "output" (JList []) swap_result);
                    ("command", JStr (focus_command +:+ "; " +:+ swap_command));
                    ("note", JStr "Focused source window then swapped with target")])
    else
      let command := "swap container with " +:+ target_criteria in
      result ← run_i3_msg command;
      Ret result.

(** ** Marks and scratchpad *)

Record ScratchpadMoveInput : Type := mkScratchpadMoveInput {
  sm_mark_as : option string
}.

Definition i3_scratchpad_move (params : ScratchpadMoveInput) : Act json :=
  let commands : list string := [] in
  let commands :=
    if Py.truthy_ostr (sm_mark_as params)
    then commands ++ ["mark " +:+ Py.DQ +:+ Py.fmt_ostr (sm_mark_as params) +:+ Py.DQ]
    else commands in
  let commands := commands ++ ["move scratchpad"] in
  let command := Py.join ", " commands in
  result ← run_i3_msg command;
  Ret result.

Inductive MarkMode : Type := mode_replace | mode_add | mode_toggle.

Record MarkSetInput : Type := mkMarkSetInput {
  ms_mark : string;
  ms_mode : MarkMode
}.

Definition mark_set_command (params : MarkSetInput) : string :=
  match ms_mode params with
  | mode_replace => "mark --replace " +:+ Py.DQ +:+ ms_mark params +:+ Py.DQ
  | mode_add => "mark --add " +:+ Py.DQ +:+ ms_mark params +:+ Py.DQ
  | mode_toggle => "mark --toggle " +:+ Py.DQ +:+ ms_mark params +:+ Py.DQ
  end.

Definition i3_mark_set (params : MarkSetInput) : Act json :=
  let command := mark_set_command params in
  result ← run_i3_msg command;
  Ret result.

(** ** Gaps *)

Inductive GapsScope : Type := scope_current | scope_all.

Record GapsInput : Type := mkGapsInput {
  gi_inner : option Z;
  gi_outer : option Z;
  gi_scope : GapsScope
}.

Definition i3_gaps_set (params : GapsInput) : Act json :=
  if negb (Py.truthy_oint (gi_inner params)) &&
     negb (Py.truthy_oint (gi_outer params)) then
    Ret (failure "Must specify at least one of: inner, outer")
  else
    let commands : list string := [] in
    let scope_prefix :=
      match gi_scope params with
      | scope_current => "workspace"
      | scope_all => "global"
      end in
    let commands :=
      if Py.is_not_None (gi_inner params)
      then commands ++ ["gaps inner " +:+ scope_prefix +:+ " set " +:+
                        Py.fmt_oint (gi_inner params)]
      else commands in
    let commands :=
      if Py.is_not_None (gi_outer params)
      then commands ++ ["gaps outer " +:+ scope_prefix +:+ " set " +:+
                        Py.fmt_oint (gi_outer params)]
      else commands in
    let command := Py.join ", " commands in
    result ← run_i3_msg command;
    Ret result.

(** ** Hiding the visible scratchpad windows *)

(** The loop of [i3_scratchpad_hide_all] over the visible windows; the
    accumulators are [hidden_count], [errors] and [windows_hidden]. *)
Fixpoint hide_loop (visible_windows : list Tree.VisibleScratchpad)
    (hidden_count : Z) (errors windows_hidden : list json)
  : Act (Z * list json * list json) :=
  match visible_windows with
  | [] => Ret (hidden_count, errors, windows_hidden)
  | window :: rest =>
      let window_id := Tree.vs_window_id window in
      hide_result ← run_i3_msg ("[id=" +:+ Py.fmt_oint window_id +:+ "] move scratchpad");
      if Json.success hide_result then
        hide_loop rest (hidden_count + 1) errors
          (windows_hidden ++
             [JDict [("id", from_option JInt JNull window_id);
                     ("name", Json.of_ostr (Tree.vs_name window));
                     ("class", JStr (Tree.vs_class window))]])
      else
        hide_loop rest hidden_count
          (errors ++
             [JDict [("window_id", from_option JInt JNull window_id);
                     ("name", Json.of_ostr (Tree.vs_name window));
                     ("error", get_default "error" (JStr "Unknown error") hide_result)]])
          windows_hidden
  end.

(** [i3_scratchpad_hide_all] for [response_format = "json"], the default
    of its input; the markdown rendering of the same counts and lists is
    presentation and is left out. *)
Definition i3_scratchpad_hide_all : Act json :=
  result ← run_i3_msg_get_tree;
  match result with
  | inr failed => Ret failed
  | inl tree =>
      let visible_windows := Tree.find_visible_scratchpads tree in
      match visible_windows with
      | [] =>
          Ret (JDict [("success", JBool true);
                      ("message", JStr "No visible scratchpad windows found");
                      ("hidden_count", JInt 0);
                      ("total_found", JInt 0)])
      | _ =>
          '(hidden_count, errors, windows_hidden) ← hide_loop visible_windows 0 [] [];
          let result_data :=
            JDict [("success", JBool true);
                   ("hidden_count", JInt hidden_count);
                   ("total_found", JInt (Z.of_nat (length visible_windows)));
                   ("windows_hidden", JList windows_hidden)] in
          let result_data :=
            match errors with
            | [] => result_data
            | _ =>
                Json.set "success" (JBool (0 <? hidden_count))
                  (Json.set "errors" (JList errors) result_data)
            end in
          Ret result_data
      end
  end.

(** ** Moving workspaces in bulk *)

Record BulkWorkspaceMoveInput : Type := mkBulkWorkspaceMoveInput {
  bm_workspaces : list string;
  bm_target_output : string;
  bm_preserve_workspace : option string;
  bm_placeholder_workspace : option string
}.

(** [{ws["name"]: ws for ws in current_workspaces}]: a later entry of the
    same name replaces an earlier one. *)
Definition build_workspace_map (current_workspaces : list Workspace)
  : gmap string Workspace :=
  foldl (fun m ws => <[ws_name ws := ws]> m) ∅ current_workspaces.

(** The set of outputs that hold a workspace of the input list. *)
Definition collect_source_outputs (workspace_map : gmap string Workspace)
    (workspaces : list string) : gset string :=
  foldl (fun acc ws_name =>
           match workspace_map !! ws_name with
           | Some ws => acc ∪ {[ws_output ws]}
           | None => acc
           end) ∅ workspaces.

(** The command that moves one workspace. *)
Definition move_command (ws_name target_output : string) : string :=
  "workspace " +:+ ws_name +:+ "; move workspace to output " +:+ target_output.

(** Step 2: the loop over the source outputs; [failed] is
    [failed_workspaces]. *)
Fixpoint placeholder_loop (placeholder : option string)
    (source_outputs : list string) (failed : list json) : Act (list json) :=
  match source_outputs with
  | [] => Ret failed
  | source_output :: rest =>
      focus_result ← run_i3_msg ("focus output " +:+ source_output);
      if negb (Json.success focus_result) then
        placeholder_loop placeholder rest failed
      else
        create_result ← run_i3_msg ("workspace " +:+ Py.fmt_ostr placeholder);
        if negb (Json.success create_result) then
          placeholder_loop placeholder rest
            (failed ++ [JDict [("workspace", Json.of_ostr placeholder);
                               ("reason", JStr "Failed to create placeholder workspace")]])
        else placeholder_loop placeholder rest failed
  end.

(** Step 3: the loop over [params.workspaces]; the accumulators are
    [moved_workspaces] and [failed_workspaces]. *)
Fixpoint move_loop (params : BulkWorkspaceMoveInput)
    (workspace_map : gmap string Workspace) (workspaces : list string)
    (moved failed : list json) : Act (list json * list json) :=
  match workspaces with
  | [] => Ret (moved, failed)
  | ws_name :: rest =>
      if Py.truthy_ostr (bm_preserve_workspace params) &&
         bool_decide (Some ws_name = bm_preserve_workspace params) then
        move_loop params workspace_map rest moved failed
      else
        match workspace_map !! ws_name with
        | None =>
            move_loop params workspace_map rest moved
              (failed ++ [JDict [("workspace", JStr ws_name);
                                 ("reason", JStr "Workspace does not exist")]])
        | Some ws =>
            let command := move_command ws_name (bm_target_output params) in
            result ← run_i3_msg command;
            if Json.success result then
              move_loop params workspace_map rest
                (moved ++ [JDict [("workspace", JStr ws_name);
                                  ("from_output", JStr (ws_output ws));
                                  ("to_output", JStr (bm_target_output params))]])
                failed
            else
              move_loop params workspace_map rest moved
                (failed ++ [JDict [("workspace", JStr ws_name);
                                   ("reason", JStr "Move command failed");
                                   ("details", result)]])
        end
  end.

Section BulkMove.

(** The order in which a [for] loop visits a Python [set]: unspecified,
    so any enumeration may be passed in. *)
Variable set_iter : gset string -> list string.

Definition i3_workspace_bulk_move (params : BulkWorkspaceMoveInput) : Act json :=
  let moved_workspaces : list json := [] in
  let failed_workspaces : list json := [] in
  ws_result ← run_i3_msg_get_workspaces;
  match ws_result with
  | inr failed_query =>
      Ret (JDict [("success", JBool false);
                  ("error", JStr "Failed to get workspace list");
                  ("details", failed_query)])
  | inl current_workspaces =>
      let workspace_map := build_workspace_map current_workspaces in
      failed_workspaces ←
        (if Py.truthy_ostr (bm_placeholder_workspace params) then
           let source_outputs :=
             collect_source_outputs workspace_map (bm_workspaces params) in
           placeholder_loop (bm_placeholder_workspace params)
             (set_iter source_outputs) failed_workspaces
         else Ret failed_workspaces);
      '(moved_workspaces, failed_workspaces) ←
        move_loop params workspace_map (bm_workspaces params)
          moved_workspaces failed_workspaces;
      Ret (JDict [("success", JBool true);
                  ("moved_count", JInt (Z.of_nat (length moved_workspaces)));
                  ("failed_count", JInt (Z.of_nat (length failed_workspaces)));
                  ("moved_workspaces", JList moved_workspaces);
                  ("failed_workspaces", JList failed_workspaces);
                  ("preserved_workspace", Json.of_ostr (bm_preserve_workspace params));
                  ("placeholder_workspace", Json.of_ostr (bm_placeholder_workspace params))])
  end.

End BulkMove.

(** ** Notions used to state the properties *)

(** The number of occurrences of a character in a string. *)
Fixpoint count_char (c : ascii) (s : string) : nat :=
  match s with
  | EmptyString => 0%nat
  | String c' s' => ((if Ascii.eqb c c' then 1 else 0) + count_char c s')%nat
  end.

(** Escaping as the specification words it: every quote character inside
    a literal is preceded by a backslash. *)
Fixpoint spec_escape_quotes (s : string) : string :=
  match s with
  | EmptyString => EmptyString
  | String c s' =>
      if Ascii.eqb c Py.dquote
      then String Py.backslash (String Py.dquote (spec_escape_quotes s'))
      else String c (spec_escape_quotes s')
  end.

(** A literal embedded as the specification words it: escaped, then
    wrapped in quotes. *)
Definition spec_quote_literal (s : string) : string :=
  Py.DQ +:+ spec_escape_quotes s +:+ Py.DQ.

(** The value of the [mode] literal of [MarkSetInput]. *)
Definition MarkMode_value (m : MarkMode) : string :=
  match m with
  | mode_replace => "replace" | mode_add => "add" | mode_toggle => "toggle"
  end.

(** The target parameters pass both checks of [i3_swap_containers]. *)
Definition target_valid (params : SwapContainerInput) : bool :=
  (Py.truthy_oint (sc_target_id params) ||
   Py.truthy_oint (sc_target_con_id params) ||
   Py.truthy_ostr (sc_target_mark params)) &&
  (target_count params <=? 1).

(** A node with no key set and no child. *)
Definition bare_node : Node :=
  mkNode None Py.Absent None None None None None None [] [].

(** A transport on which every command succeeds and every query is empty. *)
Definition transport_ok : transport :=
  mkTransport (fun _ _ => Reply (JList [JDict [("success", JBool true)]]))
              (fun _ => Reply [])
              (fun _ => Reply bare_node).

(** A transport on which every command is rejected by the manager and the
    queries answer with the given workspaces and tree. *)
Definition transport_rejecting (workspaces : list Workspace) (tree : Node)
  : transport :=
  mkTransport (fun _ _ => ProcessError "ERROR: command failed" "")
              (fun _ => Reply workspaces)
              (fun _ => Reply tree).

(** The nodes of a tree in depth-first order: a node, then the subtrees of
    its primary children, then the subtrees of its floating children. *)
Fixpoint preorder (node : Node) : list Node :=
  node :: (flat_map preorder (nodes node) ++ flat_map preorder (floating_nodes node)).

(** The comparison rule of one criteria item, as the specification words
    it, for a given lowercasing of strings. *)
Definition criterion_passes (lower : string -> string) (node : Node)
    (c : criterion) : Prop :=
  match c with
  | by_class value => lower (Tree.prop_or_empty wp_class node) = lower value
  | by_instance value => lower (Tree.prop_or_empty wp_instance node) = lower value
  | by_role value => lower (Tree.prop_or_empty wp_window_role node) = lower value
  | by_type value => lower (default "" (window_type node)) = lower value
  | by_title value =>
      exists title before after,
        Py.get_or "" (name node) = Some title /\
        lower title = before +:+ lower value +:+ after
  | by_floating value => type node = Some "floating_con" <-> value = true
  | by_urgent value => default false (urgent node) = value
  | by_workspace _ => True
  end.

(** The record of a visible scratchpad container, as the specification
    words it: taken from the first primary child that bears a window. *)
Definition visible_record (node : Node) : list Tree.VisibleScratchpad :=
  if Tree.is_visible_scratchpad node then
    match List.find (fun child => Py.truthy_oint (window child)) (nodes node) with
    | Some child =>
        [ Tree.mkVisibleScratchpad (window child)
            (Py.get_or "Untitled" (name child))
            (default "N/A" (window_properties child ≫= wp_class))
            (output node) (scratchpad_state node) ]
    | None => []
    end
  else [].

(** The comparison rule of one criteria item as a test. *)
Definition criterion_ok (lower : string -> string) (node : Node)
    (c : criterion) : bool :=
  match c with
  | by_class value =>
      String.eqb (lower (Tree.prop_or_empty wp_class node)) (lower value)
  | by_instance value =>
      String.eqb (lower (Tree.prop_or_empty wp_instance node)) (lower value)
  | by_role value =>
      String.eqb (lower (Tree.prop_or_empty wp_window_role node)) (lower value)
  | by_type value => String.eqb (lower (default "" (window_type node))) (lower value)
  | by_title value =>
      match Py.get_or "" (name node) with
      | Some title => Py.contains (lower value) (lower title)
      | None => false
      end
  | by_floating value =>
      Bool.eqb (bool_decide (type node = Some "floating_con")) value
  | by_urgent value => Bool.eqb (default false (urgent node)) value
  | by_workspace _ => true
  end.

(** The criteria hold an item under the key [title]. *)
Definition has_title (criteria : list criterion) : bool :=
  existsb (fun c => match c with by_title _ => true | _ => false end) criteria.

(** The name of the node is [null]. *)
Definition nameless (node : Node) : bool :=
  match name node with Py.Null => true | _ => false end.

(** A window whose name is [null]. *)
Definition untitled (node : Node) : bool :=
  Tree.has_window node && nameless node.

(** The walk with these criteria raises: a title is asked for and some
    window of the tree has no name to compare it with. *)
Definition raises (tree : Node) (criteria : list criterion) : bool :=
  has_title criteria && existsb untitled (preorder tree).

(** The windows of a tree that pass every item of the criteria, in
    depth-first order. *)
Definition matching (lower : string -> string) (tree : Node)
    (criteria : list criterion) : list Node :=
  List.filter (fun node => Tree.has_window node &&
                           forallb (criterion_ok lower node) criteria)
              (preorder tree).

(** A window of the given id, title and class, with no child. *)
Definition leaf_window (id : Z) (title class : string) : Node :=
  mkNode (Some id) (Py.Holds title) (Some (mkWindowProperties (Some class) None None))
         (Some "normal") (Some "con") (Some false) (Some "none") None [] [].

(** A scratchpad container in the given state on the given output, around
    the given primary children. *)
Definition scratchpad_con (state output : string) (children : list Node) : Node :=
  mkNode None Py.Null None None (Some "floating_con") (Some false)
         (Some state) (Some output) children [].

(** A tree with one hidden and one visible scratchpad container. *)
Definition two_scratchpads : Node :=
  mkNode None (Py.Holds "root") None None (Some "root") None None None
    [ mkNode None (Py.Holds "__i3_scratch") None None (Some "workspace") None
        (Some "none") (Some "__i3") []
        [ scratchpad_con "changed" "__i3" [leaf_window 11 "notes" "Obsidian"] ];
      mkNode None (Py.Holds "1") None None (Some "workspace") None
        (Some "none") (Some "HDMI-1") []
        [ scratchpad_con "fresh" "HDMI-1" [leaf_window 12 "shell" "XTerm"] ] ]
    [].

(** The list stored under a key of a result dict. *)
Definition result_list (k : string) (d : json) : list json :=
  match Json.get k d with Some (JList l) => l | _ => [] end.

(** An entry of [moved_workspaces] or [failed_workspaces] names [w]. *)
Definition names_workspace (w : string) (entry : json) : Prop :=
  Json.get "workspace" entry = Some (JStr w).

(** The test that makes the move loop skip a workspace. *)
Definition is_preserved (params : BulkWorkspaceMoveInput) (ws_name : string) : bool :=
  Py.truthy_ostr (bm_preserve_workspace params) &&
  bool_decide (Some ws_name = bm_preserve_workspace params).

(** The workspaces of the input list for which the move loop sends a
    command: those not skipped that exist in the map, in list order. *)
Definition attempted (params : BulkWorkspaceMoveInput)
    (workspace_map : gmap string Workspace) (workspaces : list string)
  : list string :=
  List.filter (fun ws_name => negb (is_preserved params ws_name) &&
                              bool_decide (is_Some (workspace_map !! ws_name)))
              workspaces.

(** A call made by step 2: focusing an output or opening the placeholder. *)
Definition placeholder_call (placeholder : option string) (c : call) : Prop :=
  (exists source_output, c = CallCommand ("focus output " +:+ source_output)) \/
  c = CallCommand ("workspace " +:+ Py.fmt_ostr placeholder).

(** A transport that lists the given workspaces and accepts exactly the
    commands that satisfy [accepts]. *)
Definition transport_accepting (workspaces : list Workspace)
    (accepts : string -> bool) : transport :=
  mkTransport
    (fun _ command =>
       if accepts command then Reply (JList [JDict [("success", JBool true)]])
       else ProcessError "ERROR: command failed" "")
    (fun _ => Reply workspaces)
    (fun _ => Reply bare_node).

(** ** Indexing and splitting *)

(** [d[k]] on a dict: [KeyError] when the key is missing. *)
Definition dict_index (k : string) (d : json) : exn + json :=
  match Json.get k d with
  | Some v => inr v
  | None => inl (KeyError k)
  end.

(** [[r[k] for r in l]]: the first missing key raises. *)
Fixpoint index_all (k : string) (l : list json) : exn + list json :=
  match l with
  | [] => inr []
  | r :: rest =>
      match dict_index k r with
      | inl e => inl e
      | inr v =>
          match index_all k rest with
          | inl e => inl e
          | inr vs => inr (v :: vs)
          end
      end
  end.

(** Whitespace as [str.split()] sees it, on characters below 256. *)
Definition is_space (c : ascii) : bool :=
  let n := Ascii.nat_of_ascii c in
  ((9 <=? n) && (n <=? 13) || (28 <=? n) && (n <=? 32) ||
   (n =? 133) || (n =? 160))%nat.

Fixpoint skip_spaces (s : string) : string :=
  match s with
  | EmptyString => EmptyString
  | String c s' => if is_space c then skip_spaces s' else s
  end.

Fixpoint take_word (s : string) : string :=
  match s with
  | EmptyString => EmptyString
  | String c s' => if is_space c then EmptyString else String c (take_word s')
  end.

(** [s.split()[0]]: the first run of characters that are not whitespace;
    [IndexError] when there is none. *)
Definition split_first (s : string) : exn + string :=
  match skip_spaces s with
  | EmptyString => inl (IndexError "list index out of range")
  | word => inr (take_word word)
  end.

(** ** Focus, resize and output operations *)

(** The values of [Literal["parent", "child"]]. *)
Inductive FocusParentChild : Type := focus_parent | focus_child.

Definition FocusParentChild_str (t : FocusParentChild) : string :=
  match t with focus_parent => "parent" | focus_child => "child" end.

Record FocusWindowInput : Type := mkFocusWindowInput {
  fw_direction : option Direction;
  fw_target : option FocusParentChild
}.

Definition i3_focus_window (params : FocusWindowInput) : Act json :=
  if Py.is_not_None (fw_direction params) && Py.is_not_None (fw_target params) then
    Ret (failure "Cannot specify both 'direction' and 'target'. Choose one.")
  else if negb (Py.is_not_None (fw_direction params)) &&
          negb (Py.is_not_None (fw_target params)) then
    Ret (failure "Must specify either 'direction' or 'target'.")
  else
    let command :=
      match fw_direction params with
      | Some d => "focus " +:+ Direction_value d
      | None =>
          "focus " +:+ from_option FocusParentChild_str "None" (fw_target params)
      end in
    result ← run_i3_msg command;
    Ret result.

Inductive GrowShrink : Type := resize_grow | resize_shrink.
Inductive Dimension : Type := dim_width | dim_height.

Definition GrowShrink_str (g : GrowShrink) : string :=
  match g with resize_grow => "grow" | resize_shrink => "shrink" end.

Definition Dimension_str (d : Dimension) : string :=
  match d with dim_width => "width" | dim_height => "height" end.

Record ResizeWindowInput : Type := mkResizeWindowInput {
  rw_grow_shrink : GrowShrink;
  rw_dimension : Dimension;
  rw_amount : Z;
  rw_absolute_width : option Z;
  rw_absolute_height : option Z
}.

Definition i3_resize_window (params : ResizeWindowInput) : Act json :=
  if Py.truthy_oint (rw_absolute_width params) ||
     Py.truthy_oint (rw_absolute_height params) then
    if negb (Py.truthy_oint (rw_absolute_width params) &&
             Py.truthy_oint (rw_absolute_height params)) then
      Ret (failure "Both absolute_width and absolute_height must be specified together.")
    else
      let command :=
        "floating enable, resize set " +:+ Py.fmt_oint (rw_absolute_width params) +:+
        " " +:+ Py.fmt_oint (rw_absolute_height params) in
      result ← run_i3_msg command;
      Ret result
  else
    let command :=
      "resize " +:+ GrowShrink_str (rw_grow_shrink params) +:+ " " +:+
      Dimension_str (rw_dimension params) +:+ " " +:+
      Py.str_of_int (rw_amount params) +:+ " px" in
    result ← run_i3_msg command;
    Ret result.

Record MoveToOutputInput : Type := mkMoveToOutputInput {
  mo_output : option string;
  mo_direction : option Direction
}.

Definition i3_move_to_output (params : MoveToOutputInput) : Act json :=
  if negb (Py.truthy_ostr (mo_output params)) &&
     negb (Py.is_not_None (mo_direction params)) then
    Ret (failure "Must specify either 'output' or 'direction'")
  else if Py.truthy_ostr (mo_output params) &&
          Py.is_not_None (mo_direction params) then
    Ret (failure "Cannot specify both 'output' and 'direction'. Choose one.")
  else
    let command :=
      if Py.truthy_ostr (mo_output params)
      then "move container to output " +:+ Py.fmt_ostr (mo_output params)
      else "move container to output " +:+
           from_option Direction_value "None" (mo_direction params) in
    result ← run_i3_msg command;
    Ret result.

Record FocusOutputInput : Type := mkFocusOutputInput {
  fo_output : option string;
  fo_direction : option Direction
}.

Definition i3_focus_output (params : FocusOutputInput) : Act json :=
  if negb (Py.truthy_ostr (fo_output params)) &&
     negb (Py.is_not_None (fo_direction params)) then
    Ret (failure "Must specify either 'output' or 'direction'")
  else if Py.truthy_ostr (fo_output params) &&
          Py.is_not_None (fo_direction params) then
    Ret (failure "Cannot specify both 'output' and 'direction'. Choose one.")
  else
    let command :=
      if Py.truthy_ostr (fo_output params)
      then "focus output " +:+ Py.fmt_ostr (fo_output params)
      else "focus output " +:+
           from_option Direction_value "None" (fo_direction params) in
    result ← run_i3_msg command;
    Ret result.

(** ** Launching an application *)

Record ExecApplicationInput : Type := mkExecApplicationInput {
  ex_command : string;
  ex_workspace : option string;
  ex_move_to_scratchpad : bool;
  ex_mark_as : option string;
  ex_floating : bool;
  ex_fullscreen : bool
}.

(** The [notes] list of [i3_exec]. *)
Definition exec_notes (params : ExecApplicationInput) : list string :=
  let notes : list string := [] in
  if ex_floating params || ex_fullscreen params || ex_move_to_scratchpad params then
    let notes :=
      notes ++ ["Application launched. To apply floating/fullscreen/scratchpad settings:"] in
    let notes :=
      if ex_floating params
      then notes ++ ["  - Use i3_move_window or manually float the window once it appears"]
      else notes in
    let notes :=
      if ex_fullscreen params
      then notes ++ ["  - Run 'i3-msg fullscreen toggle' once window appears, or ask to make it fullscreen"]
      else notes in
    if ex_move_to_scratchpad params then
      let mark_instruction :=
        if Py.truthy_ostr (ex_mark_as params)
        then " and mark it as '" +:+ Py.fmt_ostr (ex_mark_as params) +:+ "'"
        else "" in
      notes ++ ["  - Use i3_scratchpad_move to move the window to scratchpad" +:+
                mark_instruction]
    else notes
  else notes.

(** The [suggestion] text of [i3_exec]; [split()[0]] may raise. *)
Definition exec_suggestion (params : ExecApplicationInput) : exn + string :=
  match split_first (ex_command params) with
  | inl e => inl e
  | inr program =>
      let suggestion :=
        "For automatic window management on launch, consider adding rules to your i3 config:" +:+
        Py.NL +:+ "  for_window [class=" +:+ Py.DQ +:+ program +:+ Py.DQ +:+ "] " in
      let suggestion :=
        if ex_floating params then suggestion +:+ "floating enable, " else suggestion in
      let suggestion :=
        if ex_fullscreen params then suggestion +:+ "fullscreen enable, " else suggestion in
      if ex_move_to_scratchpad params then
        let mark_str :=
          if Py.truthy_ostr (ex_mark_as params)
          then ", mark " +:+ Py.DQ +:+ Py.fmt_ostr (ex_mark_as params) +:+ Py.DQ
          else "" in
        inr (suggestion +:+ "move scratchpad" +:+ mark_str)
      else inr suggestion
  end.

(** What [i3_exec] does after the call of the exec command: it builds the
    combined result from [result_data], which holds the results so far. *)
Definition exec_finish (params : ExecApplicationInput) (exec_cmd : string)
    (exec_result : json) (result_data : list json) : exn + json :=
  let output : exn + json :=
    match result_data with
    | [] => inr (get_default "output" (JList []) exec_result)
    | _ => match index_all "output" result_data with
           | inl e => inl e
           | inr outputs => inr (JList outputs)
           end
    end in
  match output with
  | inl e => inl e
  | inr output =>
      let result :=
        JDict [("success", JBool (Json.success exec_result));
               ("output", output);
               ("command",
                JStr (if Py.truthy_ostr (ex_workspace params)
                      then "workspace " +:+ Py.fmt_ostr (ex_workspace params) +:+
                           "; " +:+ exec_cmd
                      else exec_cmd))] in
      let result :=
        if negb (Json.success result)
        then Json.set "error" (get_default "error" (JStr "Unknown error") exec_result) result
        else result in
      if Json.success result then
        match exec_notes params with
        | [] => inr result
        | notes =>
            let result := Json.set "notes" (JList (map JStr notes)) result in
            match exec_suggestion params with
            | inl e => inl e
            | inr suggestion => inr (Json.set "suggestion" (JStr suggestion) result)
            end
        end
      else inr result
  end.

(** [i3_exec]: [inl e] when the exception [e] escapes, [inr d] when the
    dict [d] is returned. *)
Definition i3_exec (params : ExecApplicationInput) : Act (exn + json) :=
  if Py.truthy_ostr (ex_mark_as params) && negb (ex_move_to_scratchpad params) then
    Ret (inr (failure "mark_as can only be used with move_to_scratchpad=true"))
  else
    let result_data : list json := [] in
    switched ←
      (if Py.truthy_ostr (ex_workspace params) then
         ws_result ← run_i3_msg ("workspace " +:+ Py.fmt_ostr (ex_workspace params));
         if negb (Json.success ws_result) then Ret (inl ws_result)
         else Ret (inr (result_data ++ [ws_result]))
       else Ret (inr result_data));
    match switched with
    | inl ws_result => Ret (inr ws_result)
    | inr result_data =>
        let exec_cmd := "exec --no-startup-id " +:+ ex_command params in
        exec_result ← run_i3_msg exec_cmd;
        let result_data := result_data ++ [exec_result] in
        Ret (exec_finish params exec_cmd exec_result result_data)
    end.

(** ** Marks, names and criteria given as optional strings *)

Record ScratchpadShowInput : Type := mkScratchpadShowInput {
  ss_scratchpad_name : option string
}.

Definition i3_scratchpad_show (params : ScratchpadShowInput) : Act json :=
  let command :=
    if Py.truthy_ostr (ss_scratchpad_name params)
    then "[title=" +:+ Py.DQ +:+ Py.fmt_ostr (ss_scratchpad_name params) +:+ Py.DQ +:+
         "] scratchpad show"
    else "scratchpad show" in
  result ← run_i3_msg command;
  Ret result.

Record MarkUnmarkInput : Type := mkMarkUnmarkInput {
  mu_mark : option string
}.

Definition i3_mark_unmark (params : MarkUnmarkInput) : Act json :=
  let command :=
    if Py.truthy_ostr (mu_mark params)
    then "unmark " +:+ Py.DQ +:+ Py.fmt_ostr (mu_mark params) +:+ Py.DQ
    else "unmark" in
  result ← run_i3_msg command;
  Ret result.

Record WorkspaceRenameInput : Type := mkWorkspaceRenameInput {
  wr_old_name : option string;
  wr_new_name : string
}.

Definition i3_workspace_rename (params : WorkspaceRenameInput) : Act json :=
  let command :=
    if Py.truthy_ostr (wr_old_name params)
    then "rename workspace " +:+ Py.DQ +:+ Py.fmt_ostr (wr_old_name params) +:+ Py.DQ +:+
         " to " +:+ Py.DQ +:+ wr_new_name params +:+ Py.DQ
    else "rename workspace to " +:+ Py.DQ +:+ wr_new_name params +:+ Py.DQ in
  result ← run_i3_msg command;
  Ret result.

Record FocusByCriteriaInput : Type := mkFocusByCriteriaInput {
  fc_window_class : option string;
  fc_window_title : option string;
  fc_window_instance : option string;
  fc_con_mark : option string;
  fc_urgent : option bool
}.

(** [criteria_parts] of [i3_focus_by_criteria]. *)
Definition criteria_parts (params : FocusByCriteriaInput) : list string :=
  let criteria_parts : list string := [] in
  let criteria_parts :=
    if Py.truthy_ostr (fc_window_class params)
    then criteria_parts ++
         ["class=" +:+ Py.DQ +:+ Py.fmt_ostr (fc_window_class params) +:+ Py.DQ]
    else criteria_parts in
  let criteria_parts :=
    if Py.truthy_ostr (fc_window_title params)
    then criteria_parts ++
         ["title=" +:+ Py.DQ +:+ Py.fmt_ostr (fc_window_title params) +:+ Py.DQ]
    else criteria_parts in
  let criteria_parts :=
    if Py.truthy_ostr (fc_window_instance params)
    then criteria_parts ++
         ["instance=" +:+ Py.DQ +:+ Py.fmt_ostr (fc_window_instance params) +:+ Py.DQ]
    else criteria_parts in
  let criteria_parts :=
    if Py.truthy_ostr (fc_con_mark params)
    then criteria_parts ++
         ["con_mark=" +:+ Py.DQ +:+ Py.fmt_ostr (fc_con_mark params) +:+ Py.DQ]
    else criteria_parts in
  match fc_urgent params with
  | Some urgent =>
      criteria_parts ++ ["urgent=" +:+ (if urgent then "yes" else "no")]
  | None => criteria_parts
  end.

Definition i3_focus_by_criteria (params : FocusByCriteriaInput) : Act json :=
  let criteria_parts := criteria_parts params in
  match criteria_parts with
  | [] => Ret (failure "Must specify at least one criterion")
  | _ =>
      let criteria := Py.join " " criteria_parts in
      let command := "[" +:+ criteria +:+ "] focus" in
      result ← run_i3_msg command;
      Ret result
  end.

(** ** Workspaces and binding modes *)

Record WorkspaceSwitchInput : Type := mkWorkspaceSwitchInput {
  wsw_workspace : string
}.

Definition i3_workspace_switch (params : WorkspaceSwitchInput) : Act json :=
  let command := "workspace " +:+ wsw_workspace params in
  result ← run_i3_msg command;
  Ret result.

Record WorkspaceMoveInput : Type := mkWorkspaceMoveInput {
  wm_workspace : string;
  wm_follow : bool
}.

Definition i3_workspace_move (params : WorkspaceMoveInput) : Act json :=
  let commands := ["move container to workspace " +:+ wm_workspace params] in
  let commands :=
    if wm_follow params
    then commands ++ ["workspace " +:+ wm_workspace params]
    else commands in
  let command := Py.join ", " commands in
  result ← run_i3_msg command;
  Ret result.

Record ModeActivateInput : Type := mkModeActivateInput {
  ma_mode_name : string
}.

Definition i3_mode_activate (params : ModeActivateInput) : Act json :=
  let command := "mode " +:+ Py.DQ +:+ ma_mode_name params +:+ Py.DQ in
  result ← run_i3_msg command;
  Ret result.

(** ** Adjusting gaps *)

(** A value an attribute is read from: a plain [str], as a field of type
    [Literal[...]] holds, or a member of a [str] [Enum]. *)
Inductive pyvalue : Type :=
| PyStr (s : string)
| PyEnum (value : string).

(** [v.value]: only the member of an enum has the attribute. *)
Definition attr_value (v : pyvalue) : exn + string :=
  match v with
  | PyEnum value => inr value
  | PyStr _ => inl (AttributeError "'str' object has no attribute 'value'")
  end.

Inductive GapType : Type := gap_inner | gap_outer.
Inductive GapOperation : Type := gap_plus | gap_minus | gap_set.

Definition GapType_str (g : GapType) : string :=
  match g with gap_inner => "inner" | gap_outer => "outer" end.

Definition GapOperation_str (o : GapOperation) : string :=
  match o with gap_plus => "plus" | gap_minus => "minus" | gap_set => "set" end.

(** [gap_type] and [operation] are declared [Literal[...]]: the fields hold
    plain strings. *)
Record GapsAdjustInput : Type := mkGapsAdjustInput {
  ga_gap_type : GapType;
  ga_operation : GapOperation;
  ga_amount : Z;
  ga_scope : GapsScope
}.

(** [i3_gaps_adjust]: the f-string reads [params.gap_type.value] and
    [params.operation.value] before anything is sent. *)
Definition i3_gaps_adjust (params : GapsAdjustInput) : Act (exn + json) :=
  let scope_prefix :=
    match ga_scope params with
    | scope_current => "workspace"
    | scope_all => "global"
    end in
  match attr_value (PyStr (GapType_str (ga_gap_type params))) with
  | inl e => Ret (inl e)
  | inr gap_type =>
      match attr_value (PyStr (GapOperation_str (ga_operation params))) with
      | inl e => Ret (inl e)
      | inr operation =>
          let command :=
            "gaps " +:+ gap_type +:+ " " +:+ scope_prefix +:+ " " +:+ operation +:+
            " " +:+ Py.str_of_int (ga_amount params) in
          result ← run_i3_msg command;
          Ret (inr result)
      end
  end.

(** ** Queries over the tree *)

Record GetTreeInput : Type := mkGetTreeInput {
  gt_window_class : option string;
  gt_window_title : option string;
  gt_window_instance : option string;
  gt_window_role : option string;
  gt_window_type : option string;
  gt_floating : option bool;
  gt_urgent : option bool;
  gt_workspace : option string
}.

(** The [criteria] dict that [i3_get_tree] builds, in insertion order. *)
Definition get_tree_criteria (params : GetTreeInput) : list criterion :=
  let criteria : list criterion := [] in
  let criteria :=
    if Py.truthy_ostr (gt_window_class params)
    then criteria ++ [by_class (Py.fmt_ostr (gt_window_class params))] else criteria in
  let criteria :=
    if Py.truthy_ostr (gt_window_title params)
    then criteria ++ [by_title (Py.fmt_ostr (gt_window_title params))] else criteria in
  let criteria :=
    if Py.truthy_ostr (gt_window_instance params)
    then criteria ++ [by_instance (Py.fmt_ostr (gt_window_instance params))]
    else criteria in
  let criteria :=
    if Py.truthy_ostr (gt_window_role params)
    then criteria ++ [by_role (Py.fmt_ostr (gt_window_role params))] else criteria in
  let criteria :=
    if Py.truthy_ostr (gt_window_type params)
    then criteria ++ [by_type (Py.fmt_ostr (gt_window_type params))] else criteria in
  let criteria :=
    match gt_floating params with
    | Some b => criteria ++ [by_floating b]
    | None => criteria
    end in
  let criteria :=
    match gt_urgent params with
    | Some b => criteria ++ [by_urgent b]
    | None => criteria
    end in
  if Py.truthy_ostr (gt_workspace params)
  then criteria ++ [by_workspace (Py.fmt_ostr (gt_workspace params))] else criteria.

(** What [i3_get_tree] returns: the dict that it dumps as JSON, kept
    typed (the failed query, or the windows found with their count), or the
    text it returns. *)
Inductive GetTreeAnswer : Type :=
| TreeQueryFailed (result : json)
| TreeWindows (windows : list Node) (count : Z)
| TreeText (text : string).

Section GetTree.

Variable lower : string -> string.

(** [format_window_info(window, ResponseFormat.MARKDOWN)]: the lines
    written for one window.  They are built from keys of the node that
    [Node] does not carry ([rect], [focused]), so the text is left open. *)
Variable format_window_info : Node -> string.

(** [json.dumps(tree, indent=2)]. *)
Variable dumps : Node -> string.

(** The markdown text for the windows found with criteria. *)
Definition matching_windows_text (windows : list Node) : string :=
  let output :=
    "### Matching Windows (" +:+ Py.str_of_int (Z.of_nat (length windows)) +:+
    " found)" +:+ Py.NL +:+ Py.NL in
  match windows with
  | [] => output +:+ ("No windows match the specified criteria." +:+ Py.NL)
  | _ =>
      foldl (fun output window =>
               (output +:+ format_window_info window) +:+
               (Py.NL +:+ "---" +:+ Py.NL +:+ Py.NL))
            output windows
  end.

(** The markdown summary returned when no filter is given. *)
Definition summary_text (all_windows : list Node) : string :=
  let output := "### i3 Window Tree Summary" +:+ Py.NL +:+ Py.NL in
  let output :=
    output +:+ ("Total windows: " +:+ Py.str_of_int (Z.of_nat (length all_windows)) +:+
                Py.NL +:+ Py.NL) in
  output +:+
  ("Use window_class or window_title parameters to filter specific windows." +:+ Py.NL).

(** [i3_get_tree]; [as_json] is [response_format == ResponseFormat.JSON].
    An exception of the walk is not caught. *)
Definition i3_get_tree (params : GetTreeInput) (as_json : bool)
  : Act (exn + GetTreeAnswer) :=
  result ← run_i3_msg_get_tree;
  match result with
  | inr failed => Ret (inr (TreeQueryFailed failed))
  | inl tree =>
      let criteria := get_tree_criteria params in
      match criteria with
      | [] =>
          if as_json then
            Ret (inr (TreeText (truncate_response (dumps tree) CHARACTER_LIMIT)))
          else
            match Tree.find_windows_recursive lower tree None with
            | inl e => Ret (inl e)
            | inr all_windows => Ret (inr (TreeText (summary_text all_windows)))
            end
      | _ =>
          match Tree.find_windows_recursive lower tree (Some criteria) with
          | inl e => Ret (inl e)
          | inr windows =>
              if as_json then
                Ret (inr (TreeWindows windows (Z.of_nat (length windows))))
              else
                Ret (inr (TreeText (truncate_response (matching_windows_text windows)
                                                      CHARACTER_LIMIT)))
          end
      end
  end.

End GetTree.

(** [find_scratchpad] of [i3_scratchpad_list]: the search returns at the
    first node found; the loop over [nodes + floating_nodes] is written as
    one loop over each list. *)
Fixpoint find_scratchpad (node : Node) : option Node :=
  if bool_decide (Py.get (name node) = Some "__i3_scratch") then Some node
  else
    let fix loop (children : list Node) : option Node :=
      match children with
      | [] => None
      | child :: rest =>
          match find_scratchpad child with
          | Some found => Some found
          | None => loop rest
          end
      end in
    match loop (nodes node) with
    | Some found => Some found
    | None => loop (floating_nodes node)
    end.

(** What [i3_scratchpad_list] returns: the dict that it dumps as JSON,
    kept typed (the failed query, the dict for a tree without scratchpad,
    or the windows with their count), or the text it returns. *)
Inductive ScratchpadListAnswer : Type :=
| ListQueryFailed (result : json)
| ListNoScratchpad (result : json)
| ListWindows (windows : list Node) (count : Z)
| ListText (text : string).

Section ScratchpadList.

Variable lower : string -> string.

(** The lines written for one window of the scratchpad: its name, marks,
    class and window id.  [marks] is a key that [Node] does not carry, so
    the text is left open. *)
Variable scratchpad_item : Node -> string.

(** The markdown text for the windows of the scratchpad. *)
Definition scratchpad_windows_text (windows : list Node) : string :=
  let output := "### Scratchpad Windows" +:+ Py.NL +:+ Py.NL in
  let output :=
    match windows with
    | [] => output +:+ ("No windows in scratchpad." +:+ Py.NL)
    | _ => foldl (fun output window => output +:+ scratchpad_item window)
                 output windows
    end in
  output +:+
  (Py.NL +:+ "Total: " +:+ Py.str_of_int (Z.of_nat (length windows)) +:+
   " window(s)" +:+ Py.NL).

(** [i3_scratchpad_list]; [as_json] is
    [response_format == ResponseFormat.JSON]. *)
Definition i3_scratchpad_list (as_json : bool) : Act (exn + ScratchpadListAnswer) :=
  result ← run_i3_msg_get_tree;
  match result with
  | inr failed => Ret (inr (ListQueryFailed failed))
  | inl tree =>
      match find_scratchpad tree with
      | None =>
          Ret (inr (ListNoScratchpad
                      (JDict [("success", JBool true);
                              ("scratchpad_windows", JList []);
                              ("message",
                               JStr "No scratchpad found or scratchpad is empty")])))
      | Some scratchpad =>
          match Tree.find_windows_recursive lower scratchpad None with
          | inl e => Ret (inl e)
          | inr windows =>
              if as_json then
                Ret (inr (ListWindows windows (Z.of_nat (length windows))))
              else
                Ret (inr (ListText (truncate_response (scratchpad_windows_text windows)
                                                      CHARACTER_LIMIT)))
          end
      end
  end.

End ScratchpadList.

(** The key of a criteria item. *)
Definition criterion_key (c : criterion) : string :=
  match c with
  | by_class _ => "class" | by_title _ => "title" | by_instance _ => "instance"
  | by_role _ => "role" | by_type _ => "type" | by_floating _ => "floating"
  | by_urgent _ => "urgent" | by_workspace _ => "workspace"
  end.

(** The call that hides one visible scratchpad window. *)
Definition hide_call (window : Tree.VisibleScratchpad) : call :=
  CallCommand ("[id=" +:+ Py.fmt_oint (Tree.vs_window_id window) +:+ "] move scratchpad").

(** A call was answered with data: [i3-msg] ran, exited with 0 and its
    output was parsed. *)
Definition replied {D : Type} (rep : i3_reply D) : bool :=
  match rep with Reply _ => true | _ => false end.

(** The outcome of an operation that either rejects its input, with a
    validation failure and no call, or sends one command and returns the
    dict of [run_i3_msg] for it. *)
Definition one_shot (t : transport) (out : json * list call) : Prop :=
  (exists msg, out = (failure msg, [])) \/
  (exists command,
     out = (command_result command (answer_command t [] command),
            [CallCommand command])).

(** The workspaces of the input list that are not skipped. *)
Definition not_preserved (params : BulkWorkspaceMoveInput)
    (workspaces : list string) : list string :=
  List.filter (fun ws_name => negb (is_preserved params ws_name)) workspaces.

(** An optional string with the empty string taken for a missing value. *)
Definition nonempty (o : option string) : option string :=
  if Py.truthy_ostr o then o else None.

(** The outcome of an operation that sends one command and returns the
    dict of [run_i3_msg] for it as it is. *)
Definition one_command (t : transport) (out : json * list call) : Prop :=
  exists command,
    out = (command_result command (answer_command t [] command),
           [CallCommand command]).

(** A transport that never answers in time. *)
Definition transport_silent : transport :=
  mkTransport (fun _ _ => TimeoutExpired) (fun _ => TimeoutExpired)
              (fun _ => TimeoutExpired).

(** ** Proof steps *)

(** Picks the disjunct of a goal that the hypotheses settle. *)
Ltac pick_disjunct :=
  first [ solve [split; [assumption | congruence]]
        | solve [eexists; split; [eassumption | reflexivity]]
        | left; pick_disjunct
        | right; pick_disjunct ].

(** The two outcomes of [one_shot]. *)
Ltac rejected := left; eexists; reflexivity.
Ltac sent := right; eexists; reflexivity.

(** An identifier is 0 or it is not. *)
Ltac zero_or_not z :=
  destruct (Z.eqb_spec z 0) as [->|?]; cbn [negb].

(** * Properties *)

(** ** Strings *)

Lemma length_append (s1 s2 : string) :
  String.length (s1 +:+ s2) = (String.length s1 + String.length s2)%nat.
Proof.
  induction s1 as [|c s1 IH]; simpl; [reflexivity | now rewrite IH].
Qed.

Lemma len_append (s1 s2 : string) : Py.len (s1 +:+ s2) = Py.len s1 + Py.len s2.
Proof. unfold Py.len. rewrite length_append. lia. Qed.

Lemma str_take_split (n : nat) (s : string) :
  (n <= String.length s)%nat ->
  exists rest, s = Py.str_take n s +:+ rest /\ String.length (Py.str_take n s) = n.
Proof.
  revert s. induction n as [|n IH]; intros s Hn.
  - exists s. destruct s; simpl; split; reflexivity.
  - destruct s as [|c s]; simpl in Hn; [lia|].
    destruct (IH s) as [rest [Hs Hl]]; [lia|].
    exists rest. split; [|simpl; now rewrite Hl].
    change (String c s = String c (Py.str_take n s +:+ rest)). congruence.
Qed.

Lemma truncation_notice_nonempty (limit : Z) : 0 < Py.len (truncation_notice limit).
Proof.
  unfold truncation_notice. rewrite len_append.
  assert (0 <= Py.len (Py.NL +:+ "---" +:+ Py.NL +:+
            "**Response truncated** (exceeded " +:+ Py.str_of_int limit +:+
            " characters). " +:+
            "Use more specific filters or criteria to narrow results."))
    by (unfold Py.len; lia).
  change (Py.len Py.NL) with 1. lia.
Qed.

(** ** Truncation *)

(** A short text passes the default limit unchanged. *)
Example truncate_response_default_short :
  truncate_response "### Scratchpad Windows" CHARACTER_LIMIT = "### Scratchpad Windows".
Proof. reflexivity. Qed.

(** C8 (as amended): for every text and every non-negative limit,
    [truncate_response] returns the text unchanged when its length is at most
    the limit; otherwise it returns exactly the first [limit] characters of
    the text followed by the notice for that limit, wherever the cut falls,
    and the output is then longer than the limit by the length of the
    notice. *)
Theorem truncate_response_cut (content : string) (limit : Z) :
  0 <= limit ->
  (Py.len content <= limit -> truncate_response content limit = content) /\
  (limit < Py.len content ->
   exists kept dropped,
     content = kept +:+ dropped /\
     Py.len kept = limit /\
     truncate_response content limit = kept +:+ truncation_notice limit /\
     Py.len (truncate_response content limit)
       = limit + Py.len (truncation_notice limit) /\
     limit < Py.len (truncate_response content limit)).
Proof.
  intros Hlimit. unfold truncate_response. split.
  - intros Hle. apply Z.leb_le in Hle. now rewrite Hle.
  - intros Hlt.
    assert (Hgt : (Py.len content <=? limit) = false) by (apply Z.leb_gt; lia).
    rewrite Hgt. unfold Py.slice_to.
    assert (Hnn : (0 <=? limit) = true) by (apply Z.leb_le; lia).
    rewrite Hnn.
    destruct (str_take_split (Z.to_nat limit) content) as [dropped [Hsplit Hlen]].
    { unfold Py.len in Hlt. lia. }
    exists (Py.str_take (Z.to_nat limit) content), dropped.
    assert (Hkept : Py.len (Py.str_take (Z.to_nat limit) content) = limit)
      by (unfold Py.len; rewrite Hlen; lia).
    pose proof (truncation_notice_nonempty limit) as Hpos.
    repeat split; try assumption; try reflexivity.
    + rewrite len_append. lia.
    + rewrite len_append. lia.
Qed.

(** The cut at a text of six characters and limit 3. *)
Lemma truncate_response_cut_witness :
  0 <= 3 /\
  (Py.len "abcdef" <= 3 -> truncate_response "abcdef" 3 = "abcdef") /\
  (3 < Py.len "abcdef" ->
   exists kept dropped,
     "abcdef" = kept +:+ dropped /\
     Py.len kept = 3 /\
     truncate_response "abcdef" 3 = kept +:+ truncation_notice 3 /\
     Py.len (truncate_response "abcdef" 3) = 3 + Py.len (truncation_notice 3) /\
     3 < Py.len (truncate_response "abcdef" 3)).
Proof.
  split; [lia | apply (truncate_response_cut "abcdef" 3); lia].
Defined.

(** C8 (as stated) fails: a text of six characters cut at limit 3 comes
    back with the three kept characters and the whole notice, which is
    longer than the limit; and at the negative limit -2 the slice keeps all
    but the last two characters, not a first part of length [limit]. *)
Lemma truncate_response_exceeds_limit :
  truncate_response "abcdef" 3 = "abc" +:+ truncation_notice 3 /\
  ~ (Py.len (truncate_response "abcdef" 3) <= 3) /\
  truncate_response "abcdef" (-2) = "abcd" +:+ truncation_notice (-2).
Proof.
  split; [reflexivity|]. split; [|reflexivity].
  intros H. vm_compute in H. apply H. reflexivity.
Qed.

Lemma append_assoc (s1 s2 s3 : string) :
  (s1 +:+ s2) +:+ s3 = s1 +:+ (s2 +:+ s3).
Proof.
  induction s1 as [|c s1 IH]; [reflexivity|].
  change (String c ((s1 +:+ s2) +:+ s3) = String c (s1 +:+ (s2 +:+ s3))).
  now rewrite IH.
Qed.

Lemma count_char_append (c : ascii) (s1 s2 : string) :
  count_char c (s1 +:+ s2) = (count_char c s1 + count_char c s2)%nat.
Proof.
  induction s1 as [|c' s1 IH]; [reflexivity|].
  change (count_char c (String c' (s1 +:+ s2))
          = (count_char c (String c' s1) + count_char c s2)%nat).
  simpl. rewrite IH. lia.
Qed.

Lemma spec_escape_quotes_id (s : string) :
  count_char Py.dquote s = 0%nat -> spec_escape_quotes s = s.
Proof.
  induction s as [|c s IH]; [reflexivity|].
  cbn [count_char spec_escape_quotes]. intros H.
  destruct (Ascii.eqb_spec c Py.dquote) as [->|Hne].
  - rewrite Ascii.eqb_refl in H. discriminate.
  - destruct (Ascii.eqb_spec Py.dquote c) as [Heq|_]; [congruence|].
    now rewrite IH.
Qed.

Lemma length_spec_escape_quotes (s : string) :
  String.length (spec_escape_quotes s)
  = (String.length s + count_char Py.dquote s)%nat.
Proof.
  induction s as [|c s IH]; [reflexivity|].
  cbn [spec_escape_quotes count_char String.length].
  destruct (Ascii.eqb_spec c Py.dquote) as [->|Hne].
  - rewrite Ascii.eqb_refl. cbn [String.length]. rewrite IH. lia.
  - destruct (Ascii.eqb_spec Py.dquote c) as [Heq|_]; [congruence|].
    cbn [String.length]. rewrite IH. lia.
Qed.

(** ** The transport *)

Lemma command_result_success (command : string) (rep : i3_reply json) :
  Json.success (command_result command rep) = true <-> exists output, rep = Reply output.
Proof.
  destruct rep as [output|msg raw|stderr str_e|]; simpl; split; intros H.
  - now exists output.
  - reflexivity.
  - discriminate.
  - destruct H as [output H]; discriminate.
  - discriminate.
  - destruct H as [output H]; discriminate.
  - discriminate.
  - destruct H as [output H]; discriminate.
Qed.

Lemma run_command (t : transport) (command : string) :
  run t (run_i3_msg command)
  = (command_result command (answer_command t [] command), [CallCommand command]).
Proof. reflexivity. Qed.

(** ** Parameter validation *)

(** C2: whenever more than one of the positioning options (center,
    to_mouse, to_mark, absolute position) of [i3_move_window] is set, the
    operation is the immediate return of the validation failure: against
    every transport it returns that failure and makes no call at all,
    whatever [workspace] and [direction] hold. *)
Theorem i3_move_window_exclusive (params : MoveWindowInput) :
  1 < position_options params ->
  i3_move_window params = Ret (failure move_window_exclusive_error) /\
  Json.success (failure move_window_exclusive_error) = false /\
  forall t : transport,
    run t (i3_move_window params) = (failure move_window_exclusive_error, []).
Proof.
  intros Hmany.
  assert (Hprog : i3_move_window params = Ret (failure move_window_exclusive_error)).
  { unfold i3_move_window. apply Z.ltb_lt in Hmany. now rewrite Hmany. }
  split; [exact Hprog|]. split; [reflexivity|].
  intros t. now rewrite Hprog.
Qed.

(** [center] and [to_mouse] together, with a direction and a workspace. *)
Lemma i3_move_window_exclusive_witness :
  let params := mkMoveWindowInput (Some LEFT) None None true true None (Some "2") in
  1 < position_options params /\
  i3_move_window params = Ret (failure move_window_exclusive_error) /\
  Json.success (failure move_window_exclusive_error) = false /\
  forall t : transport,
    run t (i3_move_window params) = (failure move_window_exclusive_error, []).
Proof.
  split; [reflexivity|].
  apply (i3_move_window_exclusive
           (mkMoveWindowInput (Some LEFT) None None true true None (Some "2"))).
  reflexivity.
Defined.

(** C10: [i3_gaps_set] with [inner = 0] and [outer = 0] returns the
    failure "Must specify at least one of: inner, outer" and makes no call,
    because the presence check reads 0 as an absent value; the same holds
    whenever each value is absent or 0, while a 0 next to a non-zero value
    is sent to the manager. *)
Theorem i3_gaps_set_zero_rejected (scope : GapsScope) (t : transport) :
  run t (i3_gaps_set (mkGapsInput (Some 0) (Some 0) scope))
    = (failure "Must specify at least one of: inner, outer", []) /\
  (forall inner outer : option Z,
     Py.truthy_oint inner = false -> Py.truthy_oint outer = false ->
     run t (i3_gaps_set (mkGapsInput inner outer scope))
       = (failure "Must specify at least one of: inner, outer", [])) /\
  (forall n : Z, n <> 0 ->
     commands_of (snd (run t (i3_gaps_set (mkGapsInput (Some 0) (Some n) scope))))
       = ["gaps inner " +:+ (match scope with
                             | scope_current => "workspace"
                             | scope_all => "global"
                             end) +:+ " set 0, gaps outer " +:+
          (match scope with
           | scope_current => "workspace"
           | scope_all => "global"
           end) +:+ " set " +:+ Py.str_of_int n]).
Proof.
  split; [reflexivity|]. split.
  - intros inner outer Hi Ho. unfold i3_gaps_set. simpl.
    now rewrite Hi, Ho.
  - intros n Hn. unfold i3_gaps_set. simpl.
    assert (Hz : (n =? 0) = false) by now apply Z.eqb_neq.
    rewrite Hz. destruct scope; reflexivity.
Qed.

(** ** Swapping with an explicit source *)



(** ** Literals embedded in commands *)

(** C7 (as stated) fails: the mark made of [a], a quote and [b] is embedded
    as it is.  The command sent has three quote characters and is not the
    command with the quote of the literal escaped; [i3_scratchpad_move]
    embeds the same mark the same way, and the workspace name of
    [i3_move_window] is embedded with no quotes at all.  The embedded value
    alters the structure of the command: a mark that holds a quote, a comma
    and the word [kill] yields the command list with [kill] in it, and a
    mark without any quote that ends in a backslash is embedded with the
    backslash left before the closing quote. *)
Lemma mark_quote_not_escaped :
  commands_of (snd (run transport_ok
    (i3_mark_set (mkMarkSetInput ("a" +:+ Py.DQ +:+ "b") mode_replace))))
    = ["mark --replace " +:+ Py.DQ +:+ "a" +:+ Py.DQ +:+ "b" +:+ Py.DQ] /\
  "mark --replace " +:+ Py.DQ +:+ "a" +:+ Py.DQ +:+ "b" +:+ Py.DQ
    <> "mark --replace " +:+ spec_quote_literal ("a" +:+ Py.DQ +:+ "b") /\
  count_char Py.dquote
    ("mark --replace " +:+ Py.DQ +:+ "a" +:+ Py.DQ +:+ "b" +:+ Py.DQ) = 3%nat /\
  commands_of (snd (run transport_ok
    (i3_scratchpad_move (mkScratchpadMoveInput (Some ("a" +:+ Py.DQ +:+ "b"))))))
    = ["mark " +:+ Py.DQ +:+ "a" +:+ Py.DQ +:+ "b" +:+ Py.DQ +:+ ", move scratchpad"] /\
  commands_of (snd (run transport_ok
    (i3_move_window (mkMoveWindowInput None None None false false None (Some "web")))))
    = ["move container to workspace web"] /\
  commands_of (snd (run transport_ok
    (i3_scratchpad_move
       (mkScratchpadMoveInput
          (Some ("a" +:+ Py.DQ +:+ ", kill, mark " +:+ Py.DQ +:+ "b"))))))
    = [Py.join ", " ["mark " +:+ Py.DQ +:+ "a" +:+ Py.DQ;
                     "kill";
                     "mark " +:+ Py.DQ +:+ "b" +:+ Py.DQ;
                     "move scratchpad"]] /\
  count_char Py.dquote ("x" +:+ String Py.backslash "") = 0%nat /\
  commands_of (snd (run transport_ok
    (i3_scratchpad_move
       (mkScratchpadMoveInput (Some ("x" +:+ String Py.backslash ""))))))
    = ["mark " +:+ Py.DQ +:+ "x" +:+ String Py.backslash "" +:+ Py.DQ +:+
       ", move scratchpad"].
Proof.
  split; [reflexivity|]. split; [|repeat split; reflexivity].
  intros H. vm_compute in H. discriminate H.
Qed.

(** C7 (as amended): a literal supplied by the caller is embedded in the
    command character for character, with nothing escaped.  Marks, titles
    and the other criteria strings, the two names of a rename and the name
    of a binding mode are wrapped in one pair of double quotes; the
    workspace names of [i3_workspace_switch], [i3_workspace_move],
    [i3_move_window], [i3_exec] and [i3_workspace_bulk_move] are embedded
    bare.  The quoted value is the escaped form exactly when the literal
    holds no quote character. *)
Theorem literals_embedded_verbatim (t : transport) :
  (forall mark mode,
     snd (run t (i3_mark_set (mkMarkSetInput mark mode)))
     = [CallCommand ("mark --" +:+ MarkMode_value mode +:+ " " +:+
                     Py.DQ +:+ mark +:+ Py.DQ)]) /\
  (forall mark, Py.truthy_str mark = true ->
     snd (run t (i3_mark_unmark (mkMarkUnmarkInput (Some mark))))
     = [CallCommand ("unmark " +:+ Py.DQ +:+ mark +:+ Py.DQ)]) /\
  (forall mark, Py.truthy_str mark = true ->
     snd (run t (i3_scratchpad_move (mkScratchpadMoveInput (Some mark))))
     = [CallCommand ("mark " +:+ Py.DQ +:+ mark +:+ Py.DQ +:+ ", move scratchpad")]) /\
  (forall title, Py.truthy_str title = true ->
     snd (run t (i3_scratchpad_show (mkScratchpadShowInput (Some title))))
     = [CallCommand ("[title=" +:+ Py.DQ +:+ title +:+ Py.DQ +:+
                     "] scratchpad show")]) /\
  (forall mark, Py.truthy_str mark = true ->
     snd (run t (i3_move_window
                   (mkMoveWindowInput None None None false false (Some mark) None)))
     = [CallCommand ("move window to mark " +:+ Py.DQ +:+ mark +:+ Py.DQ)]) /\
  (forall mark, Py.truthy_str mark = true ->
     snd (run t (i3_swap_containers
                   (mkSwapContainerInput None None (Some mark) None None None)))
     = [CallCommand ("swap container with mark " +:+ Py.DQ +:+ mark +:+ Py.DQ)]) /\
  (forall target source, Py.truthy_str target = true ->
     head (snd (run t (i3_swap_containers
                         (mkSwapContainerInput None None (Some target)
                            None None (Some source)))))
     = Some (CallCommand (("[con_mark=" +:+ Py.DQ +:+ source +:+ Py.DQ +:+ "]") +:+
                          " focus"))) /\
  (forall params,
     criteria_parts params
     = (if Py.truthy_ostr (fc_window_class params)
        then ["class=" +:+ Py.DQ +:+ Py.fmt_ostr (fc_window_class params) +:+ Py.DQ]
        else []) ++
       (if Py.truthy_ostr (fc_window_title params)
        then ["title=" +:+ Py.DQ +:+ Py.fmt_ostr (fc_window_title params) +:+ Py.DQ]
        else []) ++
       (if Py.truthy_ostr (fc_window_instance params)
        then ["instance=" +:+ Py.DQ +:+ Py.fmt_ostr (fc_window_instance params) +:+
              Py.DQ]
        else []) ++
       (if Py.truthy_ostr (fc_con_mark params)
        then ["con_mark=" +:+ Py.DQ +:+ Py.fmt_ostr (fc_con_mark params) +:+ Py.DQ]
        else []) ++
       (match fc_urgent params with
        | Some urgent => ["urgent=" +:+ (if urgent then "yes" else "no")]
        | None => []
        end) /\
     (criteria_parts params <> [] ->
      snd (run t (i3_focus_by_criteria params))
      = [CallCommand ("[" +:+ Py.join " " (criteria_parts params) +:+ "] focus")])) /\
  (forall old_name new_name, Py.truthy_str old_name = true ->
     snd (run t (i3_workspace_rename (mkWorkspaceRenameInput (Some old_name) new_name)))
     = [CallCommand ("rename workspace " +:+ Py.DQ +:+ old_name +:+ Py.DQ +:+
                     " to " +:+ Py.DQ +:+ new_name +:+ Py.DQ)]) /\
  (forall new_name,
     snd (run t (i3_workspace_rename (mkWorkspaceRenameInput None new_name)))
     = [CallCommand ("rename workspace to " +:+ Py.DQ +:+ new_name +:+ Py.DQ)]) /\
  (forall mode_name,
     snd (run t (i3_mode_activate (mkModeActivateInput mode_name)))
     = [CallCommand ("mode " +:+ Py.DQ +:+ mode_name +:+ Py.DQ)]) /\
  (forall workspace,
     snd (run t (i3_workspace_switch (mkWorkspaceSwitchInput workspace)))
     = [CallCommand ("workspace " +:+ workspace)]) /\
  (forall workspace follow,
     snd (run t (i3_workspace_move (mkWorkspaceMoveInput workspace follow)))
     = [CallCommand
          (if follow
           then "move container to workspace " +:+ workspace +:+
                ", workspace " +:+ workspace
           else "move container to workspace " +:+ workspace)]) /\
  (forall workspace : string,
     Py.truthy_str workspace = true ->
     snd (run t (i3_move_window
                   (mkMoveWindowInput None None None false false None (Some workspace))))
       = [CallCommand ("move container to workspace " +:+ workspace)]) /\
  (forall command workspace floating fullscreen,
     Py.truthy_str workspace = true ->
     head (snd (run t (i3_exec (mkExecApplicationInput command (Some workspace)
                                  false None floating fullscreen))))
     = Some (CallCommand ("workspace " +:+ workspace))) /\
  (forall workspace target_output,
     move_command workspace target_output
     = "workspace " +:+ workspace +:+ "; move workspace to output " +:+ target_output) /\
  (forall literal,
     (Py.DQ +:+ literal +:+ Py.DQ = spec_quote_literal literal <->
      count_char Py.dquote literal = 0%nat) /\
     count_char Py.dquote (Py.DQ +:+ literal +:+ Py.DQ)
     = (2 + count_char Py.dquote literal)%nat).
Proof.
  repeat match goal with |- _ /\ _ => split end.
  - intros mark mode. destruct mode; reflexivity.
  - intros [|c mark] Hmark; [discriminate | reflexivity].
  - intros [|c mark] Hmark; [discriminate|].
    unfold i3_scratchpad_move, run.
    cbn [sm_mark_as Py.truthy_ostr Py.truthy_str app Py.join Py.fmt_ostr
         exec mbind Act_mbind Act_bind run_i3_msg snd].
    do 2 f_equal.
    change ("mark " +:+ Py.DQ +:+ String c mark +:+ Py.DQ +:+ ", move scratchpad")
      with ("mark " +:+ (Py.DQ +:+ (String c mark +:+ (Py.DQ +:+ ", move scratchpad")))).
    now rewrite !append_assoc.
  - intros [|c title] Htitle; [discriminate | reflexivity].
  - intros [|c mark] Hmark; [discriminate | reflexivity].
  - intros [|c mark] Hmark; [discriminate | reflexivity].
  - intros [|c target] source Htarget; [discriminate|].
    unfold i3_swap_containers, run.
    cbn [sc_target_id sc_target_con_id sc_target_mark sc_source_id sc_source_con_id
         sc_source_mark Py.truthy_oint Py.truthy_ostr Py.truthy_str negb andb].
    change (1 <? target_count _) with false. change (1 <? source_count _) with false.
    change (0 <? source_count _) with true. cbv iota.
    cbn [exec mbind Act_mbind Act_bind run_i3_msg app].
    destruct (Json.success _); reflexivity.
  - intros params. split.
    + destruct params as [[[|c1 s1]|] [[|c2 s2]|] [[|c3 s3]|] [[|c4 s4]|] [u|]];
        reflexivity.
    + intros Hparts. unfold i3_focus_by_criteria.
      destruct (criteria_parts params); [now destruct Hparts | reflexivity].
  - intros [|c old_name] new_name Hold; [discriminate | reflexivity].
  - reflexivity.
  - reflexivity.
  - reflexivity.
  - intros workspace [|]; reflexivity.
  - intros [|c workspace] Hws; [discriminate | reflexivity].
  - intros command [|c workspace] floating fullscreen Hws; [discriminate|].
    unfold i3_exec, run.
    cbn [ex_mark_as ex_move_to_scratchpad ex_workspace Py.truthy_ostr
         Py.truthy_str andb negb].
    cbn [exec mbind Act_mbind Act_bind run_i3_msg app].
    destruct (Json.success _); reflexivity.
  - reflexivity.
  - intros literal. split.
    + unfold spec_quote_literal. split.
      * intros Hsame.
        assert (Hlen : String.length (Py.DQ +:+ literal +:+ Py.DQ)
                       = String.length (Py.DQ +:+ spec_escape_quotes literal +:+ Py.DQ))
          by now rewrite Hsame.
        rewrite !length_append, length_spec_escape_quotes in Hlen. lia.
      * intros Hclean. now rewrite (spec_escape_quotes_id literal Hclean).
    + rewrite !count_char_append. change (count_char Py.dquote Py.DQ) with 1%nat. lia.
Qed.

(** ** The tree walks *)

Lemma flat_map_Forall_ext {A B : Type} (f g : A -> list B) (l : list A) :
  Forall (fun x => f x = g x) l -> flat_map f l = flat_map g l.
Proof.
  induction 1 as [|x l Hx _ IH]; [reflexivity|]. simpl. now rewrite Hx, IH.
Qed.

Lemma filter_flat_map {A B : Type} (keep : B -> bool) (f : A -> list B) (l : list A) :
  List.filter keep (flat_map f l) = flat_map (fun x => List.filter keep (f x)) l.
Proof.
  induction l as [|x l IH]; [reflexivity|].
  simpl. now rewrite List.filter_app, IH.
Qed.

Lemma existsb_flat_map {A B : Type} (p : B -> bool) (f : A -> list B) (l : list A) :
  existsb p (flat_map f l) = existsb (fun x => existsb p (f x)) l.
Proof.
  induction l as [|x l IH]; [reflexivity|].
  simpl. now rewrite existsb_app, IH.
Qed.

Lemma find_visible_scratchpads_unfold (node : Node) :
  Tree.find_visible_scratchpads node
  = (if Tree.is_visible_scratchpad node
     then Tree.first_window_child node (nodes node) else []) ++
    flat_map Tree.find_visible_scratchpads (nodes node ++ floating_nodes node).
Proof. destruct node. simpl. now rewrite flat_map_app. Qed.

Lemma has_window_iff (node : Node) :
  Tree.has_window node = true <-> exists id, window node = Some id /\ id <> 0.
Proof.
  unfold Tree.has_window, Py.truthy_oint.
  destruct (window node) as [id|]; split.
  - intros H. apply andb_true_iff in H as [H _].
    exists id. split; [reflexivity|]. apply negb_true_iff, Z.eqb_neq in H. exact H.
  - intros [id' [Heq Hne]]. injection Heq as <-.
    apply andb_true_iff. split.
    + now apply negb_true_iff, Z.eqb_neq.
    + apply negb_true_iff, bool_decide_eq_false. congruence.
  - discriminate.
  - intros [id [Heq _]]. discriminate.
Qed.

(** The loop over the children, when the walk of each child is known. *)
Lemma extend_loop_spec (walk : Node -> exn + list Node) (raising : Node -> bool)
    (found : Node -> list Node) (e : exn) (children : list Node) :
  Forall (fun child => walk child = if raising child then inl e else inr (found child))
         children ->
  forall windows,
    Tree.extend_loop walk children windows
    = if existsb raising children then inl e
      else inr (windows ++ flat_map found children).
Proof.
  induction 1 as [|child rest Hchild _ IH]; intros windows.
  - cbn. now rewrite app_nil_r.
  - cbn [Tree.extend_loop existsb flat_map]. rewrite Hchild.
    destruct (raising child); [reflexivity|].
    cbn [orb]. rewrite IH. destruct (existsb raising rest); [reflexivity|].
    now rewrite <- app_assoc.
Qed.

(** The loop over [nodes + floating_nodes] of the source is the loop over
    the two lists one after the other. *)
Lemma extend_loop_app (walk : Node -> exn + list Node) (l1 l2 : list Node) :
  forall windows,
    Tree.extend_loop walk (l1 ++ l2) windows
    = match Tree.extend_loop walk l1 windows with
      | inl e => inl e
      | inr windows' => Tree.extend_loop walk l2 windows'
      end.
Proof.
  induction l1 as [|child l1 IH]; intros windows; [reflexivity|].
  cbn [app Tree.extend_loop]. destruct (walk child); [reflexivity | apply IH].
Qed.

Lemma find_windows_recursive_unfold (lower : string -> string) (node : Node)
    (criteria : option (list criterion)) :
  Tree.find_windows_recursive lower node criteria
  = match Tree.own_windows lower node criteria with
    | inl e => inl e
    | inr windows =>
        Tree.extend_loop (fun child => Tree.find_windows_recursive lower child criteria)
                         (nodes node ++ floating_nodes node) windows
    end.
Proof.
  destruct node. cbn [Tree.find_windows_recursive nodes floating_nodes].
  destruct (Tree.own_windows _ _ _); [reflexivity|]. now rewrite extend_loop_app.
Qed.

(** ** Criteria *)

Lemma prefix_iff (sub s : string) :
  String.prefix sub s = true <-> exists after, s = sub +:+ after.
Proof.
  revert s. induction sub as [|c sub IH]; intros s.
  - split; [intros _; now exists s | intros _; destruct s; reflexivity].
  - destruct s as [|c' s]; simpl.
    + split; [discriminate | intros [after H]; discriminate].
    + destruct (ascii_dec c c') as [->|Hne].
      * rewrite IH. split; intros [after H]; exists after.
        -- change (String c' s = String c' (sub +:+ after)). now rewrite H.
        -- change (String c' s = String c' (sub +:+ after)) in H. congruence.
      * split; [discriminate|].
        intros [after H].
        change (String c' s = String c (sub +:+ after)) in H. congruence.
Qed.

Lemma contains_iff (sub s : string) :
  Py.contains sub s = true <-> exists before after, s = before +:+ sub +:+ after.
Proof.
  induction s as [|c s IH].
  - cbn [Py.contains]. rewrite orb_false_r, prefix_iff. split.
    + intros [after H]. now exists "", after.
    + intros [before [after H]].
      destruct before; [now exists after | discriminate].
  - cbn [Py.contains]. rewrite orb_true_iff, prefix_iff, IH. split.
    + intros [[after H] | [before [after H]]].
      * now exists "", after.
      * exists (String c before), after.
        change (String c s = String c (before +:+ sub +:+ after)). now rewrite H.
    + intros [before [after H]]. destruct before as [|c' before].
      * left. now exists after.
      * right. exists before, after.
        change (String c s = String c' (before +:+ sub +:+ after)) in H.
        congruence.
Qed.

(** The test [criterion_ok] decides the rule [criterion_passes]. *)
Lemma criterion_ok_iff (lower : string -> string) (node : Node) (c : criterion) :
  criterion_ok lower node c = true <-> criterion_passes lower node c.
Proof.
  destruct c as [v|v|v|v|v|b|b|v]; cbn [criterion_ok criterion_passes];
    rewrite ?String.eqb_eq; try reflexivity.
  - destruct (Py.get_or "" (name node)) as [title|].
    + rewrite contains_iff. split.
      * intros (before & after & H). now exists title, before, after.
      * intros (title' & before & after & Htitle & H). injection Htitle as <-.
        now exists before, after.
    + split; [discriminate|]. intros (title & _ & _ & Htitle & _). discriminate.
  - rewrite Bool.eqb_true_iff.
    case_bool_decide as Hkind; destruct b; intuition congruence.
  - rewrite Bool.eqb_true_iff. reflexivity.
  - split; [intros _; exact I | reflexivity].
Qed.

Lemma has_title_iff (criteria : list criterion) :
  has_title criteria = true <-> exists value, In (by_title value) criteria.
Proof.
  unfold has_title. rewrite existsb_exists. split.
  - intros (c & Hin & Hc). destruct c; try discriminate. eauto.
  - intros (value & Hin). eauto.
Qed.

Lemma nameless_iff (node : Node) :
  nameless node = true <-> name node = Py.Null.
Proof. unfold nameless. destruct (name node); split; congruence. Qed.

(** One branch of the loop raises exactly for a title asked of a node
    whose name is [null]; otherwise it clears [matches] exactly when the
    rule does not pass. *)
Lemma criterion_fails_spec (lower : string -> string) (node : Node) (c : criterion) :
  Tree.criterion_fails lower node c
  = if has_title [c] && nameless node then inl no_lower
    else inr (negb (criterion_ok lower node c)).
Proof.
  unfold nameless.
  destruct c; cbn [Tree.criterion_fails criterion_ok has_title existsb orb andb];
    try reflexivity.
  destruct (name node); reflexivity.
Qed.

Lemma criteria_loop_spec (lower : string -> string) (node : Node)
    (criteria : list criterion) :
  forall matches,
    Tree.criteria_loop lower node criteria matches
    = if has_title criteria && nameless node then inl no_lower
      else inr (matches && forallb (criterion_ok lower node) criteria).
Proof.
  induction criteria as [|c rest IH]; intros matches.
  - cbn. now rewrite andb_true_r.
  - cbn [Tree.criteria_loop forallb]. rewrite criterion_fails_spec.
    change (has_title (c :: rest))
      with (match c with by_title _ => true | _ => false end || has_title rest).
    cbn [has_title existsb]. rewrite orb_false_r.
    destruct (match c with by_title _ => true | _ => false end), (nameless node);
      cbn [andb orb]; try reflexivity; rewrite IH;
      destruct (has_title rest), (criterion_ok lower node c), matches; reflexivity.
Qed.

(** What a node contributes. *)
Lemma own_windows_spec (lower : string -> string) (node : Node)
    (criteria : option (list criterion)) :
  Tree.own_windows lower node criteria
  = if has_title (default [] criteria) && untitled node then inl no_lower
    else inr (List.filter
                (fun n => Tree.has_window n &&
                          forallb (criterion_ok lower n) (default [] criteria))
                [node]).
Proof.
  unfold Tree.own_windows, untitled. cbn [List.filter].
  destruct (Tree.has_window node); cbn [andb].
  - destruct criteria as [[|c rest]|]; cbn [default from_option id].
    + reflexivity.
    + rewrite criteria_loop_spec.
      destruct (has_title (c :: rest) && nameless node); [reflexivity|].
      cbn [andb]. now destruct (forallb _ _).
    + reflexivity.
  - rewrite andb_false_r. reflexivity.
Qed.

Lemma raises_unfold (node : Node) (criteria : list criterion) :
  raises node criteria
  = (has_title criteria && untitled node) ||
    existsb (fun child => raises child criteria) (nodes node) ||
    existsb (fun child => raises child criteria) (floating_nodes node).
Proof.
  assert (Hchildren : forall l,
    existsb (fun child => raises child criteria) l
    = has_title criteria && existsb untitled (flat_map preorder l)).
  { intros l. unfold raises. rewrite existsb_flat_map.
    induction l as [|child l IH]; cbn [existsb].
    - now rewrite andb_false_r.
    - rewrite IH. now destruct (has_title criteria). }
  rewrite !Hchildren. unfold raises. destruct node.
  cbn [preorder nodes floating_nodes existsb]. rewrite existsb_app.
  destruct (has_title criteria); cbn [andb orb]; [apply orb_assoc | reflexivity].
Qed.

Lemma matching_unfold (lower : string -> string) (node : Node)
    (criteria : list criterion) :
  matching lower node criteria
  = List.filter (fun n => Tree.has_window n &&
                          forallb (criterion_ok lower n) criteria) [node] ++
    flat_map (fun child => matching lower child criteria) (nodes node) ++
    flat_map (fun child => matching lower child criteria) (floating_nodes node).
Proof.
  unfold matching. destruct node. cbn [preorder nodes floating_nodes].
  match goal with
  | |- List.filter _ (?n :: ?l) = _ => change (n :: l) with ([n] ++ l)
  end.
  now rewrite !List.filter_app, !filter_flat_map.
Qed.

(** The walk raises exactly when a title is asked for and a window of the
    tree has a name that is [null]; otherwise it returns the windows that
    pass every item, in depth-first order. *)
Lemma find_windows_recursive_spec (lower : string -> string) (tree : Node)
    (criteria : option (list criterion)) :
  Tree.find_windows_recursive lower tree criteria
  = if raises tree (default [] criteria) then inl no_lower
    else inr (matching lower tree (default [] criteria)).
Proof.
  induction tree as [node IHn IHf] using Node_nested_ind.
  rewrite raises_unfold, matching_unfold.
  destruct node as [w nm wp wt ty ur ss out ns fs].
  cbn [Tree.find_windows_recursive nodes floating_nodes] in *.
  rewrite own_windows_spec.
  destruct (has_title (default [] criteria) && untitled _); [reflexivity|].
  cbn [orb].
  rewrite (extend_loop_spec _ (fun child => raises child (default [] criteria))
             (fun child => matching lower child (default [] criteria))
             no_lower ns IHn).
  destruct (existsb _ ns); [reflexivity|]. cbn [orb].
  rewrite (extend_loop_spec _ (fun child => raises child (default [] criteria))
             (fun child => matching lower child (default [] criteria))
             no_lower fs IHf).
  destruct (existsb _ fs); [reflexivity|].
  now rewrite <- app_assoc.
Qed.

Lemma raises_iff (tree : Node) (criteria : list criterion) :
  raises tree criteria = true <->
  (exists value, In (by_title value) criteria) /\
  (exists node, In node (preorder tree) /\ Tree.has_window node = true /\
                name node = Py.Null).
Proof.
  unfold raises. rewrite andb_true_iff, has_title_iff, existsb_exists.
  unfold untitled. split.
  - intros [Htitle (node & Hin & Hnode)]. split; [exact Htitle|].
    apply andb_true_iff in Hnode as [Hwin Hnull].
    exists node. repeat split; try assumption. now apply nameless_iff.
  - intros [Htitle (node & Hin & Hwin & Hnull)]. split; [exact Htitle|].
    exists node. split; [exact Hin|]. apply andb_true_iff.
    split; [exact Hwin | now apply nameless_iff].
Qed.

Lemma matching_iff (lower : string -> string) (tree : Node)
    (criteria : list criterion) (node : Node) :
  In node (matching lower tree criteria) <->
  In node (preorder tree) /\ Tree.has_window node = true /\
  Forall (criterion_passes lower node) criteria.
Proof.
  unfold matching. rewrite List.filter_In, andb_true_iff, forallb_forall, Forall_forall.
  split.
  - intros (Hin & Hwin & Hok). repeat split; try assumption.
    intros c Hc. apply criterion_ok_iff, Hok, list_elem_of_In, Hc.
  - intros (Hin & Hwin & Hok). repeat split; try assumption.
    intros c Hc. apply criterion_ok_iff, Hok, list_elem_of_In, Hc.
Qed.

Lemma matching_nil (lower : string -> string) (tree : Node) :
  matching lower tree [] = List.filter Tree.has_window (preorder tree).
Proof.
  unfold matching. apply List.filter_ext. intros node. cbn. apply andb_true_r.
Qed.

(** C5 (as amended): with no criteria ([None] or the empty dict),
    [find_windows_recursive] returns exactly the nodes whose window
    identifier is neither null nor zero, in depth-first order with the
    primary children of a node before its floating children, and in no
    other order; it raises nothing. *)
Theorem find_windows_recursive_all (lower : string -> string) (tree : Node) :
  Tree.find_windows_recursive lower tree None
    = inr (List.filter Tree.has_window (preorder tree)) /\
  Tree.find_windows_recursive lower tree (Some [])
    = inr (List.filter Tree.has_window (preorder tree)) /\
  (forall node, Tree.has_window node = true <->
                exists id, window node = Some id /\ id <> 0).
Proof.
  split; [|split; [|exact has_window_iff]].
  - rewrite find_windows_recursive_spec. cbn [default from_option id]. unfold raises.
    cbn [has_title existsb andb]. now rewrite matching_nil.
  - rewrite find_windows_recursive_spec. cbn [default from_option id]. unfold raises.
    cbn [has_title existsb andb]. now rewrite matching_nil.
Qed.

(** C5 (as stated) fails: a node whose window identifier is the integer 0
    carries a non-null identifier and is not returned. *)
Lemma find_windows_recursive_skips_zero :
  window (mkNode (Some 0) (Py.Holds "w") None None None None None None [] []) <> None /\
  Tree.find_windows_recursive Py.ascii_lower
    (mkNode (Some 0) (Py.Holds "w") None None None None None None [] []) None
    = inr [] /\
  List.filter (fun node => Py.is_not_None (window node))
    (preorder (mkNode (Some 0) (Py.Holds "w") None None None None None None [] []))
    = [mkNode (Some 0) (Py.Holds "w") None None None None None None [] []].
Proof. split; [discriminate|]. split; reflexivity. Qed.

Lemma flat_map_flat_map {A B C : Type} (f : B -> list C) (g : A -> list B)
    (l : list A) :
  flat_map f (flat_map g l) = flat_map (fun x => flat_map f (g x)) l.
Proof.
  induction l as [|x l IH]; [reflexivity|].
  simpl. now rewrite flat_map_app, IH.
Qed.

Lemma first_window_child_find (node : Node) (children : list Node) :
  Tree.first_window_child node children
  = match List.find (fun child => Py.truthy_oint (window child)) children with
    | Some child =>
        [ Tree.mkVisibleScratchpad (window child)
            (Py.get_or "Untitled" (name child))
            (default "N/A" (window_properties child ≫= wp_class))
            (output node) (scratchpad_state node) ]
    | None => []
    end.
Proof.
  induction children as [|child rest IH]; [reflexivity|].
  simpl. destruct (Py.truthy_oint (window child)); [|exact IH].
  now destruct (window_properties child).
Qed.

Lemma is_visible_scratchpad_iff (node : Node) :
  Tree.is_visible_scratchpad node = true <->
  (exists state, scratchpad_state node = Some state /\
                 state <> "" /\ state <> "none") /\
  output node <> Some "__i3".
Proof.
  unfold Tree.is_visible_scratchpad.
  rewrite !andb_true_iff, !negb_true_iff, !bool_decide_eq_false.
  destruct (scratchpad_state node) as [state|]; simpl.
  - split.
    + intros [[Hset Hnone] Hout]. split; [|exact Hout].
      exists state. split; [reflexivity|]. split; [|congruence].
      destruct state; [discriminate | discriminate].
    + intros [[state' [Heq [Hset Hnone]]] Hout]. injection Heq as <-.
      split; [split|exact Hout]; [|congruence].
      destruct state; [congruence | reflexivity].
  - split.
    + intros [[Hset _] _]. discriminate.
    + intros [[state [Heq _]] _]. discriminate.
Qed.

(** C3: [find_visible_scratchpads] walks the tree depth first and yields,
    for each node whose scratchpad state is set and not "none" and whose
    output is not "__i3", the record of its first primary child bearing a
    window identifier (one that is neither null nor 0), and nothing for
    such a node without such a child; a
    tree with a container "changed" on "__i3" and a container "fresh" on
    "HDMI-1" yields exactly the window of the second. *)
Theorem find_visible_scratchpads_records (tree : Node) :
  Tree.find_visible_scratchpads tree = flat_map visible_record (preorder tree) /\
  (forall node,
     Tree.is_visible_scratchpad node = true <->
     (exists state, scratchpad_state node = Some state /\
                    state <> "" /\ state <> "none") /\
     output node <> Some "__i3") /\
  (forall node,
     List.find (fun child => Py.truthy_oint (window child)) (nodes node) = None ->
     visible_record node = []) /\
  (forall child,
     Py.truthy_oint (window child) = true <->
     exists id, window child = Some id /\ id <> 0) /\
  Tree.find_visible_scratchpads two_scratchpads
    = [Tree.mkVisibleScratchpad (Some 12) (Some "shell") "XTerm" (Some "HDMI-1")
         (Some "fresh")].
Proof.
  split; [|split; [exact is_visible_scratchpad_iff|split; [|split; [|reflexivity]]]].
  - induction tree as [node IHn IHf] using Node_nested_ind.
    destruct node as [w nm wp wt ty ur ss out ns fs].
    cbn [Tree.find_visible_scratchpads preorder nodes floating_nodes flat_map] in *.
    rewrite (flat_map_Forall_ext _ _ _ IHn), (flat_map_Forall_ext _ _ _ IHf).
    rewrite flat_map_app, !flat_map_flat_map. f_equal.
    unfold visible_record. cbn [nodes].
    destruct (Tree.is_visible_scratchpad _); [|reflexivity].
    apply first_window_child_find.
  - intros node Hnone. unfold visible_record. rewrite Hnone.
    now destruct (Tree.is_visible_scratchpad node).
  - intros child. unfold Py.truthy_oint.
    destruct (window child) as [id|]; split.
    + intros H. exists id. split; [reflexivity|].
      now apply negb_true_iff, Z.eqb_neq in H.
    + intros [id' [Heq Hne]]. injection Heq as <-.
      now apply negb_true_iff, Z.eqb_neq.
    + discriminate.
    + intros [id [Heq _]]. discriminate.
Qed.



(** ** Running programs *)

Lemma exec_bind {A B : Type} (t : transport) (m : Act A) (f : A -> Act B)
    (history : list call) :
  exec t history (m ≫= f)
  = exec t (snd (exec t history m)) (f (fst (exec t history m))).
Proof.
  revert history.
  induction m as [a | command k IH | k IH | k IH]; intros history.
  - reflexivity.
  - exact (IH _ _).
  - exact (IH _ _).
  - exact (IH _ _).
Qed.

Lemma exec_run_i3_msg (t : transport) (history : list call) (command : string) :
  exec t history (run_i3_msg command)
  = (command_result command (answer_command t history command),
     history ++ [CallCommand command]).
Proof. reflexivity. Qed.

(** ** Moving workspaces in bulk *)

Lemma move_loop_exec (params : BulkWorkspaceMoveInput)
    (workspace_map : gmap string Workspace) (t : transport)
    (workspaces : list string) :
  forall (moved failed : list json) (history : list call),
  exists moved_new failed_new,
    exec t history (move_loop params workspace_map workspaces moved failed)
    = ((moved ++ moved_new, failed ++ failed_new),
       history ++ map (fun w => CallCommand (move_command w (bm_target_output params)))
                      (attempted params workspace_map workspaces)) /\
    Forall (fun e => exists w, is_preserved params w = false /\ names_workspace w e)
           moved_new /\
    Forall (fun e => exists w, is_preserved params w = false /\ names_workspace w e /\
                               Json.get "reason" e
                               <> Some (JStr "Failed to create placeholder workspace"))
           failed_new.
Proof.
  induction workspaces as [|ws_name rest IH]; intros moved failed history.
  - exists [], []. cbn [move_loop exec attempted List.filter map].
    rewrite !app_nil_r. repeat split; constructor.
  - cbn [move_loop attempted List.filter].
    fold (is_preserved params ws_name).
    destruct (is_preserved params ws_name) eqn:Hskip; cbn [negb andb].
    + apply IH.
    + destruct (workspace_map !! ws_name) as [ws|] eqn:Hlookup.
      * rewrite bool_decide_eq_true_2 by eauto.
        rewrite exec_bind, exec_run_i3_msg. cbn [fst snd map].
        set (result := command_result _ _).
        destruct (Json.success result).
        -- destruct (IH (moved ++ [JDict [("workspace", JStr ws_name);
                                          ("from_output", JStr (ws_output ws));
                                          ("to_output", JStr (bm_target_output params))]])
                        failed
                        (history ++ [CallCommand (move_command ws_name
                                                    (bm_target_output params))]))
             as (moved_new & failed_new & Hexec & Hmoved & Hfailed).
           eexists (_ :: moved_new), failed_new.
           fold (attempted params workspace_map rest).
           rewrite Hexec, <- !app_assoc. split; [reflexivity|]. split; [|exact Hfailed].
           constructor; [|exact Hmoved]. exists ws_name. split; [exact Hskip|reflexivity].
        -- destruct (IH moved
                        (failed ++ [JDict [("workspace", JStr ws_name);
                                           ("reason", JStr "Move command failed");
                                           ("details", result)]])
                        (history ++ [CallCommand (move_command ws_name
                                                    (bm_target_output params))]))
             as (moved_new & failed_new & Hexec & Hmoved & Hfailed).
           exists moved_new. eexists (_ :: failed_new).
           fold (attempted params workspace_map rest).
           rewrite Hexec, <- !app_assoc. split; [reflexivity|]. split; [exact Hmoved|].
           constructor; [|exact Hfailed]. exists ws_name.
           split; [exact Hskip|]. split; [reflexivity|discriminate].
      * rewrite bool_decide_eq_false_2 by (intros [x Hx]; discriminate).
        destruct (IH moved
                     (failed ++ [JDict [("workspace", JStr ws_name);
                                        ("reason", JStr "Workspace does not exist")]])
                     history)
          as (moved_new & failed_new & Hexec & Hmoved & Hfailed).
        exists moved_new. eexists (_ :: failed_new).
        fold (attempted params workspace_map rest).
        rewrite Hexec, <- !app_assoc. split; [reflexivity|]. split; [exact Hmoved|].
        constructor; [|exact Hfailed]. exists ws_name.
        split; [exact Hskip|]. split; [reflexivity|discriminate].
Qed.

Lemma placeholder_loop_exec (placeholder : option string) (t : transport)
    (source_outputs : list string) :
  forall (failed : list json) (history : list call),
  exists failed_new calls,
    exec t history (placeholder_loop placeholder source_outputs failed)
    = (failed ++ failed_new, history ++ calls) /\
    Forall (fun e => e = JDict [("workspace", Json.of_ostr placeholder);
                                ("reason", JStr "Failed to create placeholder workspace")])
           failed_new /\
    Forall (placeholder_call placeholder) calls.
Proof.
  induction source_outputs as [|source_output rest IH]; intros failed history.
  - exists [], []. cbn [placeholder_loop exec]. rewrite !app_nil_r.
    repeat split; constructor.
  - cbn [placeholder_loop]. rewrite exec_bind, exec_run_i3_msg. cbn [fst snd].
    assert (Hfocus : placeholder_call placeholder
                       (CallCommand ("focus output " +:+ source_output)))
      by (left; eauto).
    assert (Hcreate : placeholder_call placeholder
                        (CallCommand ("workspace " +:+ Py.fmt_ostr placeholder)))
      by now right.
    destruct (Json.success (command_result _ (answer_command t history _)));
      cbn [negb].
    + rewrite exec_bind, exec_run_i3_msg. cbn [fst snd].
      destruct (Json.success (command_result _ (answer_command t _ _))); cbn [negb].
      * destruct (IH failed ((history ++ [CallCommand ("focus output " +:+ source_output)])
                             ++ [CallCommand ("workspace " +:+ Py.fmt_ostr placeholder)]))
          as (failed_new & calls & Hexec & Hentries & Hcalls).
        exists failed_new. eexists (_ :: _ :: calls).
        rewrite Hexec, <- !app_assoc. split; [reflexivity|].
        split; [exact Hentries|].
        constructor; [exact Hfocus|]. constructor; [exact Hcreate|exact Hcalls].
      * destruct (IH (failed ++ [JDict [("workspace", Json.of_ostr placeholder);
                                        ("reason", JStr "Failed to create placeholder workspace")]])
                     ((history ++ [CallCommand ("focus output " +:+ source_output)])
                      ++ [CallCommand ("workspace " +:+ Py.fmt_ostr placeholder)]))
          as (failed_new & calls & Hexec & Hentries & Hcalls).
        eexists (_ :: failed_new). eexists (_ :: _ :: calls).
        rewrite Hexec, <- !app_assoc. split; [reflexivity|]. split.
        -- constructor; [reflexivity|exact Hentries].
        -- constructor; [exact Hfocus|]. constructor; [exact Hcreate|exact Hcalls].
    + destruct (IH failed (history ++ [CallCommand ("focus output " +:+ source_output)]))
        as (failed_new & calls & Hexec & Hentries & Hcalls).
      exists failed_new. eexists (_ :: calls).
      rewrite Hexec, <- !app_assoc. split; [reflexivity|].
      split; [exact Hentries|]. constructor; [exact Hfocus|exact Hcalls].
Qed.

(** What a run of [i3_workspace_bulk_move] comes to once the workspace
    list was fetched: the result dict and the calls, with the entries and
    calls of step 2 ahead of those of step 3. *)
Lemma bulk_move_run (set_iter : gset string -> list string)
    (params : BulkWorkspaceMoveInput) (t : transport)
    (current_workspaces : list Workspace) :
  answer_workspaces t [] = Reply current_workspaces ->
  exists placeholder_failed placeholder_calls moved failed_new,
    run t (i3_workspace_bulk_move set_iter params)
    = (JDict [("success", JBool true);
              ("moved_count", JInt (Z.of_nat (length moved)));
              ("failed_count",
               JInt (Z.of_nat (length (placeholder_failed ++ failed_new))));
              ("moved_workspaces", JList moved);
              ("failed_workspaces", JList (placeholder_failed ++ failed_new));
              ("preserved_workspace", Json.of_ostr (bm_preserve_workspace params));
              ("placeholder_workspace",
               Json.of_ostr (bm_placeholder_workspace params))],
       CallGet "workspaces" ::
       placeholder_calls ++
       map (fun w => CallCommand (move_command w (bm_target_output params)))
           (attempted params (build_workspace_map current_workspaces)
                      (bm_workspaces params))) /\
    Forall (fun e => e = JDict [("workspace",
                                Json.of_ostr (bm_placeholder_workspace params));
                               ("reason",
                                JStr "Failed to create placeholder workspace")])
           placeholder_failed /\
    Forall (placeholder_call (bm_placeholder_workspace params)) placeholder_calls /\
    (Py.truthy_ostr (bm_placeholder_workspace params) = false ->
     placeholder_failed = [] /\ placeholder_calls = []) /\
    Forall (fun e => exists w, is_preserved params w = false /\ names_workspace w e)
           moved /\
    Forall (fun e => exists w, is_preserved params w = false /\ names_workspace w e /\
                               Json.get "reason" e
                               <> Some (JStr "Failed to create placeholder workspace"))
           failed_new.
Proof.
  intros Hreply. unfold run, i3_workspace_bulk_move.
  rewrite exec_bind.
  change (exec t [] run_i3_msg_get_workspaces)
    with (get_type_result (answer_workspaces t []), [CallGet "workspaces"]).
  rewrite Hreply. cbn [fst snd get_type_result].
  rewrite exec_bind.
  assert (Hstep2 : exists placeholder_failed placeholder_calls,
    exec t [CallGet "workspaces"]
      (if Py.truthy_ostr (bm_placeholder_workspace params)
       then placeholder_loop (bm_placeholder_workspace params)
              (set_iter (collect_source_outputs
                           (build_workspace_map current_workspaces)
                           (bm_workspaces params))) []
       else Ret [])
    = (placeholder_failed, [CallGet "workspaces"] ++ placeholder_calls) /\
    Forall (fun e => e = JDict [("workspace",
                                Json.of_ostr (bm_placeholder_workspace params));
                               ("reason",
                                JStr "Failed to create placeholder workspace")])
           placeholder_failed /\
    Forall (placeholder_call (bm_placeholder_workspace params)) placeholder_calls /\
    (Py.truthy_ostr (bm_placeholder_workspace params) = false ->
     placeholder_failed = [] /\ placeholder_calls = [])).
  { destruct (Py.truthy_ostr (bm_placeholder_workspace params)).
    - destruct (placeholder_loop_exec (bm_placeholder_workspace params) t
                  (set_iter (collect_source_outputs
                               (build_workspace_map current_workspaces)
                               (bm_workspaces params)))
                  [] [CallGet "workspaces"])
        as (pf & pc & Hexec & Hentries & Hcalls).
      exists pf, pc. rewrite Hexec. repeat split; try assumption; discriminate.
    - exists [], []. repeat split; constructor. }
  destruct Hstep2 as (pf & pc & Hexec2 & Hentries & Hcalls & Hnone).
  rewrite Hexec2. cbn [fst snd].
  destruct (move_loop_exec params (build_workspace_map current_workspaces) t
              (bm_workspaces params) [] pf ([CallGet "workspaces"] ++ pc))
    as (moved & failed_new & Hexec3 & Hmoved & Hfailed).
  exists pf, pc, moved, failed_new.
  rewrite exec_bind, Hexec3. cbn [fst snd exec app].
  split; [reflexivity|].
  split; [exact Hentries|]. split; [exact Hcalls|]. split; [exact Hnone|].
  split; [exact Hmoved|exact Hfailed].
Qed.

Lemma is_preserved_true (params : BulkWorkspaceMoveInput) (p : string) :
  bm_preserve_workspace params = Some p -> p <> "" ->
  forall w, is_preserved params w = false -> w <> p.
Proof.
  intros Hp Hne w Hw ->. unfold is_preserved in Hw. rewrite Hp in Hw.
  rewrite bool_decide_eq_true_2 in Hw by reflexivity.
  destruct p; [congruence | discriminate].
Qed.

Lemma names_workspace_inj (w p : string) (e : json) :
  names_workspace w e -> names_workspace p e -> w = p.
Proof. unfold names_workspace. intros Hw Hp. congruence. Qed.

(** Once the workspace list was fetched, the flag [success] of the result
    of [i3_workspace_bulk_move] is [True], whatever the two lists hold. *)
Lemma bulk_move_success_flag (set_iter : gset string -> list string)
    (params : BulkWorkspaceMoveInput) (t : transport)
    (current_workspaces : list Workspace) :
  answer_workspaces t [] = Reply current_workspaces ->
  Json.get "success" (fst (run t (i3_workspace_bulk_move set_iter params)))
  = Some (JBool true).
Proof.
  intros Hreply.
  destruct (bulk_move_run set_iter params t current_workspaces Hreply)
    as (pf & pc & moved & failed_new & Hrun & _).
  now rewrite Hrun.
Qed.

(** C1: on an input where every attempted item fails (workspace "1"
    exists and the manager rejects its move, workspace "7" does not exist),
    [i3_workspace_bulk_move] itemizes both failures, counts no moved
    workspace and still reports [success = True]; the sibling
    [i3_scratchpad_hide_all] reports [success = False] when every item
    failed. *)
Theorem bulk_move_all_failed_reports_success (set_iter : gset string -> list string) :
  Json.get "success"
    (fst (run (transport_rejecting [mkWorkspace "1" "eDP-1"] bare_node)
              (i3_workspace_bulk_move set_iter
                 (mkBulkWorkspaceMoveInput ["1"; "7"] "DP-1" None None))))
    = Some (JBool true) /\
  Json.get "moved_count"
    (fst (run (transport_rejecting [mkWorkspace "1" "eDP-1"] bare_node)
              (i3_workspace_bulk_move set_iter
                 (mkBulkWorkspaceMoveInput ["1"; "7"] "DP-1" None None))))
    = Some (JInt 0) /\
  map (Json.get "workspace")
    (result_list "failed_workspaces"
       (fst (run (transport_rejecting [mkWorkspace "1" "eDP-1"] bare_node)
                 (i3_workspace_bulk_move set_iter
                    (mkBulkWorkspaceMoveInput ["1"; "7"] "DP-1" None None)))))
    = [Some (JStr "1"); Some (JStr "7")] /\
  Json.get "success"
    (fst (run (transport_rejecting [] two_scratchpads) i3_scratchpad_hide_all))
    = Some (JBool false).
Proof.
  assert (Hrun :
    fst (run (transport_rejecting [mkWorkspace "1" "eDP-1"] bare_node)
             (i3_workspace_bulk_move set_iter
                (mkBulkWorkspaceMoveInput ["1"; "7"] "DP-1" None None)))
    = JDict [("success", JBool true); ("moved_count", JInt 0);
             ("failed_count", JInt 2); ("moved_workspaces", JList []);
             ("failed_workspaces",
              JList [JDict [("workspace", JStr "1");
                            ("reason", JStr "Move command failed");
                            ("details",
                             JDict [("success", JBool false);
                                    ("error", JStr "ERROR: command failed");
                                    ("command",
                                     JStr "workspace 1; move workspace to output DP-1")])];
                     JDict [("workspace", JStr "7");
                            ("reason", JStr "Workspace does not exist")]]);
             ("preserved_workspace", JNull); ("placeholder_workspace", JNull)])
    by (vm_compute; reflexivity).
  rewrite Hrun. repeat split; vm_compute; reflexivity.
Qed.

(** C9 (as amended): when [preserve_workspace] is a non-empty name, the
    move loop skips every workspace of the input list equal to it: it is
    never in [moved_workspaces], the calls are those of the placeholder step
    followed by one move command for each workspace that is not skipped and
    exists, the preserved one not among them, and an entry of
    [failed_workspaces] names it only when it is also the placeholder whose
    creation failed; with no placeholder there is no call before the move
    commands and no entry of [failed_workspaces] names it. *)
Theorem bulk_move_skips_preserved (set_iter : gset string -> list string)
    (params : BulkWorkspaceMoveInput) (t : transport) (p : string)
    (current_workspaces : list Workspace) :
  bm_preserve_workspace params = Some p ->
  p <> "" ->
  answer_workspaces t [] = Reply current_workspaces ->
  Forall (fun e => ~ names_workspace p e)
    (result_list "moved_workspaces"
       (fst (run t (i3_workspace_bulk_move set_iter params)))) /\
  Forall (fun e => names_workspace p e ->
                   bm_placeholder_workspace params = Some p /\
                   Json.get "reason" e
                   = Some (JStr "Failed to create placeholder workspace"))
    (result_list "failed_workspaces"
       (fst (run t (i3_workspace_bulk_move set_iter params)))) /\
  (exists placeholder_calls,
     snd (run t (i3_workspace_bulk_move set_iter params))
     = CallGet "workspaces" ::
       placeholder_calls ++
       map (fun w => CallCommand (move_command w (bm_target_output params)))
           (attempted params (build_workspace_map current_workspaces)
                      (bm_workspaces params)) /\
     Forall (placeholder_call (bm_placeholder_workspace params)) placeholder_calls /\
     (Py.truthy_ostr (bm_placeholder_workspace params) = false ->
      placeholder_calls = [])) /\
  ~ In p (attempted params (build_workspace_map current_workspaces)
                    (bm_workspaces params)) /\
  (Py.truthy_ostr (bm_placeholder_workspace params) = false ->
   Forall (fun e => ~ names_workspace p e)
     (result_list "failed_workspaces"
        (fst (run t (i3_workspace_bulk_move set_iter params))))).
Proof.
  intros Hp Hne Hreply.
  pose proof (is_preserved_true params p Hp Hne) as Hother.
  destruct (bulk_move_run set_iter params t current_workspaces Hreply)
    as (pf & pc & moved & failed_new & Hrun & Hentries & Hcalls & Hnone
        & Hmoved & Hfailed).
  rewrite Hrun. cbn [fst snd]. unfold result_list. cbn [Json.get Json.assoc String.eqb Ascii.eqb Bool.eqb].
  assert (Hfailed_named :
    Forall (fun e => names_workspace p e ->
                     bm_placeholder_workspace params = Some p /\
                     Json.get "reason" e
                     = Some (JStr "Failed to create placeholder workspace"))
           (pf ++ failed_new)); [|split; [|split; [exact Hfailed_named|split; [|split]]]].
  - apply Forall_app. split.
    + eapply List.Forall_impl; [|exact Hentries].
      intros e -> Hpe. unfold names_workspace in Hpe. cbn in Hpe.
      split; [|reflexivity].
      destruct (bm_placeholder_workspace params); cbn in Hpe; congruence.
    + eapply List.Forall_impl; [|exact Hfailed].
      intros e (w & Hw & Hnamed & _) Hpe.
      destruct (Hother w Hw (names_workspace_inj w p e Hnamed Hpe)).
  - eapply List.Forall_impl; [|exact Hmoved].
    intros e (w & Hw & Hnamed) Hpe.
    exact (Hother w Hw (names_workspace_inj w p e Hnamed Hpe)).
  - exists pc. split; [reflexivity|]. split; [exact Hcalls|].
    intros Hfalsy. now destruct (Hnone Hfalsy).
  - unfold attempted. rewrite List.filter_In. intros [_ Hkeep].
    apply andb_true_iff in Hkeep as [Hkeep _].
    apply negb_true_iff in Hkeep. now apply (Hother p Hkeep).
  - intros Hfalsy. eapply List.Forall_impl; [|exact Hfailed_named].
    intros e Himp Hpe. destruct (Himp Hpe) as [Hph _].
    rewrite Hph in Hfalsy. destruct p; [congruence | discriminate].
Qed.

(** Workspaces 1 and 2 with 2 preserved: 1 is moved, 2 is nowhere. *)
Lemma bulk_move_skips_preserved_witness :
  bm_preserve_workspace
    (mkBulkWorkspaceMoveInput ["1"; "2"] "DP-1" (Some "2") None) = Some "2" /\
  "2" <> "" /\
  Forall (fun e => ~ names_workspace "2" e)
    (result_list "moved_workspaces"
       (fst (run (transport_accepting
                    [mkWorkspace "1" "eDP-1"; mkWorkspace "2" "eDP-1"]
                    (fun _ => true))
                 (i3_workspace_bulk_move elements
                    (mkBulkWorkspaceMoveInput ["1"; "2"] "DP-1" (Some "2") None))))) /\
  run (transport_accepting
         [mkWorkspace "1" "eDP-1"; mkWorkspace "2" "eDP-1"] (fun _ => true))
      (i3_workspace_bulk_move elements
         (mkBulkWorkspaceMoveInput ["1"; "2"] "DP-1" (Some "2") None))
  = (JDict [("success", JBool true); ("moved_count", JInt 1);
            ("failed_count", JInt 0);
            ("moved_workspaces",
             JList [JDict [("workspace", JStr "1"); ("from_output", JStr "eDP-1");
                           ("to_output", JStr "DP-1")]]);
            ("failed_workspaces", JList []);
            ("preserved_workspace", JStr "2");
            ("placeholder_workspace", JNull)],
     [CallGet "workspaces";
      CallCommand "workspace 1; move workspace to output DP-1"]).
Proof.
  split; [reflexivity|]. split; [discriminate|]. split.
  - exact (proj1 (bulk_move_skips_preserved elements
                    (mkBulkWorkspaceMoveInput ["1"; "2"] "DP-1" (Some "2") None)
                    (transport_accepting
                       [mkWorkspace "1" "eDP-1"; mkWorkspace "2" "eDP-1"]
                       (fun _ => true))
                    "2" [mkWorkspace "1" "eDP-1"; mkWorkspace "2" "eDP-1"]
                    eq_refl ltac:(discriminate) eq_refl)).
  - vm_compute. reflexivity.
Defined.

(** C9 (as stated) fails twice.  With the empty string as
    [preserve_workspace] the test of the loop is false, so the workspace of
    that name is attempted and itemized as failed.  With workspace "2" both
    preserved and placeholder, and the placeholder not created, the command
    [workspace 2] is issued and "2" is itemized in [failed_workspaces]. *)
Lemma bulk_move_preserved_not_excluded :
  map (Json.get "workspace")
    (result_list "failed_workspaces"
       (fst (run (transport_accepting [mkWorkspace "1" "eDP-1"] (fun _ => true))
                 (i3_workspace_bulk_move elements
                    (mkBulkWorkspaceMoveInput [""] "DP-1" (Some "") None)))))
    = [Some (JStr "")] /\
  run (transport_accepting [mkWorkspace "1" "eDP-1"; mkWorkspace "2" "eDP-1"]
         (String.prefix "focus"))
      (i3_workspace_bulk_move elements
         (mkBulkWorkspaceMoveInput ["2"] "DP-1" (Some "2") (Some "2")))
  = (JDict [("success", JBool true); ("moved_count", JInt 0);
            ("failed_count", JInt 1); ("moved_workspaces", JList []);
            ("failed_workspaces",
             JList [JDict [("workspace", JStr "2");
                           ("reason", JStr "Failed to create placeholder workspace")]]);
            ("preserved_workspace", JStr "2");
            ("placeholder_workspace", JStr "2")],
     [CallGet "workspaces"; CallCommand "focus output eDP-1";
      CallCommand "workspace 2"]).
Proof. split; vm_compute; reflexivity. Qed.

(** * Further properties *)

(** ** Searching the tree with criteria *)

(** X1: with criteria, [find_windows_recursive] either raises or returns
    exactly the nodes of the tree that bear a window and pass every item of
    the criteria, each as often as it occurs in the tree and in depth-first
    order.  It raises [AttributeError] exactly when the criteria hold a
    title and some window of the tree has a name that is [null]. *)
Theorem find_windows_recursive_sound_complete (lower : string -> string)
    (tree : Node) (criteria : list criterion) :
  Tree.find_windows_recursive lower tree (Some criteria)
    = (if raises tree criteria then inl no_lower
       else inr (List.filter
                   (fun n => Tree.has_window n &&
                             forallb (criterion_ok lower n) criteria)
                   (preorder tree))) /\
  (raises tree criteria = true <->
   (exists value, In (by_title value) criteria) /\
   (exists node, In node (preorder tree) /\ Tree.has_window node = true /\
                 name node = Py.Null)) /\
  (forall node,
     In node (List.filter
                (fun n => Tree.has_window n &&
                          forallb (criterion_ok lower n) criteria)
                (preorder tree)) <->
     In node (preorder tree) /\ Tree.has_window node = true /\
     Forall (criterion_passes lower node) criteria).
Proof.
  split; [|split].
  - exact (find_windows_recursive_spec lower tree (Some criteria)).
  - apply raises_iff.
  - exact (matching_iff lower tree criteria).
Qed.

(** A window that i3 prints with a name that is [null], asked for a
    title: the walk raises. *)
Lemma find_windows_recursive_sound_complete_witness :
  Tree.find_windows_recursive Py.ascii_lower
    (mkNode (Some 7) Py.Null None (Some "normal") (Some "con") (Some false)
            (Some "none") None [] [])
    (Some [by_title "term"])
  = inl no_lower.
Proof.
  exact (proj1 (find_windows_recursive_sound_complete Py.ascii_lower
                  (mkNode (Some 7) Py.Null None (Some "normal") (Some "con")
                          (Some false) (Some "none") None [] [])
                  [by_title "term"])).
Defined.

Lemma filter_sublist_impl {A : Type} (f g : A -> bool) (l : list A) :
  (forall x, f x = true -> g x = true) ->
  sublist (List.filter f l) (List.filter g l).
Proof.
  intros Himp. induction l as [|x l IH]; [constructor|].
  cbn [List.filter]. destruct (f x) eqn:Hf.
  - rewrite (Himp x Hf). now apply sublist_skip.
  - destruct (g x); [now apply sublist_cons | exact IH].
Qed.

Lemma has_title_app (cs1 cs2 : list criterion) :
  has_title (cs1 ++ cs2) = has_title cs1 || has_title cs2.
Proof. apply existsb_app. Qed.

(** X2: criteria only narrow the search.  Without criteria the walk
    returns; whenever the walk with criteria returns, what it found is a
    sublist of the windows found without; and whenever the walk with
    further criteria returns, so does the walk with the criteria before
    them, and the further criteria found a sublist of what those found. *)
Theorem find_windows_recursive_narrows (lower : string -> string) (tree : Node)
    (criteria more : list criterion) :
  exists all,
    Tree.find_windows_recursive lower tree None = inr all /\
    (forall found,
       Tree.find_windows_recursive lower tree (Some criteria) = inr found ->
       sublist found all) /\
    (forall found',
       Tree.find_windows_recursive lower tree (Some (criteria ++ more)) = inr found' ->
       exists found,
         Tree.find_windows_recursive lower tree (Some criteria) = inr found /\
         sublist found' found).
Proof.
  exists (matching lower tree []).
  rewrite !find_windows_recursive_spec. cbn [default from_option id].
  split; [reflexivity|]. split.
  - intros found Hfound.
    destruct (raises tree criteria); [discriminate|]. injection Hfound as <-.
    apply filter_sublist_impl. intros n Hn.
    apply andb_true_iff in Hn as [Hw _]. now rewrite Hw.
  - intros found' Hfound'. unfold raises in *. rewrite has_title_app in Hfound'.
    destruct (has_title criteria); cbn [orb andb] in *.
    + destruct (existsb untitled (preorder tree)); [discriminate|].
      injection Hfound' as <-. eexists. split; [reflexivity|].
      apply filter_sublist_impl. intros n Hn. rewrite forallb_app in Hn.
      apply andb_true_iff in Hn as [Hw Hc]. apply andb_true_iff in Hc as [Hc _].
      now rewrite Hw, Hc.
    + destruct (has_title more && existsb untitled (preorder tree)); [discriminate|].
      injection Hfound' as <-. eexists. split; [reflexivity|].
      apply filter_sublist_impl. intros n Hn. rewrite forallb_app in Hn.
      apply andb_true_iff in Hn as [Hw Hc]. apply andb_true_iff in Hc as [Hc _].
      now rewrite Hw, Hc.
Qed.

Lemma has_title_Permutation (criteria criteria' : list criterion) :
  Permutation criteria criteria' -> has_title criteria = has_title criteria'.
Proof.
  intros Hperm. apply eq_true_iff_eq. rewrite !has_title_iff.
  split; intros [value Hin]; exists value.
  - now apply (Permutation_in _ Hperm).
  - now apply (Permutation_in _ (Permutation_sym Hperm)).
Qed.

Lemma forallb_Permutation {A : Type} (f : A -> bool) (l l' : list A) :
  Permutation l l' -> forallb f l = forallb f l'.
Proof.
  intros Hperm. apply eq_true_iff_eq. rewrite !forallb_forall.
  split; intros H x Hx; apply H.
  - now apply (Permutation_in _ (Permutation_sym Hperm)).
  - now apply (Permutation_in _ Hperm).
Qed.

(** X3: the order in which the criteria dict yields its items does not
    matter: two listings of the same items find the same windows. *)
Theorem find_windows_recursive_criteria_order (lower : string -> string)
    (tree : Node) (criteria criteria' : list criterion) :
  Permutation criteria criteria' ->
  Tree.find_windows_recursive lower tree (Some criteria)
  = Tree.find_windows_recursive lower tree (Some criteria').
Proof.
  intros Hperm. rewrite !find_windows_recursive_spec. cbn [default from_option id].
  unfold raises, matching. rewrite (has_title_Permutation _ _ Hperm).
  destruct (has_title criteria' && existsb untitled (preorder tree)); [reflexivity|].
  f_equal. apply List.filter_ext. intros n. f_equal.
  now apply forallb_Permutation.
Qed.

(** The criteria title then class against the same items in the other
    order, on the tree of the two scratchpads. *)
Lemma find_windows_recursive_criteria_order_witness :
  Permutation [by_title "sh"; by_class "xterm"] [by_class "xterm"; by_title "sh"] /\
  Tree.find_windows_recursive Py.ascii_lower two_scratchpads
    (Some [by_title "sh"; by_class "xterm"])
  = Tree.find_windows_recursive Py.ascii_lower two_scratchpads
      (Some [by_class "xterm"; by_title "sh"]).
Proof.
  split; [apply perm_swap|].
  apply (find_windows_recursive_criteria_order Py.ascii_lower two_scratchpads
           [by_title "sh"; by_class "xterm"] [by_class "xterm"; by_title "sh"]).
  apply perm_swap.
Defined.

(** X4: the [workspace] filter never removes a window: a criteria dict with
    a [workspace] item does what the dict without it does, and
    [i3_get_tree] called with a workspace name as its only filter makes its
    one query and answers from every window of the tree: in the JSON
    format with the list of all of them and their number, in the markdown
    format with the text written for all of them, cut by
    [truncate_response]. *)
Theorem workspace_filter_has_no_effect (lower : string -> string) (tree : Node)
    (criteria : list criterion) (value : string) :
  Tree.find_windows_recursive lower tree (Some (criteria ++ [by_workspace value]))
    = Tree.find_windows_recursive lower tree (Some criteria) /\
  (forall (format_window_info dumps : Node -> string) (t : transport)
          (as_json : bool),
     answer_tree t [] = Reply tree ->
     Py.truthy_str value = true ->
     run t (i3_get_tree lower format_window_info dumps
              (mkGetTreeInput None None None None None None None (Some value))
              as_json)
     = (inr (if as_json then
               TreeWindows (List.filter Tree.has_window (preorder tree))
                 (Z.of_nat (length (List.filter Tree.has_window (preorder tree))))
             else
               TreeText
                 (truncate_response
                    (matching_windows_text format_window_info
                       (List.filter Tree.has_window (preorder tree)))
                    CHARACTER_LIMIT)),
        [CallGet "tree"])).
Proof.
  split.
  - rewrite !find_windows_recursive_spec. cbn [default from_option id].
    unfold raises, matching. rewrite has_title_app. cbn [has_title existsb].
    rewrite orb_false_r.
    destruct (has_title criteria && existsb untitled (preorder tree)); [reflexivity|].
    f_equal. apply List.filter_ext. intros n. rewrite forallb_app.
    cbn [forallb criterion_ok]. now rewrite !andb_true_r.
  - intros format_window_info dumps t as_json Hreply Hvalue.
    unfold run, i3_get_tree. rewrite exec_bind.
    change (exec t [] run_i3_msg_get_tree)
      with (get_type_result (answer_tree t []), [CallGet "tree"]).
    rewrite Hreply. cbn [fst snd get_type_result].
    unfold get_tree_criteria.
    cbn [gt_window_class gt_window_title gt_window_instance gt_window_role
         gt_window_type gt_floating gt_urgent gt_workspace Py.truthy_ostr app].
    rewrite Hvalue. cbn [app].
    rewrite find_windows_recursive_spec. cbn [default from_option id].
    unfold raises. cbn [has_title existsb andb orb].
    assert (Hall : matching lower tree [by_workspace (Py.fmt_ostr (Some value))]
                   = List.filter Tree.has_window (preorder tree)).
    { unfold matching. apply List.filter_ext. intros n. cbn. apply andb_true_r. }
    rewrite Hall. now destruct as_json.
Qed.

Lemma find_app_first {A : Type} (f : A -> bool) (l1 l2 : list A) :
  List.find f (l1 ++ l2)
  = match List.find f l1 with Some x => Some x | None => List.find f l2 end.
Proof.
  induction l1 as [|x l1 IH]; [reflexivity|].
  simpl. now destruct (f x).
Qed.

Lemma find_scratchpad_preorder (tree : Node) :
  find_scratchpad tree
  = List.find (fun n => bool_decide (Py.get (name n) = Some "__i3_scratch"))
              (preorder tree).
Proof.
  induction tree as [node IHn IHf] using Node_nested_ind.
  destruct node as [w nm wp wt ty ur ss out ns fs].
  cbn [find_scratchpad preorder nodes floating_nodes name List.find] in *.
  destruct (bool_decide (Py.get nm = Some "__i3_scratch")); [reflexivity|].
  match goal with
  | |- match ?L ns with _ => _ end = _ => set (loop := L)
  end.
  assert (Hloop : forall l,
    Forall (fun n => find_scratchpad n
      = List.find (fun n => bool_decide (Py.get (name n) = Some "__i3_scratch"))
                  (preorder n)) l ->
    loop l = List.find (fun n => bool_decide (Py.get (name n) = Some "__i3_scratch"))
                       (flat_map preorder l)).
  { induction 1 as [|child rest Hchild _ IH]; [reflexivity|].
    cbn [flat_map]. rewrite find_app_first, <- Hchild, <- IH. reflexivity. }
  rewrite find_app_first, (Hloop ns IHn), (Hloop fs IHf). reflexivity.
Qed.

Lemma find_scratchpad_in (tree found : Node) :
  find_scratchpad tree = Some found ->
  In found (preorder tree) /\ Py.get (name found) = Some "__i3_scratch".
Proof.
  rewrite find_scratchpad_preorder. intros Hfound.
  apply List.find_some in Hfound as [Hin Htest].
  split; [exact Hin | now apply bool_decide_eq_true in Htest].
Qed.

(** X5: [find_scratchpad] returns the first node, in depth-first order with
    primary children before floating ones, whose name is [__i3_scratch],
    and [None] exactly when no node of the tree has that name. *)
Theorem find_scratchpad_first (tree : Node) :
  find_scratchpad tree
    = List.find (fun n => bool_decide (Py.get (name n) = Some "__i3_scratch"))
                (preorder tree) /\
  (find_scratchpad tree = None <->
   forall node, In node (preorder tree) -> name node <> Py.Holds "__i3_scratch").
Proof.
  assert (Hfind := find_scratchpad_preorder tree).
  split; [exact Hfind|]. rewrite Hfind. split.
  - intros Hnone node Hin Hname.
    pose proof (List.find_none _ _ Hnone node Hin) as Hfalse. cbn in Hfalse.
    apply bool_decide_eq_false in Hfalse. apply Hfalse. now rewrite Hname.
  - intros Hall.
    destruct (List.find _ (preorder tree)) as [found|] eqn:Hfound; [|reflexivity].
    apply List.find_some in Hfound as [Hin Htest].
    apply bool_decide_eq_true in Htest. destruct (Hall found Hin).
    destruct (name found); try discriminate Htest. cbn in Htest. congruence.
Qed.

Lemma sublist_flat_map_member {A B : Type} (f : A -> list B) (l : list A) (x : A) :
  In x l -> sublist (f x) (flat_map f l).
Proof.
  induction l as [|y l IH]; [intros []|].
  intros [-> | Hin]; cbn [flat_map].
  - apply sublist_inserts_r. reflexivity.
  - apply sublist_inserts_l. now apply IH.
Qed.

Lemma preorder_descendant (tree : Node) :
  forall node, In node (preorder tree) -> sublist (preorder node) (preorder tree).
Proof.
  induction tree as [tree IHn IHf] using Node_nested_ind.
  intros node Hin.
  destruct tree as [w nm wp wt ty ur ss out ns fs].
  cbn [preorder nodes floating_nodes] in *.
  destruct Hin as [<- | Hin]; [reflexivity|].
  apply sublist_cons.
  apply in_app_or in Hin as [Hin | Hin]; apply in_flat_map in Hin as (child & Hchild & Hin).
  - apply sublist_inserts_r.
    transitivity (preorder child); [|now apply sublist_flat_map_member].
    rewrite List.Forall_forall in IHn. now apply (IHn child Hchild).
  - apply sublist_inserts_l.
    transitivity (preorder child); [|now apply sublist_flat_map_member].
    rewrite List.Forall_forall in IHf. now apply (IHf child Hchild).
Qed.

Lemma filter_sublist_mono {A : Type} (f : A -> bool) (l1 l2 : list A) :
  sublist l1 l2 -> sublist (List.filter f l1) (List.filter f l2).
Proof.
  induction 1 as [|x l1 l2 _ IH|x l1 l2 _ IH]; cbn [List.filter].
  - constructor.
  - destruct (f x); [now apply sublist_skip | exact IH].
  - destruct (f x); [now apply sublist_cons | exact IH].
Qed.

(** X6: [i3_scratchpad_list] makes the one query of the tree, sends no
    command and raises nothing.  On a failed query it answers with the
    failure; with no node named [__i3_scratch] it answers with the empty
    list, in either format; otherwise it answers from the window-bearing
    nodes below the first such node, in depth-first order, all of them
    windows of the whole tree: in the JSON format with their list and
    number, in the markdown format with the text written for them, cut by
    [truncate_response]. *)
Theorem i3_scratchpad_list_answers (lower : string -> string)
    (scratchpad_item : Node -> string) (t : transport) (as_json : bool) :
  snd (run t (i3_scratchpad_list lower scratchpad_item as_json)) = [CallGet "tree"] /\
  match answer_tree t [] with
  | Reply tree =>
      match find_scratchpad tree with
      | Some scratchpad =>
          fst (run t (i3_scratchpad_list lower scratchpad_item as_json))
            = inr (if as_json then
                     ListWindows
                       (List.filter Tree.has_window (preorder scratchpad))
                       (Z.of_nat (length (List.filter Tree.has_window
                                            (preorder scratchpad))))
                   else
                     ListText
                       (truncate_response
                          (scratchpad_windows_text scratchpad_item
                             (List.filter Tree.has_window (preorder scratchpad)))
                          CHARACTER_LIMIT)) /\
          sublist (List.filter Tree.has_window (preorder scratchpad))
                  (List.filter Tree.has_window (preorder tree))
      | None =>
          exists empty,
            fst (run t (i3_scratchpad_list lower scratchpad_item as_json))
              = inr (ListNoScratchpad empty) /\
            result_list "scratchpad_windows" empty = [] /\
            Json.success empty = true
      end
  | failed_reply =>
      exists failed,
        @get_type_result Node failed_reply = inr failed /\
        fst (run t (i3_scratchpad_list lower scratchpad_item as_json))
          = inr (ListQueryFailed failed) /\
        Json.success failed = false
  end.
Proof.
  unfold run, i3_scratchpad_list. rewrite exec_bind.
  change (exec t [] run_i3_msg_get_tree)
    with (get_type_result (answer_tree t []), [CallGet "tree"]).
  cbn [fst snd].
  destruct (answer_tree t []) as [tree|msg raw|stderr str_e|];
    cbn [get_type_result];
    try (split; [reflexivity|eexists; split; [reflexivity|split; reflexivity]]).
  destruct (find_scratchpad tree) as [scratchpad|] eqn:Hfound; cbn [exec fst snd].
  - rewrite find_windows_recursive_spec. cbn [default from_option id].
    unfold raises. cbn [has_title existsb andb]. rewrite matching_nil.
    split; [now destruct as_json|]. split; [now destruct as_json|].
    apply filter_sublist_mono, preorder_descendant.
    destruct (find_scratchpad_in tree scratchpad Hfound) as [Hin _]. exact Hin.
  - split; [reflexivity|]. eexists. split; [reflexivity|]. split; reflexivity.
Qed.

(** ** Visible scratchpad windows *)

Lemma first_window_child_records (node : Node) (children : list Node) :
  (length (Tree.first_window_child node children) <= 1)%nat /\
  Forall (fun r => (exists id, Tree.vs_window_id r = Some id /\ id <> 0) /\
                   Tree.vs_output r = output node /\
                   Tree.vs_scratchpad_state r = scratchpad_state node)
         (Tree.first_window_child node children).
Proof.
  induction children as [|child rest IH]; cbn [Tree.first_window_child].
  - split; [cbn; lia | constructor].
  - destruct (Py.truthy_oint (window child)) eqn:Hwin; [|exact IH].
    split; [cbn; lia|]. constructor; [|constructor].
    cbn. split; [|split; reflexivity].
    unfold Py.truthy_oint in Hwin. destruct (window child) as [id|]; [|discriminate].
    exists id. split; [reflexivity|]. now apply negb_true_iff, Z.eqb_neq in Hwin.
Qed.

Lemma length_flat_map_le {A B C : Type} (f : A -> list B) (g : A -> list C)
    (l : list A) :
  Forall (fun x => (length (f x) <= length (g x))%nat) l ->
  (length (flat_map f l) <= length (flat_map g l))%nat.
Proof.
  induction 1 as [|x l Hx _ IH]; [cbn; lia|].
  cbn [flat_map]. rewrite !length_app. lia.
Qed.

(** X7: [find_visible_scratchpads] never reports a hidden window: every
    record it returns carries a window identifier other than 0, a scratchpad
    state that is set and not "none", and an output other than "__i3"; and
    it returns at most one record for each node of the tree. *)
Theorem find_visible_scratchpads_only_visible (tree : Node) :
  Forall (fun r =>
            (exists id, Tree.vs_window_id r = Some id /\ id <> 0) /\
            (exists state, Tree.vs_scratchpad_state r = Some state /\
                           state <> "" /\ state <> "none") /\
            Tree.vs_output r <> Some "__i3")
         (Tree.find_visible_scratchpads tree) /\
  (length (Tree.find_visible_scratchpads tree) <= length (preorder tree))%nat.
Proof.
  induction tree as [node IHn IHf] using Node_nested_ind.
  assert (Hown :
    Forall (fun r =>
              (exists id, Tree.vs_window_id r = Some id /\ id <> 0) /\
              (exists state, Tree.vs_scratchpad_state r = Some state /\
                             state <> "" /\ state <> "none") /\
              Tree.vs_output r <> Some "__i3")
           (if Tree.is_visible_scratchpad node
            then Tree.first_window_child node (nodes node) else []) /\
    (length (if Tree.is_visible_scratchpad node
             then Tree.first_window_child node (nodes node) else []) <= 1)%nat).
  { destruct (Tree.is_visible_scratchpad node) eqn:Hvis; [|split; [constructor|cbn; lia]].
    apply is_visible_scratchpad_iff in Hvis as [Hstate Hout].
    destruct (first_window_child_records node (nodes node)) as [Hlen Hrec].
    split; [|exact Hlen].
    eapply List.Forall_impl; [|exact Hrec].
    intros r (Hid & Ho & Hs). rewrite Ho, Hs. auto. }
  destruct Hown as [Hown Hlen].
  destruct node as [w nm wp wt ty ur ss out ns fs].
  cbn [Tree.find_visible_scratchpads preorder nodes floating_nodes] in *.
  split.
  - rewrite !Forall_app. split; [exact Hown|]. split.
    + rewrite List.Forall_flat_map.
      eapply List.Forall_impl; [|exact IHn]. now intros c [H _].
    + rewrite List.Forall_flat_map.
      eapply List.Forall_impl; [|exact IHf]. now intros c [H _].
  - rewrite !length_app. cbn [length]. rewrite length_app.
    assert (Hn : (length (flat_map Tree.find_visible_scratchpads ns)
                  <= length (flat_map preorder ns))%nat).
    { apply length_flat_map_le. eapply List.Forall_impl; [|exact IHn]. now intros c [_ H]. }
    assert (Hf : (length (flat_map Tree.find_visible_scratchpads fs)
                  <= length (flat_map preorder fs))%nat).
    { apply length_flat_map_le. eapply List.Forall_impl; [|exact IHf]. now intros c [_ H]. }
    lia.
Qed.

(** ** The criteria of [i3_get_tree] *)

Lemma In_if_snoc {A : Type} (test : bool) (l : list A) (x y : A) :
  In y (if test then l ++ [x] else l) <-> In y l \/ (test = true /\ y = x).
Proof.
  destruct test; [rewrite in_app_iff; cbn|]; intuition (try discriminate; auto).
Qed.

Lemma In_option_snoc {A B : Type} (o : option B) (f : B -> A) (l : list A) (y : A) :
  In y (match o with Some b => l ++ [f b] | None => l end)
  <-> In y l \/ exists b, o = Some b /\ y = f b.
Proof.
  destruct o as [b|]; [rewrite in_app_iff; cbn|].
  - split; [intros [H|[H|[]]]; [now left | right; now exists b]
           | intros [H|[b' [Hb ->]]]; [now left | right; left; congruence]].
  - split; [now left | intros [H|[b [Hb _]]]; [exact H | discriminate]].
Qed.

Lemma truthy_ostr_Some (o : option string) (v : string) :
  Py.truthy_ostr o = true /\ v = Py.fmt_ostr o <-> o = Some v /\ v <> "".
Proof.
  destruct o as [[|c s]|]; cbn; split; intros [H1 H2];
    try discriminate; try congruence.
  - subst. split; [reflexivity | discriminate].
  - injection H1 as <-. split; reflexivity.
Qed.


(** X8: the criteria that [i3_get_tree] builds hold one item for a filter
    exactly when the filter is given, where a string filter counts as given
    when it is a non-empty string and [floating] and [urgent] count as given
    when they are not [None], so that [floating = false] is a filter and an
    empty class is none; no key occurs twice. *)
Theorem get_tree_criteria_items (params : GetTreeInput) :
  NoDup (map criterion_key (get_tree_criteria params)) /\
  (forall v, In (by_class v) (get_tree_criteria params)
             <-> gt_window_class params = Some v /\ v <> "") /\
  (forall v, In (by_title v) (get_tree_criteria params)
             <-> gt_window_title params = Some v /\ v <> "") /\
  (forall v, In (by_instance v) (get_tree_criteria params)
             <-> gt_window_instance params = Some v /\ v <> "") /\
  (forall v, In (by_role v) (get_tree_criteria params)
             <-> gt_window_role params = Some v /\ v <> "") /\
  (forall v, In (by_type v) (get_tree_criteria params)
             <-> gt_window_type params = Some v /\ v <> "") /\
  (forall b, In (by_floating b) (get_tree_criteria params)
             <-> gt_floating params = Some b) /\
  (forall b, In (by_urgent b) (get_tree_criteria params)
             <-> gt_urgent params = Some b) /\
  (forall v, In (by_workspace v) (get_tree_criteria params)
             <-> gt_workspace params = Some v /\ v <> "").
Proof.
  split.
  - unfold get_tree_criteria.
    destruct (Py.truthy_ostr (gt_window_class params)),
      (Py.truthy_ostr (gt_window_title params)),
      (Py.truthy_ostr (gt_window_instance params)),
      (Py.truthy_ostr (gt_window_role params)),
      (Py.truthy_ostr (gt_window_type params)),
      (gt_floating params), (gt_urgent params),
      (Py.truthy_ostr (gt_workspace params));
      cbn [app map criterion_key];
      apply (bool_decide_unpack _); vm_compute; exact I.
  - unfold get_tree_criteria.
    split; [|split; [|split; [|split; [|split; [|split; [|split]]]]]]; intros x;
      rewrite !In_if_snoc, !In_option_snoc, !In_if_snoc; cbn [In].
    all: split;
      [ intros H; decompose [or and ex] H; clear H;
        try contradiction; try discriminate;
        match goal with
        | Heq : _ = _ :> criterion |- _ => injection Heq as Heq
        end;
        first [ apply truthy_ostr_Some; split; assumption | congruence ]
      | intros H; try apply truthy_ostr_Some in H as [H1 H2]; pick_disjunct ].
Qed.

(** ** Hiding all visible scratchpad windows *)

Lemma hide_loop_exec (t : transport) (visible_windows : list Tree.VisibleScratchpad) :
  forall (hidden_count : Z) (errors windows_hidden : list json) (history : list call),
  exists errors_new hidden_new,
    exec t history (hide_loop visible_windows hidden_count errors windows_hidden)
    = ((hidden_count + Z.of_nat (length hidden_new),
        errors ++ errors_new, windows_hidden ++ hidden_new),
       history ++ map hide_call visible_windows) /\
    (length hidden_new + length errors_new = length visible_windows)%nat.
Proof.
  induction visible_windows as [|window rest IH];
    intros hidden_count errors windows_hidden history.
  - exists [], []. cbn [hide_loop exec map length]. rewrite !app_nil_r, Z.add_0_r.
    split; reflexivity.
  - cbn [hide_loop]. rewrite exec_bind, exec_run_i3_msg. cbn [fst snd map].
    fold (hide_call window).
    destruct (Json.success (command_result _ (answer_command t history _))).
    + match goal with
      | |- context [hide_loop rest ?hc ?er (?wh ++ [?item])] =>
          destruct (IH hc er (wh ++ [item]) (history ++ [hide_call window]))
            as (errors_new & hidden_new & Hexec & Hlen);
          exists errors_new, (item :: hidden_new)
      end.
      unfold hide_call in Hexec |- *. rewrite Hexec, <- !app_assoc.
      split; [|cbn [length]; lia].
      cbn [app length]. rewrite Nat2Z.inj_succ, <- Z.add_1_l, Z.add_assoc.
      reflexivity.
    + match goal with
      | |- context [hide_loop rest ?hc ?er ?wh] =>
          destruct (IH hc er wh (history ++ [hide_call window]))
            as (errors_new & hidden_new & Hexec & Hlen)
      end.
      eexists (_ :: errors_new). exists hidden_new.
      unfold hide_call in Hexec |- *. rewrite Hexec, <- !app_assoc.
      split; [reflexivity | cbn [length]; lia].
Qed.

(** The result and the calls of [i3_scratchpad_hide_all] on a tree. *)
Lemma hide_all_run (t : transport) (tree : Node) :
  answer_tree t [] = Reply tree ->
  exists errors hidden,
    (length hidden + length errors
     = length (Tree.find_visible_scratchpads tree))%nat /\
    run t i3_scratchpad_hide_all
    = (match Tree.find_visible_scratchpads tree with
       | [] =>
           JDict [("success", JBool true);
                  ("message", JStr "No visible scratchpad windows found");
                  ("hidden_count", JInt 0);
                  ("total_found", JInt 0)]
       | _ =>
           match errors with
           | [] =>
               JDict [("success", JBool true);
                      ("hidden_count", JInt (Z.of_nat (length hidden)));
                      ("total_found",
                       JInt (Z.of_nat (length (Tree.find_visible_scratchpads tree))));
                      ("windows_hidden", JList hidden)]
           | _ =>
               JDict [("success", JBool (0 <? Z.of_nat (length hidden)));
                      ("hidden_count", JInt (Z.of_nat (length hidden)));
                      ("total_found",
                       JInt (Z.of_nat (length (Tree.find_visible_scratchpads tree))));
                      ("windows_hidden", JList hidden);
                      ("errors", JList errors)]
           end
       end,
       CallGet "tree" :: map hide_call (Tree.find_visible_scratchpads tree)).
Proof.
  intros Hreply. unfold run, i3_scratchpad_hide_all. rewrite exec_bind.
  change (exec t [] run_i3_msg_get_tree)
    with (get_type_result (answer_tree t []), [CallGet "tree"]).
  rewrite Hreply. cbn [fst snd get_type_result].
  destruct (Tree.find_visible_scratchpads tree) as [|window rest] eqn:Hvisible.
  - exists [], []. split; reflexivity.
  - destruct (hide_loop_exec t (window :: rest) 0 [] [] [CallGet "tree"])
      as (errors & hidden & Hexec & Hlen).
    exists errors, hidden. split; [exact Hlen|].
    rewrite exec_bind, Hexec. cbn [fst snd app Z.add].
    destruct errors; reflexivity.
Qed.

(** X9: on a tree, [i3_scratchpad_hide_all] sends one [move scratchpad]
    command for each visible scratchpad window, in the order of the tree
    walk, after the one query; every window is accounted for, counted in
    [hidden_count] or itemized in [errors], and [total_found] is their
    number. *)
Theorem hide_all_accounts_for_every_window (t : transport) (tree : Node) :
  answer_tree t [] = Reply tree ->
  snd (run t i3_scratchpad_hide_all)
    = CallGet "tree" :: map hide_call (Tree.find_visible_scratchpads tree) /\
  exists hidden_count : nat,
    Json.get "hidden_count" (fst (run t i3_scratchpad_hide_all))
      = Some (JInt (Z.of_nat hidden_count)) /\
    Json.get "total_found" (fst (run t i3_scratchpad_hide_all))
      = Some (JInt (Z.of_nat (length (Tree.find_visible_scratchpads tree)))) /\
    length (result_list "windows_hidden" (fst (run t i3_scratchpad_hide_all)))
      = hidden_count /\
    (hidden_count
     + length (result_list "errors" (fst (run t i3_scratchpad_hide_all)))
     = length (Tree.find_visible_scratchpads tree))%nat.
Proof.
  intros Hreply.
  destruct (hide_all_run t tree Hreply) as (errors & hidden & Hlen & Hrun).
  rewrite Hrun. cbn [fst snd]. split; [reflexivity|].
  destruct (Tree.find_visible_scratchpads tree) as [|window rest].
  - exists 0%nat. destruct hidden, errors; try discriminate Hlen.
    repeat split; reflexivity.
  - exists (length hidden).
    destruct errors as [|e errors]; cbn in Hlen |- *;
      repeat split; try reflexivity; lia.
Qed.

(** Two scratchpad containers, one of them visible, on a transport that
    rejects every command. *)
Lemma hide_all_accounts_for_every_window_witness :
  answer_tree (transport_rejecting [] two_scratchpads) [] = Reply two_scratchpads /\
  snd (run (transport_rejecting [] two_scratchpads) i3_scratchpad_hide_all)
    = [CallGet "tree"; CallCommand "[id=12] move scratchpad"].
Proof.
  split; [reflexivity|].
  exact (proj1 (hide_all_accounts_for_every_window
                  (transport_rejecting [] two_scratchpads) two_scratchpads eq_refl)).
Defined.

(** X10: [i3_scratchpad_hide_all] reports [success = false] exactly when
    there was a visible scratchpad window and none could be hidden; with
    nothing to hide, or with at least one window hidden, it reports
    success. *)
Theorem hide_all_success_rule (t : transport) (tree : Node) :
  answer_tree t [] = Reply tree ->
  (Json.success (fst (run t i3_scratchpad_hide_all)) = false <->
   Tree.find_visible_scratchpads tree <> [] /\
   Json.get "hidden_count" (fst (run t i3_scratchpad_hide_all)) = Some (JInt 0)).
Proof.
  intros Hreply.
  destruct (hide_all_run t tree Hreply) as (errors & hidden & Hlen & Hrun).
  rewrite Hrun. cbn [fst].
  destruct (Tree.find_visible_scratchpads tree) as [|window rest].
  - cbn. split; [discriminate | intros [H _]; now destruct H].
  - destruct errors as [|e errors]; cbn in Hlen |- *.
    + split; [discriminate|]. intros [_ H]. injection H as H. lia.
    + destruct hidden as [|w hidden]; cbn.
      * split; [intros _; split; [discriminate|reflexivity] | reflexivity].
      * split; [discriminate|]. intros [_ H]. injection H as H. lia.
Qed.

(** The visible window of [two_scratchpads] cannot be hidden: failure. *)
Lemma hide_all_success_rule_witness :
  answer_tree (transport_rejecting [] two_scratchpads) [] = Reply two_scratchpads /\
  Json.success (fst (run (transport_rejecting [] two_scratchpads)
                         i3_scratchpad_hide_all)) = false.
Proof.
  split; [reflexivity|].
  apply (hide_all_success_rule (transport_rejecting [] two_scratchpads)
           two_scratchpads eq_refl).
  split; [discriminate | reflexivity].
Defined.

(** ** Failed queries *)

(** X11: when the query for the tree or for the workspace list fails,
    [i3_scratchpad_hide_all], [i3_workspace_bulk_move] and [i3_get_tree]
    stop after that one call and send no command; hide-all and get-tree
    hand the failure of the query on, bulk-move wraps it under [details];
    the failure of a query has [success = False] and an [error] text. *)
Theorem failed_query_sends_no_command (t : transport) :
  (forall failed, get_type_result (answer_tree t []) = inr failed ->
     run t i3_scratchpad_hide_all = (failed, [CallGet "tree"])) /\
  (forall set_iter params failed,
     get_type_result (answer_workspaces t []) = inr failed ->
     run t (i3_workspace_bulk_move set_iter params)
     = (JDict [("success", JBool false);
               ("error", JStr "Failed to get workspace list");
               ("details", failed)],
        [CallGet "workspaces"])) /\
  (forall lower format_window_info dumps params as_json failed,
     get_type_result (answer_tree t []) = inr failed ->
     run t (i3_get_tree lower format_window_info dumps params as_json)
     = (inr (TreeQueryFailed failed), [CallGet "tree"])) /\
  (forall (D : Type) (rep : i3_reply D),
     if replied rep then exists data, get_type_result rep = inl data
     else exists failed msg,
         get_type_result rep = inr failed /\
         Json.success failed = false /\
         Json.get "error" failed = Some (JStr msg)).
Proof.
  split; [|split; [|split]].
  - intros failed Hfailed. unfold run, i3_scratchpad_hide_all. rewrite exec_bind.
    change (exec t [] run_i3_msg_get_tree)
      with (get_type_result (answer_tree t []), [CallGet "tree"]).
    now rewrite Hfailed.
  - intros set_iter params failed Hfailed. unfold run, i3_workspace_bulk_move.
    rewrite exec_bind.
    change (exec t [] run_i3_msg_get_workspaces)
      with (get_type_result (answer_workspaces t []), [CallGet "workspaces"]).
    now rewrite Hfailed.
  - intros lower format_window_info dumps params as_json failed Hfailed.
    unfold run, i3_get_tree.
    rewrite exec_bind.
    change (exec t [] run_i3_msg_get_tree)
      with (get_type_result (answer_tree t []), [CallGet "tree"]).
    now rewrite Hfailed.
  - intros D [data|msg raw|stderr str_e|]; cbn [replied get_type_result].
    + now exists data.
    + eexists _, _. repeat split; reflexivity.
    + eexists _, _. repeat split; reflexivity.
    + eexists _, _. repeat split; reflexivity.
Qed.

(** No query is answered: the failure of the query is what hide-all
    returns. *)
Lemma failed_query_sends_no_command_witness :
  run transport_silent i3_scratchpad_hide_all
  = (JDict [("success", JBool false);
            ("error", JStr "Query timed out after 5 seconds")],
     [CallGet "tree"]).
Proof.
  exact (proj1 (failed_query_sends_no_command transport_silent) _ eq_refl).
Defined.

(** ** Accounting of the bulk move *)

Lemma move_loop_counts (params : BulkWorkspaceMoveInput)
    (workspace_map : gmap string Workspace) (t : transport)
    (workspaces : list string) :
  forall (moved failed : list json) (history : list call),
    (length (fst (fst (exec t history
                         (move_loop params workspace_map workspaces moved failed))))
     + length (snd (fst (exec t history
                           (move_loop params workspace_map workspaces moved failed))))
     = length moved + length failed + length (not_preserved params workspaces))%nat.
Proof.
  unfold not_preserved.
  induction workspaces as [|ws_name rest IH]; intros moved failed history.
  - cbn. lia.
  - cbn [move_loop List.filter]. fold (is_preserved params ws_name).
    destruct (is_preserved params ws_name); cbn [negb].
    + apply IH.
    + destruct (workspace_map !! ws_name) as [ws|].
      * rewrite exec_bind, exec_run_i3_msg. cbn [fst snd].
        destruct (Json.success _); rewrite IH, List.length_app; cbn [length]; lia.
      * rewrite IH, List.length_app. cbn [length]. lia.
Qed.

(** X12: once the workspace list was fetched, [i3_workspace_bulk_move]
    accounts for every workspace of the input list that is not the
    preserved one: [moved_count] and [failed_count] are the lengths of the
    two lists of the result, and their sum is the number of those
    workspaces when no placeholder is asked for; with a placeholder, the
    failures to create it come on top. *)
Theorem bulk_move_accounts_for_every_workspace
    (set_iter : gset string -> list string)
    (params : BulkWorkspaceMoveInput) (t : transport)
    (current_workspaces : list Workspace) :
  answer_workspaces t [] = Reply current_workspaces ->
  exists moved_count failed_count : nat,
    Json.get "moved_count" (fst (run t (i3_workspace_bulk_move set_iter params)))
      = Some (JInt (Z.of_nat moved_count)) /\
    Json.get "failed_count" (fst (run t (i3_workspace_bulk_move set_iter params)))
      = Some (JInt (Z.of_nat failed_count)) /\
    length (result_list "moved_workspaces"
              (fst (run t (i3_workspace_bulk_move set_iter params)))) = moved_count /\
    length (result_list "failed_workspaces"
              (fst (run t (i3_workspace_bulk_move set_iter params)))) = failed_count /\
    (length (not_preserved params (bm_workspaces params))
     <= moved_count + failed_count)%nat /\
    (Py.truthy_ostr (bm_placeholder_workspace params) = false ->
     (moved_count + failed_count
      = length (not_preserved params (bm_workspaces params)))%nat).
Proof.
  intros Hreply. unfold run, i3_workspace_bulk_move.
  rewrite exec_bind.
  change (exec t [] run_i3_msg_get_workspaces)
    with (get_type_result (answer_workspaces t []), [CallGet "workspaces"]).
  rewrite Hreply. cbn [fst snd get_type_result].
  rewrite exec_bind.
  set (step2 := exec t [CallGet "workspaces"] _).
  assert (Hnone : Py.truthy_ostr (bm_placeholder_workspace params) = false ->
                  fst step2 = []).
  { intros Hp. subst step2. now rewrite Hp. }
  rewrite exec_bind.
  pose proof (move_loop_counts params (build_workspace_map current_workspaces) t
                (bm_workspaces params) [] (fst step2) (snd step2)) as Hcount.
  destruct (exec t (snd step2) (move_loop _ _ _ _ _)) as [[moved failed] calls].
  cbn [fst snd length] in Hcount. cbn [fst snd exec].
  exists (length moved), (length failed).
  split; [reflexivity|]. split; [reflexivity|].
  split; [reflexivity|]. split; [reflexivity|].
  split; [lia|]. intros Hp. rewrite (Hnone Hp) in Hcount. cbn [length] in Hcount. lia.
Qed.

(** Workspaces "1" and "2" exist, "2" is preserved, "7" does not exist:
    one move and one failure for the two workspaces not preserved. *)
Lemma bulk_move_accounts_for_every_workspace_witness :
  exists moved_count failed_count : nat,
    Json.get "moved_count"
      (fst (run (transport_accepting
                   [mkWorkspace "1" "eDP-1"; mkWorkspace "2" "eDP-1"] (fun _ => true))
              (i3_workspace_bulk_move (fun _ => [])
                 (mkBulkWorkspaceMoveInput ["1"; "2"; "7"] "DP-1" (Some "2") None))))
      = Some (JInt (Z.of_nat moved_count)) /\
    (moved_count + failed_count = 2)%nat.
Proof.
  destruct (bulk_move_accounts_for_every_workspace (fun _ => [])
              (mkBulkWorkspaceMoveInput ["1"; "2"; "7"] "DP-1" (Some "2") None)
              (transport_accepting
                 [mkWorkspace "1" "eDP-1"; mkWorkspace "2" "eDP-1"] (fun _ => true))
              _ eq_refl)
    as (moved_count & failed_count & Hmoved & _ & _ & _ & _ & Hsum).
  exists moved_count, failed_count. split; [exact Hmoved | exact (Hsum eq_refl)].
Defined.

(** ** The commands of the bulk move *)

(** The map of the workspaces by name keeps, for a name, the last entry
    of the list that bears it. *)
Lemma build_workspace_map_lookup (current_workspaces : list Workspace) (n : string) :
  build_workspace_map current_workspaces !! n
  = last (List.filter (fun ws => bool_decide (ws_name ws = n)) current_workspaces).
Proof.
  unfold build_workspace_map.
  enough (Hgen : forall m : gmap string Workspace,
             foldl (fun m ws => <[ws_name ws := ws]> m) m current_workspaces !! n
             = match last (List.filter (fun ws => bool_decide (ws_name ws = n))
                             current_workspaces) with
               | Some w => Some w
               | None => m !! n
               end).
  { rewrite Hgen. now destruct (last _). }
  induction current_workspaces as [|ws rest IH]; intros m; [reflexivity|].
  cbn [foldl List.filter]. rewrite IH. case_bool_decide as Hname.
  - subst n. destruct (List.filter _ rest) as [|w l] eqn:Hfilter.
    + cbn [last]. first [apply lookup_insert_eq | apply lookup_insert].
    + change (last (ws :: w :: l)) with (last (w :: l)).
      destruct (last (w :: l)) eqn:Hlast; [reflexivity|].
      apply last_None in Hlast. discriminate.
  - destruct (last _); [reflexivity|]. now apply lookup_insert_ne.
Qed.

Lemma build_workspace_map_is_Some (current_workspaces : list Workspace) (n : string) :
  is_Some (build_workspace_map current_workspaces !! n)
  <-> n ∈ map ws_name current_workspaces.
Proof.
  rewrite build_workspace_map_lookup, list_elem_of_In. split.
  - intros [w Hw]. apply last_Some in Hw as [l Hl].
    assert (Hin : In w (List.filter (fun ws => bool_decide (ws_name ws = n))
                          current_workspaces))
      by (rewrite Hl; apply in_or_app; right; now left).
    apply List.filter_In in Hin as [Hin Hname].
    apply bool_decide_eq_true in Hname. subst n. now apply in_map.
  - intros Hin. apply in_map_iff in Hin as (ws & Hname & Hin).
    destruct (last _) as [w|] eqn:Hlast; [eauto|].
    apply last_None in Hlast.
    assert (Hin' : In ws (List.filter (fun ws => bool_decide (ws_name ws = n))
                            current_workspaces)).
    { apply List.filter_In. split; [exact Hin|]. now apply bool_decide_eq_true. }
    rewrite Hlast in Hin'. destruct Hin'.
Qed.

(** X13: with no placeholder asked for, the calls of
    [i3_workspace_bulk_move] after its query are one move command for each
    workspace of the input list that is listed by the manager and is not
    the preserved one, in the order of the input list, repeated entries
    included; a workspace is looked up under its name, and of two listed
    workspaces of one name the later one is taken. *)
Theorem bulk_move_commands (set_iter : gset string -> list string)
    (params : BulkWorkspaceMoveInput) (t : transport)
    (current_workspaces : list Workspace) :
  answer_workspaces t [] = Reply current_workspaces ->
  Py.truthy_ostr (bm_placeholder_workspace params) = false ->
  snd (run t (i3_workspace_bulk_move set_iter params))
  = CallGet "workspaces" ::
    map (fun w => CallCommand (move_command w (bm_target_output params)))
        (List.filter
           (fun w => negb (is_preserved params w) &&
                     bool_decide (w ∈ map ws_name current_workspaces))
           (bm_workspaces params)) /\
  forall n,
    build_workspace_map current_workspaces !! n
    = last (List.filter (fun ws => bool_decide (ws_name ws = n)) current_workspaces).
Proof.
  intros Hreply Hplaceholder. split; [|apply build_workspace_map_lookup].
  destruct (bulk_move_run set_iter params t current_workspaces Hreply)
    as (pf & pc & moved & failed_new & Hrun & _ & _ & Hnone & _).
  destruct (Hnone Hplaceholder) as [_ ->].
  rewrite Hrun. cbn [snd app]. do 2 f_equal. unfold attempted.
  apply List.filter_ext. intros w. f_equal.
  apply bool_decide_ext, build_workspace_map_is_Some.
Qed.

(** Of the workspaces "1", "2", "7", "1" with "2" preserved and "7" not
    listed, workspace "1" is moved twice. *)
Lemma bulk_move_commands_witness :
  snd (run (transport_accepting
              [mkWorkspace "1" "eDP-1"; mkWorkspace "2" "eDP-1"] (fun _ => true))
           (i3_workspace_bulk_move (fun _ => [])
              (mkBulkWorkspaceMoveInput ["1"; "2"; "7"; "1"] "DP-1" (Some "2") None)))
  = [CallGet "workspaces";
     CallCommand "workspace 1; move workspace to output DP-1";
     CallCommand "workspace 1; move workspace to output DP-1"].
Proof.
  exact (proj1 (bulk_move_commands (fun _ => [])
                  (mkBulkWorkspaceMoveInput ["1"; "2"; "7"; "1"] "DP-1" (Some "2") None)
                  (transport_accepting
                     [mkWorkspace "1" "eDP-1"; mkWorkspace "2" "eDP-1"] (fun _ => true))
                  _ eq_refl eq_refl)).
Defined.

(** ** Operations of one command *)

(** X14: the operations that take one of two alternatives never send a
    second call and never query the manager: [i3_focus_window],
    [i3_move_to_output], [i3_focus_output] and [i3_resize_window] either
    reject their input with a validation failure and no call at all, or
    send exactly one command and return the result of that command
    unchanged.  [i3_focus_window] sends nothing exactly when [direction]
    and [target] are both given or both missing; [i3_move_to_output] and
    [i3_focus_output] exactly when a non-empty [output] and a [direction]
    are both given or both missing; [i3_resize_window] exactly when one of
    [absolute_width] and [absolute_height] is a number other than 0 and the
    other is not. *)
Theorem either_or_operations (t : transport) :
  (forall params,
     one_shot t (run t (i3_focus_window params)) /\
     (snd (run t (i3_focus_window params)) = [] <->
      Py.is_not_None (fw_direction params) = Py.is_not_None (fw_target params))) /\
  (forall params,
     one_shot t (run t (i3_move_to_output params)) /\
     (snd (run t (i3_move_to_output params)) = [] <->
      Py.truthy_ostr (mo_output params) = Py.is_not_None (mo_direction params))) /\
  (forall params,
     one_shot t (run t (i3_focus_output params)) /\
     (snd (run t (i3_focus_output params)) = [] <->
      Py.truthy_ostr (fo_output params) = Py.is_not_None (fo_direction params))) /\
  (forall params,
     one_shot t (run t (i3_resize_window params)) /\
     (snd (run t (i3_resize_window params)) = [] <->
      Py.truthy_oint (rw_absolute_width params)
      <> Py.truthy_oint (rw_absolute_height params))).
Proof.
  unfold one_shot.
  split; [|split; [|split]].
  - intros [[d|] [target|]];
      (split; [first [rejected | sent] | cbn; split; intros H; congruence]).
  - intros [[[|c o]|] [d|]];
      (split; [first [rejected | sent] | cbn; split; intros H; congruence]).
  - intros [[[|c o]|] [d|]];
      (split; [first [rejected | sent] | cbn; split; intros H; congruence]).
  - intros [g d a w h]. unfold i3_resize_window.
    cbn [rw_absolute_width rw_absolute_height].
    destruct (Py.truthy_oint w), (Py.truthy_oint h);
      (split; [first [rejected | sent] | cbn; split; intros H; congruence]).
Qed.

(** X15: [i3_focus_by_criteria], [i3_move_window] and [i3_gaps_set] never
    send a second call and never query the manager: each either rejects its
    input with a validation failure and no call at all, or sends exactly
    one command and returns the result of that command unchanged.
    [i3_focus_by_criteria] sends nothing exactly when every string
    criterion is missing or empty and [urgent] is missing, so that
    [urgent = False] alone is sent. *)
Theorem validated_operations (t : transport) :
  (forall params, one_shot t (run t (i3_focus_by_criteria params))) /\
  (forall params,
     snd (run t (i3_focus_by_criteria params)) = [] <->
     Py.truthy_ostr (fc_window_class params) = false /\
     Py.truthy_ostr (fc_window_title params) = false /\
     Py.truthy_ostr (fc_window_instance params) = false /\
     Py.truthy_ostr (fc_con_mark params) = false /\
     fc_urgent params = None) /\
  (forall params, one_shot t (run t (i3_move_window params))) /\
  (forall params, one_shot t (run t (i3_gaps_set params))).
Proof.
  unfold one_shot.
  split; [|split; [|split]].
  - intros [[[|c1 s1]|] [[|c2 s2]|] [[|c3 s3]|] [[|c4 s4]|] [u|]];
      first [rejected | sent].
  - intros [[[|c1 s1]|] [[|c2 s2]|] [[|c3 s3]|] [[|c4 s4]|] [u|]]; cbn;
      split; intros H; first [discriminate | tauto | intuition congruence].
  - intros [[d|] [x|] [y|] [|] [|] [[|c1 s1]|] [[|c2 s2]|]];
      first [rejected | sent].
  - intros [[inner|] [outer|] scope]; unfold i3_gaps_set, Py.truthy_oint;
      cbn [gi_inner gi_outer];
      repeat match goal with |- context [?z =? 0] => destruct (z =? 0) end;
      first [rejected | sent].
Qed.

(** X16: [i3_scratchpad_show], [i3_scratchpad_move], [i3_mark_unmark] and
    [i3_workspace_rename] reject nothing: each sends exactly one command,
    makes no other call and returns the result of that command unchanged.
    Their optional string is handled as missing when it is empty: the
    program is the same for both, and [i3_mark_unmark] with an empty mark
    sends the bare [unmark], which removes every mark. *)
Theorem unconditional_operations (t : transport) :
  (forall params, one_command t (run t (i3_scratchpad_show params))) /\
  (forall params, one_command t (run t (i3_scratchpad_move params))) /\
  (forall params, one_command t (run t (i3_mark_unmark params))) /\
  (forall params, one_command t (run t (i3_workspace_rename params))) /\
  (forall name,
     i3_scratchpad_show (mkScratchpadShowInput name)
     = i3_scratchpad_show (mkScratchpadShowInput (nonempty name))) /\
  (forall mark,
     i3_scratchpad_move (mkScratchpadMoveInput mark)
     = i3_scratchpad_move (mkScratchpadMoveInput (nonempty mark))) /\
  (forall mark,
     i3_mark_unmark (mkMarkUnmarkInput mark)
     = i3_mark_unmark (mkMarkUnmarkInput (nonempty mark)) /\
     (Py.truthy_ostr mark = false ->
      run t (i3_mark_unmark (mkMarkUnmarkInput mark))
      = (command_result "unmark" (answer_command t [] "unmark"),
         [CallCommand "unmark"]))) /\
  (forall old_name new_name,
     i3_workspace_rename (mkWorkspaceRenameInput old_name new_name)
     = i3_workspace_rename (mkWorkspaceRenameInput (nonempty old_name) new_name)).
Proof.
  unfold one_command.
  repeat match goal with |- _ /\ _ => split end.
  - intros params. eexists. reflexivity.
  - intros params. eexists. reflexivity.
  - intros params. eexists. reflexivity.
  - intros params. eexists. reflexivity.
  - intros [[|c s]|]; reflexivity.
  - intros [[|c s]|]; reflexivity.
  - intros [[|c s]|];
      (split; [reflexivity | intros H; first [discriminate H | reflexivity]]).
  - intros [[|c s]|] new_name; reflexivity.
Qed.

(** ** Launching an application *)

Lemma success_command_result (command : string) (rep : i3_reply json) :
  Json.success (command_result command rep) = replied rep.
Proof. now destruct rep. Qed.

(** X17: [i3_exec] sends at most two commands and nothing else: nothing
    when [mark_as] is given without [move_to_scratchpad]; otherwise, with a
    non-empty [workspace], first [workspace <name>] alone and then, only
    if the manager accepted it, the [exec] command; without a workspace the
    [exec] command alone.  [floating], [fullscreen] and
    [move_to_scratchpad] change no call.  A dict with [success = False]
    that [i3_exec] returns is the validation failure or the result of the
    refused workspace switch, never the failure of the launch. *)
Theorem i3_exec_calls (t : transport) (params : ExecApplicationInput) :
  snd (run t (i3_exec params))
  = (if Py.truthy_ostr (ex_mark_as params) && negb (ex_move_to_scratchpad params)
     then []
     else if Py.truthy_ostr (ex_workspace params) then
       CallCommand ("workspace " +:+ Py.fmt_ostr (ex_workspace params)) ::
       (if replied (answer_command t []
                      ("workspace " +:+ Py.fmt_ostr (ex_workspace params)))
        then [CallCommand ("exec --no-startup-id " +:+ ex_command params)]
        else [])
     else [CallCommand ("exec --no-startup-id " +:+ ex_command params)]) /\
  (forall d,
     fst (run t (i3_exec params)) = inr d -> Json.success d = false ->
     d = failure "mark_as can only be used with move_to_scratchpad=true" \/
     Py.truthy_ostr (ex_workspace params) = true /\
     d = command_result ("workspace " +:+ Py.fmt_ostr (ex_workspace params))
           (answer_command t []
              ("workspace " +:+ Py.fmt_ostr (ex_workspace params)))).
Proof.
  unfold run, i3_exec.
  destruct (Py.truthy_ostr (ex_mark_as params) && negb (ex_move_to_scratchpad params)).
  { split; [reflexivity|]. intros d Hd _. left. cbn in Hd. congruence. }
  rewrite exec_bind.
  destruct (Py.truthy_ostr (ex_workspace params)) eqn:Hworkspace.
  - rewrite exec_bind, exec_run_i3_msg. cbn [fst snd].
    rewrite success_command_result.
    destruct (answer_command t [] _) as [output|msg raw|stderr str_e|] eqn:Hreply;
      cbn [replied negb exec fst snd];
      [ | split; [reflexivity|]; intros d Hd _; right;
          split; [reflexivity|]; injection Hd as <-; reflexivity ..].
    rewrite exec_bind, exec_run_i3_msg. cbn [fst snd exec app].
    split; [reflexivity|]. intros d Hd Hfalse. exfalso.
    unfold exec_finish in Hd. rewrite Hworkspace in Hd.
    destruct (answer_command t _ ("exec --no-startup-id " +:+ ex_command params));
      cbn in Hd; try discriminate Hd.
    destruct (exec_notes params); [|destruct (exec_suggestion params)];
      try discriminate Hd; injection Hd as <-; discriminate Hfalse.
  - cbn [exec fst snd]. rewrite exec_bind, exec_run_i3_msg. cbn [fst snd exec app].
    split; [reflexivity|]. intros d Hd Hfalse. exfalso.
    unfold exec_finish in Hd. rewrite Hworkspace in Hd.
    destruct (answer_command t _ ("exec --no-startup-id " +:+ ex_command params));
      cbn in Hd; try discriminate Hd.
    destruct (exec_notes params); [|destruct (exec_suggestion params)];
      try discriminate Hd; injection Hd as <-; discriminate Hfalse.
Qed.

(** X18: when [i3_exec] has sent the [exec] command (the input passed the
    validation and the workspace switch, if any, was accepted) and the
    manager does not answer it with data, the operation does not return a
    failure dict: building [output] from the results raises
    [KeyError('output')], so the branch that copies [error] into the
    result is never reached. *)
Theorem i3_exec_failed_launch_raises (t : transport) (params : ExecApplicationInput) :
  Py.truthy_ostr (ex_mark_as params) && negb (ex_move_to_scratchpad params) = false ->
  (Py.truthy_ostr (ex_workspace params) = true ->
   replied (answer_command t []
              ("workspace " +:+ Py.fmt_ostr (ex_workspace params))) = true) ->
  replied (answer_command t
             (if Py.truthy_ostr (ex_workspace params)
              then [CallCommand ("workspace " +:+ Py.fmt_ostr (ex_workspace params))]
              else [])
             ("exec --no-startup-id " +:+ ex_command params)) = false ->
  fst (run t (i3_exec params)) = inl (KeyError "output").
Proof.
  intros Hvalid Hswitch Hlaunch. unfold run, i3_exec. rewrite Hvalid, exec_bind.
  destruct (Py.truthy_ostr (ex_workspace params)) eqn:Hworkspace.
  - specialize (Hswitch eq_refl).
    rewrite exec_bind, exec_run_i3_msg. cbn [fst snd].
    rewrite success_command_result, Hswitch. cbn [negb exec fst snd].
    rewrite exec_bind, exec_run_i3_msg. cbn [fst snd exec app] in *.
    unfold exec_finish.
    destruct (answer_command t [] _); try discriminate Hswitch.
    destruct (answer_command t _ ("exec --no-startup-id " +:+ ex_command params));
      [discriminate Hlaunch | reflexivity ..].
  - cbn [exec fst snd]. rewrite exec_bind, exec_run_i3_msg. cbn [fst snd exec app].
    unfold exec_finish.
    destruct (answer_command t _ ("exec --no-startup-id " +:+ ex_command params));
      [discriminate Hlaunch | reflexivity ..].
Qed.

(** The manager rejects the launch of a program. *)
Lemma i3_exec_failed_launch_raises_witness :
  fst (run (transport_rejecting [] bare_node)
           (i3_exec (mkExecApplicationInput "firefox" None false None false false)))
  = inl (KeyError "output").
Proof.
  apply i3_exec_failed_launch_raises; [reflexivity | discriminate | reflexivity].
Defined.

(** ** Adjusting gaps *)

(** X19: [i3_gaps_adjust] never sends a command: for every input, reading
    [.value] of the plain string held by [gap_type] raises
    [AttributeError] before the command is built. *)
Theorem i3_gaps_adjust_raises (t : transport) (params : GapsAdjustInput) :
  run t (i3_gaps_adjust params)
  = (inl (AttributeError "'str' object has no attribute 'value'"), []).
Proof. reflexivity. Qed.

(** ** Truncation, again *)

Lemma str_take_append (s rest : string) :
  Py.str_take (String.length s) (s +:+ rest) = s.
Proof.
  induction s as [|c s IH]; [now destruct rest|].
  change (String c (Py.str_take (String.length s) (s +:+ rest)) = String c s).
  now rewrite IH.
Qed.

(** X20: for a limit that is not negative, truncating is idempotent: a
    response that was truncated, notice included, comes back unchanged from
    a second truncation at the same limit, although it is longer than the
    limit. *)
Theorem truncate_response_idempotent (content : string) (limit : Z) :
  0 <= limit ->
  truncate_response (truncate_response content limit) limit
  = truncate_response content limit.
Proof.
  intros Hlimit. unfold truncate_response at 2 3.
  destruct (Py.len content <=? limit) eqn:Hlen.
  - unfold truncate_response. now rewrite Hlen.
  - apply Z.leb_gt in Hlen. unfold Py.slice_to.
    replace (0 <=? limit) with true by (symmetry; now apply Z.leb_le).
    destruct (str_take_split (Z.to_nat limit) content) as (rest & Hsplit & Hkept).
    { unfold Py.len in Hlen. lia. }
    set (kept := Py.str_take (Z.to_nat limit) content) in *.
    unfold truncate_response.
    replace (Py.len (kept +:+ truncation_notice limit) <=? limit) with false.
    + unfold Py.slice_to.
      replace (0 <=? limit) with true by (symmetry; now apply Z.leb_le).
      rewrite <- Hkept at 1. now rewrite str_take_append.
    + symmetry. apply Z.leb_gt. rewrite len_append.
      pose proof (truncation_notice_nonempty limit).
      unfold Py.len at 1. rewrite Hkept. lia.
Qed.

Lemma truncate_response_idempotent_witness :
  truncate_response (truncate_response "abcdef" 3) 3 = truncate_response "abcdef" 3.
Proof. apply truncate_response_idempotent. lia. Defined.

(** ** Empty strings *)

(** X21: an optional string that is empty is handled as a missing one by
    [i3_move_to_output], [i3_focus_output], [i3_focus_by_criteria] and
    [i3_exec] ([workspace] and [mark_as]): the operation is the same
    program for both inputs. *)
Theorem empty_string_is_missing :
  (forall output direction,
     i3_move_to_output (mkMoveToOutputInput output direction)
     = i3_move_to_output (mkMoveToOutputInput (nonempty output) direction)) /\
  (forall output direction,
     i3_focus_output (mkFocusOutputInput output direction)
     = i3_focus_output (mkFocusOutputInput (nonempty output) direction)) /\
  (forall window_class title instance mark urgent,
     i3_focus_by_criteria
       (mkFocusByCriteriaInput window_class title instance mark urgent)
     = i3_focus_by_criteria
         (mkFocusByCriteriaInput (nonempty window_class) (nonempty title)
            (nonempty instance) (nonempty mark) urgent)) /\
  (forall command workspace to_scratchpad mark floating fullscreen,
     i3_exec (mkExecApplicationInput command workspace to_scratchpad mark
                floating fullscreen)
     = i3_exec (mkExecApplicationInput command (nonempty workspace) to_scratchpad
                  (nonempty mark) floating fullscreen)).
Proof.
  repeat match goal with |- _ /\ _ => split end.
  - intros [[|c s]|] direction; reflexivity.
  - intros [[|c s]|] direction; reflexivity.
  - intros [[|c1 s1]|] [[|c2 s2]|] [[|c3 s3]|] [[|c4 s4]|] urgent; reflexivity.
  - intros command [[|c1 s1]|] to_scratchpad [[|c2 s2]|] floating fullscreen;
      reflexivity.
Qed.

(** ** Selectors of the swap *)


Lemma swap_rejected (t : transport) (params : SwapContainerInput) :
  target_valid params = false \/ 1 < source_count params ->
  exists msg, run t (i3_swap_containers params) = (failure msg, []).
Proof.
  intros Hinvalid. unfold i3_swap_containers.
  destruct (negb (Py.truthy_oint (sc_target_id params)) &&
            negb (Py.truthy_oint (sc_target_con_id params)) &&
            negb (Py.truthy_ostr (sc_target_mark params))) eqn:Hnone;
    [eexists; reflexivity|].
  destruct (1 <? target_count params) eqn:Hone; [eexists; reflexivity|].
  destruct (1 <? source_count params) eqn:Hsource; [eexists; reflexivity|].
  exfalso. destruct Hinvalid as [Hinvalid|Hinvalid].
  - unfold target_valid in Hinvalid. rewrite <- !negb_orb in Hnone.
    apply negb_false_iff in Hnone. rewrite Hnone in Hinvalid.
    apply Z.ltb_ge, Z.leb_le in Hone. rewrite Hone in Hinvalid. discriminate.
  - apply Z.ltb_ge in Hsource. lia.
Qed.

Lemma swap_sent (t : transport) (params : SwapContainerInput) :
  target_valid params = true -> source_count params <= 1 ->
  (0 < length (snd (run t (i3_swap_containers params))) <= 2)%nat /\
  head (snd (run t (i3_swap_containers params)))
  = Some (CallCommand
            (if 0 <? source_count params
             then source_criteria params +:+ " focus"
             else "swap container with " +:+ target_criteria params)).
Proof.
  intros Hvalid Hsource. unfold target_valid in Hvalid.
  apply andb_true_iff in Hvalid as [Hsome Hcount].
  assert (Hnone :
    negb (Py.truthy_oint (sc_target_id params)) &&
    negb (Py.truthy_oint (sc_target_con_id params)) &&
    negb (Py.truthy_ostr (sc_target_mark params)) = false).
  { rewrite <- !negb_orb. now rewrite Hsome. }
  assert (Hone : (1 <? target_count params) = false)
    by (apply Z.ltb_ge; now apply Z.leb_le).
  apply Z.ltb_ge in Hsource.
  unfold i3_swap_containers, run. rewrite Hnone, Hone, Hsource.
  destruct (0 <? source_count params).
  - rewrite exec_bind, exec_run_i3_msg. cbn [fst snd].
    destruct (Json.success _); cbn [negb].
    + rewrite exec_bind, exec_run_i3_msg. cbn. split; [lia | reflexivity].
    + cbn. split; [lia | reflexivity].
  - rewrite exec_bind, exec_run_i3_msg. cbn. split; [lia | reflexivity].
Qed.

(** X22: [i3_swap_containers] sends nothing exactly when the target fails
    its two checks or more than one source parameter is given, and never
    sends more than two calls.  A target that passes names the one target
    parameter given, which is an id other than 0 or a non-empty mark: a
    target id of 0 is rejected.  A source id of 0 is not rejected: given as
    the only source parameter it passes the count, is skipped by the
    selector, and the window focused first is the one that bears the mark
    [None]. *)
Theorem i3_swap_containers_selectors (t : transport) (params : SwapContainerInput) :
  (snd (run t (i3_swap_containers params)) = [] <->
   target_valid params = false \/ 1 < source_count params) /\
  (length (snd (run t (i3_swap_containers params))) <= 2)%nat /\
  (target_valid params = true ->
   (exists n, n <> 0 /\ sc_target_id params = Some n /\
              sc_target_con_id params = None /\ sc_target_mark params = None /\
              target_criteria params = "id " +:+ Py.str_of_int n) \/
   (exists n, n <> 0 /\ sc_target_id params = None /\
              sc_target_con_id params = Some n /\ sc_target_mark params = None /\
              target_criteria params = "con_id " +:+ Py.str_of_int n) \/
   (exists mark, mark <> "" /\ sc_target_id params = None /\
                 sc_target_con_id params = None /\ sc_target_mark params = Some mark /\
                 target_criteria params = "mark " +:+ Py.DQ +:+ mark +:+ Py.DQ)) /\
  (target_valid params = true ->
   source_count params = 1 ->
   sc_source_id params = Some 0 \/ sc_source_con_id params = Some 0 ->
   head (snd (run t (i3_swap_containers params)))
   = Some (CallCommand ("[con_mark=" +:+ Py.DQ +:+ "None" +:+ Py.DQ +:+ "] focus"))).
Proof.
  split; [|split; [|split]].
  - split.
    + intros Hnil.
      destruct (target_valid params) eqn:Hvalid; [|now left].
      destruct (Z.ltb_spec 1 (source_count params)) as [Hsource|Hsource];
        [now right|].
      destruct (swap_sent t params Hvalid Hsource) as [[Hlen _] _].
      rewrite Hnil in Hlen. cbn in Hlen. lia.
    + intros Hinvalid. destruct (swap_rejected t params Hinvalid) as [msg ->].
      reflexivity.
  - destruct (target_valid params) eqn:Hvalid.
    + destruct (Z.ltb_spec 1 (source_count params)) as [Hsource|Hsource].
      * destruct (swap_rejected t params (or_intror Hsource)) as [msg ->].
        cbn. lia.
      * apply (swap_sent t params Hvalid Hsource).
    + destruct (swap_rejected t params (or_introl Hvalid)) as [msg ->].
      cbn. lia.
  - destruct params as [tid tcid tmark sid scid smark].
    unfold target_valid, target_count, target_criteria, Py.truthy_oint.
    cbn [sc_target_id sc_target_con_id sc_target_mark].
    destruct tid as [tid|], tcid as [tcid|], tmark as [[|c m]|];
      try zero_or_not tid; try zero_or_not tcid; cbn; intros H;
      first
        [ discriminate H
        | left; eexists; repeat split; first [eassumption | reflexivity]
        | right; left; eexists; repeat split; first [eassumption | reflexivity]
        | right; right; eexists; repeat split; first [discriminate | reflexivity] ].
  - intros Hvalid Hone Hzero.
    destruct (swap_sent t params Hvalid) as [_ ->]; [lia|].
    rewrite Hone. change (0 <? 1) with true. cbv iota. do 2 f_equal.
    destruct params as [tid tcid tmark sid scid smark].
    unfold source_count, source_criteria in *.
    cbn [sc_source_id sc_source_con_id sc_source_mark] in *.
    destruct Hzero as [-> | ->].
    + destruct scid, smark; try discriminate Hone. reflexivity.
    + destruct sid, smark; try discriminate Hone. reflexivity.
Qed.

(** Window 0 as the source, window 9 as the target. *)
Lemma i3_swap_containers_selectors_witness :
  head (snd (run transport_ok
               (i3_swap_containers
                  (mkSwapContainerInput (Some 9) None None (Some 0) None None))))
  = Some (CallCommand ("[con_mark=" +:+ Py.DQ +:+ "None" +:+ Py.DQ +:+ "] focus")).
Proof.
  exact (proj2 (proj2 (proj2 (i3_swap_containers_selectors transport_ok
                                (mkSwapContainerInput (Some 9) None None
                                   (Some 0) None None))))
           eq_refl eq_refl (or_introl eq_refl)).
Defined.
